(** * LegalLens: a shallow embedding of the application glue

    The repository is a browser application.  Its own code is state
    management around three opaque capabilities: text extraction
    (FileReader, pdf.js, Tesseract), a hosted language model, and a PDF
    writer.  The embedding keeps the application code as functions over
    explicit state and takes each capability as a parameter of a Section.

    JavaScript strings are sequences of UTF-16 code units; [length],
    [substring], [includes], [trim] and the regular expression class [\s]
    all work on code units, so a string is a [list N] here. *)

From stdpp Require Import gmap list.
From Stdlib Require Import ZArith NArith String Ascii QArith DecimalString Lia.

#[local] Set Warnings "-register-all,-abstract-large-number".

Local Open Scope N_scope.

(** ** JavaScript strings *)

Module JS.

Definition jsstring := list N.

(** An ASCII literal of the source, as code units. *)
Definition lit (s : string) : jsstring :=
  List.map N_of_ascii (list_ascii_of_string s).

Definition nl : jsstring := [10].
Definition dquote : jsstring := [34].
Definition bullet : jsstring := [8226].

(** [Number.prototype.toString] on a non-negative integer below 1e21. *)
Definition numToString (n : N) : jsstring :=
  lit (NilZero.string_of_uint (N.to_uint n)).

(** The class [\s] of a regular expression, which is also the set that
    [String.prototype.trim] strips: WhiteSpace and LineTerminator. *)
Definition isWhiteSpace (c : N) : bool :=
  (9 <=? c) && (c <=? 13)
  || (c =? 32) || (c =? 160) || (c =? 5760)
  || (8192 <=? c) && (c <=? 8202)
  || (c =? 8232) || (c =? 8233) || (c =? 8239) || (c =? 8287)
  || (c =? 12288) || (c =? 65279).

(** [s.replace(/\s/g, '')] *)
Fixpoint removeWhitespace (s : jsstring) : jsstring :=
  match s with
  | [] => []
  | c :: r => if isWhiteSpace c then removeWhitespace r else c :: removeWhitespace r
  end.

Fixpoint trimStart (s : jsstring) : jsstring :=
  match s with
  | [] => []
  | c :: r => if isWhiteSpace c then trimStart r else s
  end.

Definition trimEnd (s : jsstring) : jsstring := rev (trimStart (rev s)).

(** [s.trim()] *)
Definition trim (s : jsstring) : jsstring := trimEnd (trimStart s).

Fixpoint eqb (s t : jsstring) : bool :=
  match s, t with
  | [], [] => true
  | c :: s', d :: t' => (c =? d) && eqb s' t'
  | _, _ => false
  end.

(** [s.startsWith(p)] *)
Fixpoint startsWith (s p : jsstring) : bool :=
  match p, s with
  | [], _ => true
  | d :: p', c :: s' => (c =? d) && startsWith s' p'
  | _ :: _, [] => false
  end.

(** [s.endsWith(p)] *)
Definition endsWith (s p : jsstring) : bool := startsWith (rev s) (rev p).

(** [s.includes(p)] *)
Fixpoint includes (s p : jsstring) : bool :=
  startsWith s p ||
  match s with
  | [] => false
  | _ :: s' => includes s' p
  end.

(** [s.substring(a, b)] for non-negative integer arguments: both are
    clamped to the length and swapped when [a > b]. *)
Definition substring (s : jsstring) (a b : nat) : jsstring :=
  let a' := Nat.min a (List.length s) in
  let b' := Nat.min b (List.length s) in
  take (Nat.max a' b' - Nat.min a' b') (drop (Nat.min a' b') s).

(** [xs.join(sep)] *)
Fixpoint join (sep : jsstring) (xs : list jsstring) : jsstring :=
  match xs with
  | [] => []
  | [x] => x
  | x :: r => x ++ sep ++ join sep r
  end.

(** Truthiness of a value of type [string | undefined]: [undefined] and
    the empty string are falsy. *)
Definition truthy (o : option jsstring) : bool :=
  match o with
  | Some (_ :: _) => true
  | _ => false
  end.

(** [o || d] at type [string | undefined]. *)
Definition orElse (o : option jsstring) (d : jsstring) : jsstring :=
  match o with
  | Some (c :: r) => c :: r
  | _ => d
  end.

(** A thrown or rejected [Error]: only its message is observed. *)
Record Error := mkError { message : jsstring }.

(** How a call or a promise ends. *)
Inductive completion (A : Type) :=
| Return (a : A)
| Throw (e : Error).
Arguments Return {A} a.
Arguments Throw {A} e.

Definition isThrow {A} (c : completion A) : bool :=
  match c with Throw _ => true | Return _ => false end.

End JS.
Import JS.

(** ** types.ts *)

Inductive RiskLevel := LOW | MEDIUM | HIGH.

Definition RiskLevel_value (r : RiskLevel) : jsstring :=
  match r with
  | LOW => lit "Low"
  | MEDIUM => lit "Medium"
  | HIGH => lit "High"
  end.

(** The string union of [AnalysisResult.domain]. *)
Inductive Domain :=
| DomProperty | DomEmployment | DomFinancial | DomCommercial
| DomConsumer | DomIT | DomOther.

Definition Domain_value (d : Domain) : jsstring :=
  match d with
  | DomProperty => lit "Property"
  | DomEmployment => lit "Employment"
  | DomFinancial => lit "Financial"
  | DomCommercial => lit "Commercial"
  | DomConsumer => lit "Consumer"
  | DomIT => lit "IT"
  | DomOther => lit "Other"
  end.

(** Clause ids are the integers the schema asks of the model. *)
Record Clause := mkClause {
  id : Z;
  title : jsstring;
  text : jsstring;
  riskLevel : RiskLevel;
  explanation : jsstring;
  indianLawReference : jsstring;
  suggestion : option jsstring
}.

Record AnalysisResult := mkAnalysisResult {
  summary : jsstring;
  domain : Domain;
  clauses : list Clause;
  overallRiskScore : Z;
  redFlags : list jsstring;
  nextSteps : list jsstring
}.

Inductive Role := user | model.

(** [timestamp] is a [Date], kept as its millisecond value. *)
Record ChatMessage := mkChatMessage {
  msg_id : jsstring;
  role : Role;
  msg_text : jsstring;
  timestamp : N
}.

(** ** services/fileProcessor *)

Module FileProcessor.

(** A browser [File]: the two fields the code reads, and its bytes. *)
Record File := mkFile {
  name : jsstring;
  type : jsstring;
  bytes : list N
}.

(** What pdf.js yields for a loaded document: one entry per page, the
    [str] of each text item, or the error with which [getPage] or
    [getTextContent] rejects for that page. *)
Definition PdfDocument := list (completion (list jsstring)).

Definition failedToRead : Error :=
  mkError (lit "Failed to read text file").
Definition scannedPdf : Error :=
  mkError (lit "Scanned PDF detected").
Definition couldNotExtract : Error :=
  mkError (lit "Could not extract text from PDF. It might be a scanned image or password protected.").
Definition ocrFailed : Error :=
  mkError (lit "OCR processing failed.").
Definition unsupportedType : Error :=
  mkError (lit "Unsupported file type. Please use .txt, .pdf, .jpg, or .png.").

(** The body of the page loop: [fullText += `--- Page ${i} ---\n${pageText}\n\n`]. *)
Definition appendPage (fullText : jsstring) (i : N) (items : list jsstring) : jsstring :=
  let pageText := join (lit " ") items in
  fullText ++ lit "--- Page " ++ numToString i ++ lit " ---" ++ nl ++ pageText ++ nl ++ nl.

(** [for (let i = 1; i <= pdf.numPages; i++)], started at page [i] with
    the text gathered so far; [Throw] when a page cannot be read. *)
Fixpoint pageLoop (i : N) (pages : PdfDocument) (fullText : jsstring)
  : completion jsstring :=
  match pages with
  | [] => Return fullText
  | Throw e :: _ => Throw e
  | Return items :: rest => pageLoop (i + 1) rest (appendPage fullText i items)
  end.

(** The text the PDF branch builds before its length check. *)
Definition pdfFullText (pdf : PdfDocument) : completion jsstring :=
  pageLoop 1 pdf [].

(** The three tests [extractTextFromFile] makes on a file, in its order. *)
Definition isText (file : File) : bool :=
  JS.eqb (type file) (lit "text/plain")
  || endsWith (name file) (lit ".md")
  || endsWith (name file) (lit ".txt").

Definition isPdf (file : File) : bool := JS.eqb (type file) (lit "application/pdf").

Definition isImage (file : File) : bool := startsWith (type file) (lit "image/").

(** The text that was extracted from the pages, as the claim about scans
    speaks of it: the [pageText] of every page, concatenated, without the
    markers that the loop adds around it. *)
Definition extractedText (pages : list (list jsstring)) : jsstring :=
  List.concat (List.map (join (lit " ")) pages).

(** What one page adds to the text: [`--- Page ${i} ---\n${pageText}\n\n`]. *)
Definition pageBlock (i : N) (items : list jsstring) : jsstring :=
  lit "--- Page " ++ numToString i ++ lit " ---" ++ nl ++ join (lit " ") items ++ nl ++ nl.

Section Extractor.

(** The three capabilities the extractor delegates to: [FileReader]
    ([None] is [onerror]), [getDocument(...).promise] and
    [Tesseract.recognize] ([None] is a rejected promise). *)
Variable readAsText : File -> option jsstring.
Variable getDocument : File -> completion PdfDocument.
Variable recognize : File -> option jsstring.

(** The inner [try] of the PDF branch. *)
Definition extractPdfText (file : File) : completion jsstring :=
  match getDocument file with
  | Throw e => Throw e
  | Return pdf =>
      match pdfFullText pdf with
      | Throw e => Throw e
      | Return fullText =>
          if (List.length (removeWhitespace fullText) <? 50)%nat
          then Throw scannedPdf
          else Return fullText
      end
  end.

(** [extractTextFromFile]: how the returned promise settles. *)
Definition extractTextFromFile (file : File) : completion jsstring :=
  if JS.eqb (type file) (lit "text/plain")
     || endsWith (name file) (lit ".md")
     || endsWith (name file) (lit ".txt")
  then
    match readAsText file with
    | Some result => Return result
    | None => Throw failedToRead
    end
  else if JS.eqb (type file) (lit "application/pdf") then
    match extractPdfText file with
    | Return fullText => Return fullText
    | Throw _ => Throw couldNotExtract
    end
  else if startsWith (type file) (lit "image/") then
    match recognize file with
    | Some t => Return t
    | None => Throw ocrFailed
    end
  else Throw unsupportedType.

End Extractor.

End FileProcessor.

(** ** components/FileUpload.tsx *)

Module FileUpload.
Import FileProcessor.

Inductive Mode := upload | paste.

Record State := mkState {
  dragActive : bool;
  manualText : jsstring;
  mode : Mode;
  isProcessing : bool
}.

Definition initial : State :=
  {| dragActive := false; manualText := []; mode := upload; isProcessing := false |}.

(** What a handler does outside the component: the [onDataLoaded] prop
    and [alert]. *)
Inductive Effect :=
| OnDataLoaded (text fileName : jsstring)
| Alert (msg : jsstring).

Definition pasteInstead : jsstring :=
  lit "Could not auto-parse PDF in this demo. Please paste content here.".

Section Component.

Variable readAsText : File -> option jsstring.
Variable getDocument : File -> completion PdfDocument.
Variable recognize : File -> option jsstring.

(** [processFile], from [setIsProcessing(true)] to the [finally]. *)
Definition processFile (file : File) (st : State) : State * list Effect :=
  let st1 := {| dragActive := dragActive st; manualText := manualText st;
                mode := mode st; isProcessing := true |} in
  match extractTextFromFile readAsText getDocument recognize file with
  | Return text =>
      if includes text (lit "Unable to extract") then
        ({| dragActive := dragActive st1;
            manualText := pasteInstead;
            mode := paste; isProcessing := false |}, [])
      else
        ({| dragActive := dragActive st1; manualText := manualText st1;
            mode := mode st1; isProcessing := false |},
         [OnDataLoaded text (name file)])
  | Throw err =>
      ({| dragActive := dragActive st1; manualText := manualText st1;
          mode := mode st1; isProcessing := false |},
       [Alert (orElse (Some (message err)) (lit "Error reading file"))])
  end.

(** [handleDrop] on the files of the drop: the highlight is cleared,
    and the first file, when there is one, is processed. *)
Definition handleDrop (files : list File) (st : State) : State * list Effect :=
  let st1 := {| dragActive := false; manualText := manualText st;
                mode := mode st; isProcessing := isProcessing st |} in
  match files with
  | file :: _ => processFile file st1
  | [] => (st1, [])
  end.

End Component.

(** [handleDrag] on an event of type [eventType]. *)
Definition handleDrag (eventType : jsstring) (st : State) : State :=
  if JS.eqb eventType (lit "dragenter") || JS.eqb eventType (lit "dragover") then
    {| dragActive := true; manualText := manualText st;
       mode := mode st; isProcessing := isProcessing st |}
  else if JS.eqb eventType (lit "dragleave") then
    {| dragActive := false; manualText := manualText st;
       mode := mode st; isProcessing := isProcessing st |}
  else st.

(** [handleManualSubmit] *)
Definition handleManualSubmit (st : State) : State * list Effect :=
  if (List.length (trim (manualText st)) <? 50)%nat
  then (st, [Alert (lit "Please enter more text for a valid analysis.")])
  else (st, [OnDataLoaded (manualText st) (lit "Manual Paste.txt")]).

End FileUpload.

(** ** services/geminiService *)

Module GeminiService.

Definition ANALYSIS_MODEL : jsstring := lit "gemini-2.5-flash".
Definition CHAT_MODEL : jsstring := lit "gemini-2.5-flash".

Inductive Schema :=
| TObject (properties : list (string * Schema)) (required : list string)
| TString (enum : list string) (description : option string)
| TInteger (description : option string)
| TArray (items : Schema) (description : option string).

Definition analysisSchema : Schema :=
  TObject
    [("summary"%string, TString [] (Some "A concise summary of the legal document in simple English."%string));
     ("domain"%string,
        TString ["Property"; "Employment"; "Financial"; "Commercial"; "Consumer"; "IT"; "Other"]%string
                (Some "The legal domain of the document."%string));
     ("clauses"%string,
        TArray
          (TObject
             [("id"%string, TInteger None);
              ("title"%string, TString [] None);
              ("text"%string, TString [] (Some "The verbatim text of the extracted clause."%string));
              ("riskLevel"%string, TString ["Low"; "Medium"; "High"]%string None);
              ("explanation"%string, TString [] (Some "Why this is risky, explained simply."%string));
              ("indianLawReference"%string,
                 TString [] (Some "Relevant Indian Act/Section (e.g., Section 27, Indian Contract Act)."%string))]
             ["id"; "title"; "text"; "riskLevel"; "explanation"; "indianLawReference"]%string)
          None);
     ("overallRiskScore"%string, TInteger (Some "A score from 0 (Safe) to 100 (High Risk)."%string));
     ("redFlags"%string,
        TArray (TString [] None) (Some "List of immediate red flags or missing standard clauses."%string));
     ("nextSteps"%string,
        TArray (TString [] None)
          (Some "Actionable advice: Notary requirements, Stamp duty, Registration needs, or dispute resolution steps in India."%string))]
    ["summary"; "domain"; "clauses"; "overallRiskScore"; "redFlags"; "nextSteps"]%string.

Record GenerateContentConfig := mkConfig {
  responseMimeType : jsstring;
  responseSchema : Schema;
  systemInstruction : jsstring
}.

Record GenerateContentRequest := mkRequest {
  req_model : jsstring;
  contents : jsstring;
  config : option GenerateContentConfig
}.

(** The handle [ai.chats.create] returns: the configuration it was
    created with. *)
Record Chat := mkChat {
  chat_model : jsstring;
  chat_systemInstruction : jsstring
}.

(** A request that leaves the browser. *)
Inductive NetCall :=
| GenerateContent (req : GenerateContentRequest)
| ChatSendMessage (chat : Chat) (msg : jsstring).

(** The surroundings of the module: the key read from [process.env]
    when the module loads, the hosted model (whose answers may depend on
    a state of its own, [World]), and [JSON.parse] typed as the code
    casts its result. *)
Record Env := mkEnv {
  World : Type;
  apiKey : option jsstring;
  generateContent : World -> GenerateContentRequest -> World * completion (option jsstring);
  chatSendMessage : World -> Chat -> jsstring -> World * completion (option jsstring);
  JSON_parse : jsstring -> completion AnalysisResult
}.

(** The analysis prompt up to the document text. *)
Definition analysisPromptHead : jsstring :=
  (join nl
    [[];
     lit "    You are LegalLens India, an expert Indian legal assistant. ";
     lit "    Analyze the following legal document text. ";
     lit "    Identify key clauses, assess their risk based on Indian Law (IPC, Contract Act, Companies Act, etc.), ";
     lit "    and provide a structured analysis.";
     lit "    ";
     lit "    Also provide 3-5 specific "])
  ++ dquote
  ++ (lit "Next Steps")
  ++ dquote
  ++ (join nl
    [lit " regarding:";
     lit "    1. Is Notarization or Registration mandatory? (e.g., Rent agreements > 11 months).";
     lit "    2. Stamp duty implications.";
     lit "    3. Recommended dispute resolution method (Arbitration vs Court).";
     lit "    ";
     lit "    Document Text:";
     lit "    "])
  ++ dquote
  ++ dquote
  ++ dquote.

(** The analysis prompt after the document text. *)
Definition analysisPromptTail : jsstring :=
  dquote
  ++ dquote
  ++ dquote
  ++ (join nl
    [lit " ";
     lit "    ";
     lit "    Ensure strict adherence to the output JSON schema.";
     lit "  "]).

(** The rewrite prompt up to the clause text. *)
Definition rewritePromptHead : jsstring :=
  (join nl
    [[];
     lit "    Rewrite the following legal clause to be safer for the receiving party (client), ";
     lit "    fairer, and strictly compliant with Indian Law. ";
     lit "    Keep the language professional but clearer.";
     lit "    ";
     lit "    Original Clause: "])
  ++ dquote.

(** The rewrite prompt between the clause text and the domain. *)
Definition rewritePromptMid : jsstring :=
  dquote
  ++ (join nl
    [[];
     lit "    ";
     lit "    Context/Domain: "]).

(** The rewrite prompt after the domain. *)
Definition rewritePromptTail : jsstring :=
  (join nl
    [[];
     lit "    ";
     lit "    Return ONLY the rewritten clause text.";
     lit "  "]).

(** The chat system instruction up to the document context. *)
Definition chatInstructionHead : jsstring :=
  (join nl
    [lit "You are LegalLens India. You are chatting with a user about a specific legal document they uploaded. ";
     lit "      Here is the document context: "])
  ++ dquote
  ++ dquote
  ++ dquote.

(** The chat system instruction after the document context. *)
Definition chatInstructionTail : jsstring :=
  dquote
  ++ dquote
  ++ dquote
  ++ (join nl
    [lit ".";
     lit "      Answer questions based on Indian Law. If a query is outside legal scope, politely decline.";
     lit "      Keep answers concise and helpful."]).

Definition apiKeyMissing : Error := mkError (lit "API Key is missing.").
Definition noResponse : Error := mkError (lit "No response from AI").
Definition notInitialized : Error := mkError (lit "Chat session not initialized").

(** The prompt of [analyzeDocument]. *)
Definition analysisPrompt (text : jsstring) : jsstring :=
  analysisPromptHead ++ substring text 0 30000 ++ analysisPromptTail.

Definition analysisRequest (text : jsstring) : GenerateContentRequest :=
  {| req_model := ANALYSIS_MODEL;
     contents := analysisPrompt text;
     config := Some {| responseMimeType := lit "application/json";
                       responseSchema := analysisSchema;
                       systemInstruction :=
                         lit "You are a senior Indian Legal expert. Be precise, conservative with risk, and helpful." |} |}.

(** The prompt of [rewriteClause]. *)
Definition rewritePrompt (clauseText context : jsstring) : jsstring :=
  rewritePromptHead ++ clauseText ++ rewritePromptMid ++ context ++ rewritePromptTail.

Definition rewriteRequest (clauseText context : jsstring) : GenerateContentRequest :=
  {| req_model := ANALYSIS_MODEL;
     contents := rewritePrompt clauseText context;
     config := None |}.

Definition chatInstruction (docContext : jsstring) : jsstring :=
  chatInstructionHead ++ substring docContext 0 20000 ++ chatInstructionTail.

Section Service.

Variable E : Env.

(** The result of one exported function: the requests it issued, the
    model's state and the module variable [chatSession] afterwards, and
    how the call (or its promise) ended. *)
Record Outcome (A : Type) := mkOutcome {
  calls : list NetCall;
  world : World E;
  chatSession : option Chat;
  result : completion A
}.
Arguments mkOutcome {A}.
Arguments calls {A}.
Arguments world {A}.
Arguments chatSession {A}.
Arguments result {A}.

(** [analyzeDocument] *)
Definition analyzeDocument (text : jsstring) (w : World E) (session : option Chat)
  : Outcome AnalysisResult :=
  if negb (truthy (apiKey E)) then mkOutcome [] w session (Throw apiKeyMissing)
  else
    let req := analysisRequest text in
    let (w', response) := generateContent E w req in
    mkOutcome [GenerateContent req] w' session
      match response with
      | Throw error => Throw error
      | Return jsonText =>
          match jsonText with
          | Some (c :: r) => JSON_parse E (c :: r)
          | _ => Throw noResponse
          end
      end.

(** [rewriteClause] *)
Definition rewriteClause (clauseText context : jsstring) (w : World E) (session : option Chat)
  : Outcome jsstring :=
  if negb (truthy (apiKey E)) then mkOutcome [] w session (Throw apiKeyMissing)
  else
    let req := rewriteRequest clauseText context in
    let (w', response) := generateContent E w req in
    mkOutcome [GenerateContent req] w' session
      match response with
      | Throw error => Throw error
      | Return t => Return (orElse t (lit "Could not generate rewrite."))
      end.

(** [initChat] *)
Definition initChat (docContext : jsstring) (w : World E) (session : option Chat)
  : Outcome unit :=
  if negb (truthy (apiKey E)) then mkOutcome [] w session (Return tt)
  else
    mkOutcome [] w
      (Some {| chat_model := CHAT_MODEL;
               chat_systemInstruction := chatInstruction docContext |})
      (Return tt).

(** [sendMessageToChat] *)
Definition sendMessageToChat (msg : jsstring) (w : World E) (session : option Chat)
  : Outcome jsstring :=
  match session with
  | None => mkOutcome [] w session (Throw notInitialized)
  | Some chat =>
      let (w', response) := chatSendMessage E w chat msg in
      mkOutcome [ChatSendMessage chat msg] w' session
        match response with
        | Throw error => Throw error
        | Return t => Return (orElse t (lit "I didn't understand that."))
        end
  end.

(** The four exported functions as one interface. *)
Inductive Call :=
| AnalyzeDocument (text : jsstring)
| RewriteClause (clauseText context : jsstring)
| InitChat (docContext : jsstring)
| SendMessageToChat (msg : jsstring).

(** Whether the call ended in an error, with the state it leaves. *)
Definition perform (c : Call) (w : World E) (session : option Chat)
  : bool * list NetCall * World E * option Chat :=
  match c with
  | AnalyzeDocument text =>
      let o := analyzeDocument text w session in
      (isThrow (result o), calls o, world o, chatSession o)
  | RewriteClause clauseText context =>
      let o := rewriteClause clauseText context w session in
      (isThrow (result o), calls o, world o, chatSession o)
  | InitChat docContext =>
      let o := initChat docContext w session in
      (isThrow (result o), calls o, world o, chatSession o)
  | SendMessageToChat msg =>
      let o := sendMessageToChat msg w session in
      (isThrow (result o), calls o, world o, chatSession o)
  end.

(** The module after a sequence of calls, started from a state. *)
Fixpoint performAll (cs : list Call) (w : World E) (session : option Chat)
  : World E * option Chat :=
  match cs with
  | [] => (w, session)
  | c :: rest =>
      let '(_, _, w', session') := perform c w session in
      performAll rest w' session'
  end.

(** The document of the last [initChat] in a sequence of calls. *)
Fixpoint lastInit (cs : list Call) (found : option jsstring) : option jsstring :=
  match cs with
  | [] => found
  | InitChat docContext :: rest => lastInit rest (Some docContext)
  | _ :: rest => lastInit rest found
  end.

(** The session [initChat] creates for a document. *)
Definition sessionFor (docContext : jsstring) : Chat :=
  {| chat_model := CHAT_MODEL; chat_systemInstruction := chatInstruction docContext |}.

End Service.

Arguments mkOutcome {E A}.
Arguments calls {E A}.
Arguments world {E A}.
Arguments chatSession {E A}.
Arguments result {E A}.

End GeminiService.

(** ** components/ClausePanel *)

Module ClausePanel.
Import GeminiService.

Record State := mkState {
  expandedClauseId : option Z;
  rewritingId : option Z
}.

Definition initial : State :=
  {| expandedClauseId := None; rewritingId := None |}.

(** [expandedClauseId === id] at type [number | null]. *)
Definition sameId (o : option Z) (i : Z) : bool :=
  match o with
  | Some j => (j =? i)%Z
  | None => false
  end.

(** [toggleClause] *)
Definition toggleClause (i : Z) (st : State) : State :=
  {| expandedClauseId := if sameId (expandedClauseId st) i then None else Some i;
     rewritingId := rewritingId st |}.

(** The guard of the expanded content: [expandedClauseId === clause.id]. *)
Definition isExpanded (st : State) (c : Clause) : bool :=
  sameId (expandedClauseId st) (id c).

(** The clauses of a result that are drawn expanded. *)
Definition expandedClauses (st : State) (a : AnalysisResult) : list Clause :=
  List.filter (isExpanded st) (clauses a).

(** What [handleRewrite] does outside the component. *)
Inductive Effect :=
| OnRewriteUpdate (i : Z) (text : jsstring)
| Alert (msg : jsstring).

(** [handleRewrite], from [setRewritingId(clause.id)] to the [finally]. *)
Definition handleRewrite (E : Env) (a : AnalysisResult) (clause : Clause)
    (w : World E) (session : option Chat) (st : State)
  : State * Outcome E unit * list Effect :=
  let o := rewriteClause E (text clause) (Domain_value (domain a)) w session in
  let st' := {| expandedClauseId := expandedClauseId st; rewritingId := None |} in
  match result o with
  | Return newText =>
      (st', mkOutcome (calls o) (world o) (chatSession o) (Return tt),
       [OnRewriteUpdate (id clause) newText])
  | Throw _ =>
      (st', mkOutcome (calls o) (world o) (chatSession o) (Return tt),
       [Alert (lit "Failed to rewrite clause")])
  end.

(** The state while [rewriteClause] is awaited: [setRewritingId(clause.id)]. *)
Definition rewritePending (clause : Clause) (st : State) : State :=
  {| expandedClauseId := expandedClauseId st; rewritingId := Some (id clause) |}.

(** The rewrite section of an expanded clause shows the stored rewrite
    when [rewrites[clause.id]] is truthy, and the button otherwise. *)
Definition showsRewrite (rw : gmap Z jsstring) (st : State) (c : Clause) : bool :=
  isExpanded st c && truthy (rw !! id c).

Definition offersRewrite (rw : gmap Z jsstring) (st : State) (c : Clause) : bool :=
  isExpanded st c && negb (truthy (rw !! id c)).

(** [disabled={rewritingId === clause.id}] *)
Definition rewriteDisabled (st : State) (c : Clause) : bool :=
  sameId (rewritingId st) (id c).

End ClausePanel.

(** ** components/ChatWindow.tsx *)

Module ChatWindow.
Import GeminiService.

Record State := mkState {
  messages : list ChatMessage;
  input : jsstring;
  isTyping : bool
}.

Definition greeting : jsstring :=
  lit "Hello! I have analyzed your document. I can explain specific clauses, risks, or Indian legal implications. What would you like to know?".

Definition apology : jsstring :=
  lit "Sorry, I encountered an error connecting to the AI.".

(** The first state, mounted at time [now]. *)
Definition initial (now : N) : State :=
  {| messages := [ {| msg_id := lit "1"; role := model; msg_text := greeting; timestamp := now |} ];
     input := [];
     isTyping := false |}.

(** [onChange] of the text field. *)
Definition setInput (v : jsstring) (st : State) : State :=
  {| messages := messages st; input := v; isTyping := isTyping st |}.

(** The clock readings of one turn: [Date.now()] and [new Date()] when
    the message is sent, and again when the answer arrives. *)
Record Clock := mkClock {
  sentNow : N;
  sentDate : N;
  settledNow : N;
  settledDate : N
}.

(** [handleSend], from the guard to the [finally]. *)
Definition handleSend (E : Env) (clock : Clock) (w : World E) (session : option Chat)
    (st : State) : State * World E * list NetCall :=
  match trim (input st) with
  | [] => (st, w, [])
  | _ :: _ =>
      let userMsg := {| msg_id := numToString (sentNow clock); role := user;
                        msg_text := input st; timestamp := sentDate clock |} in
      let messages1 := messages st ++ [userMsg] in
      let o := sendMessageToChat E (msg_text userMsg) w session in
      match result o with
      | Return responseText =>
          let botMsg := {| msg_id := numToString (settledNow clock + 1); role := model;
                           msg_text := responseText; timestamp := settledDate clock |} in
          ({| messages := messages1 ++ [botMsg]; input := []; isTyping := false |},
           world o, calls o)
      | Throw _ =>
          ({| messages := messages1 ++
                [ {| msg_id := lit "err"; role := model; msg_text := apology;
                     timestamp := settledDate clock |} ];
              input := []; isTyping := false |},
           world o, calls o)
      end
  end.

(** One turn of the user: type [v], then send. *)
Definition turn (E : Env) (v : jsstring) (clock : Clock) (w : World E)
    (session : option Chat) (st : State) : State * World E * list NetCall :=
  handleSend E clock w session (setInput v st).

(** Whether the turn's call to the model fails. *)
Definition turnFails (E : Env) (v : jsstring) (w : World E) (session : option Chat) : bool :=
  isThrow (result (sendMessageToChat E v w session)).

Definition ids (st : State) : list jsstring := List.map msg_id (messages st).

(** [text.split('**')]: the parts between the occurrences of two
    asterisks, found from the left without overlap; [cur] holds, in
    reverse, the part being read. *)
Fixpoint splitStars (cur : jsstring) (s : jsstring) {struct s} : list jsstring :=
  match s with
  | [] => [rev cur]
  | c :: r =>
      match r with
      | d :: r' =>
          if (c =? 42) && (d =? 42) then rev cur :: splitStars [] r'
          else splitStars (c :: cur) r
      | [] => [rev (c :: cur)]
      end
  end.

(** The parts of a message as they are drawn: every second part, from
    the second on, inside [<strong>]. *)
Definition renderText (t : jsstring) : list (bool * jsstring) :=
  imap (fun i part => (Nat.odd i, part)) (splitStars [] t).

(** Several turns, one after the other, against the same session. *)
Fixpoint turns (E : Env) (ts : list (jsstring * Clock)) (w : World E)
    (session : option Chat) (st : State) : State * World E * list NetCall :=
  match ts with
  | [] => (st, w, [])
  | (v, clock) :: rest =>
      let '(st1, w1, calls1) := turn E v clock w session st in
      let '(st2, w2, calls2) := turns E rest w1 session st1 in
      (st2, w2, calls1 ++ calls2)
  end.

(** The turns whose input is not blank. *)
Definition spoken (ts : list (jsstring * Clock)) : list (jsstring * Clock) :=
  List.filter (fun t => match trim (fst t) with [] => false | _ :: _ => true end) ts.

End ChatWindow.

(** ** App *)

Module App.
Import GeminiService.

Inductive Tab := chat | analysis_tab.

Record State := mkState {
  documentText : option jsstring;
  docName : jsstring;
  analysis : option AnalysisResult;
  isLoading : bool;
  activeTab : Tab;
  rewrites : gmap Z jsstring
}.

(** The arguments of the [useState] calls. *)
Definition initial : State :=
  {| documentText := None; docName := []; analysis := None;
     isLoading := false; activeTab := chat; rewrites := ∅ |}.

Definition analysisFailed : jsstring :=
  lit "Analysis failed. Please check your API Key and try again.".

(** What [handleDocumentLoaded] leaves behind: the component state, the
    service module and the model, the requests issued, the alerts shown. *)
Record Loaded (E : Env) := mkLoaded {
  app : State;
  service : Outcome E unit;
  alerts : list jsstring
}.
Arguments mkLoaded {E}.
Arguments app {E}.
Arguments service {E}.
Arguments alerts {E}.

(** [handleDocumentLoaded], from the first setter to the [finally]. *)
Definition handleDocumentLoaded (E : Env) (text fileName : jsstring)
    (w : World E) (session : option Chat) (st : State) : Loaded E :=
  let st1 := {| documentText := Some text; docName := fileName;
                analysis := analysis st; isLoading := true;
                activeTab := activeTab st; rewrites := ∅ |} in
  let o := analyzeDocument E text w session in
  match result o with
  | Return r =>
      let o' := initChat E text (world o) (chatSession o) in
      {| app := {| documentText := documentText st1; docName := docName st1;
                   analysis := Some r; isLoading := false;
                   activeTab := activeTab st1; rewrites := rewrites st1 |};
         service := mkOutcome (calls o ++ calls o') (world o') (chatSession o') (Return tt);
         alerts := [] |}
  | Throw _ =>
      {| app := {| documentText := None; docName := docName st1;
                   analysis := analysis st1; isLoading := false;
                   activeTab := activeTab st1; rewrites := rewrites st1 |};
         service := mkOutcome (calls o) (world o) (chatSession o) (Return tt);
         alerts := [analysisFailed] |}
  end.

(** [handleRewriteUpdate]: [setRewrites(prev => ({ ...prev, [id]: text }))]. *)
Definition handleRewriteUpdate (i : Z) (t : jsstring) (st : State) : State :=
  {| documentText := documentText st; docName := docName st;
     analysis := analysis st; isLoading := isLoading st;
     activeTab := activeTab st; rewrites := <[ i := t ]> (rewrites st) |}.

(** [handleReset] *)
Definition handleReset (st : State) : State :=
  {| documentText := None; docName := docName st;
     analysis := None; isLoading := isLoading st;
     activeTab := chat; rewrites := ∅ |}.

(** The [FileUpload] element is given [onDataLoaded={handleDocumentLoaded}]:
    the effects of one of its handlers, carried out in order. *)
Fixpoint onUploadEffects (E : Env) (effs : list FileUpload.Effect)
    (w : World E) (session : option Chat) (st : State) : Loaded E :=
  match effs with
  | [] => mkLoaded st (mkOutcome [] w session (Return tt)) []
  | FileUpload.Alert m :: rest =>
      let l := onUploadEffects E rest w session st in
      mkLoaded (app l) (service l) (m :: alerts l)
  | FileUpload.OnDataLoaded text fileName :: rest =>
      let l1 := handleDocumentLoaded E text fileName w session st in
      let l2 := onUploadEffects E rest (world (service l1)) (chatSession (service l1)) (app l1) in
      mkLoaded (app l2)
        (mkOutcome (calls (service l1) ++ calls (service l2))
           (world (service l2)) (chatSession (service l2)) (Return tt))
        (alerts l1 ++ alerts l2)
  end.

(** A file chosen or dropped while the upload view is shown. *)
Definition uploadFile (E : Env)
    (readAsText : FileProcessor.File -> option jsstring)
    (getDocument : FileProcessor.File -> completion FileProcessor.PdfDocument)
    (recognize : FileProcessor.File -> option jsstring)
    (file : FileProcessor.File) (fu : FileUpload.State)
    (w : World E) (session : option Chat) (st : State)
  : FileUpload.State * Loaded E :=
  let (fu', effs) := FileUpload.processFile readAsText getDocument recognize file fu in
  (fu', onUploadEffects E effs w session st).

(** *** The report: calls on the jsPDF document, in order *)

Inductive TextArg :=
| TStr (s : jsstring)
| TLines (ls : list jsstring).

Inductive PdfOp :=
| setFillColor (r g b : Z)
| setDrawColor (r g b : Z)
| setTextColor (r g b : Z)
| rect (x y w h : Q) (style : jsstring)
| roundedRect (x y w h rx ry : Q) (style : jsstring)
| setFontSize (n : Z)
| setFont (family style : jsstring)
| docText (t : TextArg) (x y : Q) (align : option jsstring)
| addPage
| setPage (i : nat)
| save (fileName : jsstring).

(** The drawing so far and the running [y]. *)
Record Pen := mkPen { ops : list PdfOp; y : Q }.

(** Calls that do not read [y]. *)
Definition emit (o : list PdfOp) (p : Pen) : Pen :=
  {| ops := ops p ++ o; y := y p |}.

(** Calls that are made with the current [y]. *)
Definition draw (f : Q -> list PdfOp) (p : Pen) : Pen :=
  {| ops := ops p ++ f (y p); y := y p |}.

(** [y += d] *)
Definition down (d : Q) (p : Pen) : Pen :=
  {| ops := ops p; y := (y p + d)%Q |}.

(** [if (cond) { doc.addPage(); y = 20; }], the condition being on [y]. *)
Definition breakWhen (cond : Q -> bool) (p : Pen) : Pen :=
  if cond (y p) then {| ops := ops p ++ [addPage]; y := 20%Q |} else p.

(** [a > b] on numbers. *)
Definition gtb (a b : Q) : bool := negb (Qle_bool a b).

(** [lines.length * k] *)
Definition height (ls : list jsstring) (k : Q) : Q :=
  (inject_Z (Z.of_nat (List.length ls)) * k)%Q.

Definition margin : Q := 15%Q.

Definition nextStepsHeading : jsstring := lit "Recommended Next Steps".
Definition redFlagsHeading : jsstring := lit "Critical Red Flags".

Definition helvetica : jsstring := lit "helvetica".

Section Report.

(** jsPDF's page width and its line breaking.  [splitTextToSize] measures
    with the font and size that are current, so it is given the calls made
    on the document so far.  [numberToString] is the conversion of a number
    inside a template literal, applied to the score as the model sent it. *)
Variable pageWidth : Q.
Variable splitTextToSize : list PdfOp -> jsstring -> Q -> list jsstring.
Variable numberToString : Z -> jsstring.

Definition maxTextWidth : Q := (pageWidth - margin * 2)%Q.

(** [const lines = doc.splitTextToSize(s, w); ...]: the rest of the block
    is given the lines. *)
Definition withLines (s : jsstring) (w : Q) (k : list jsstring -> Pen -> Pen)
    (p : Pen) : Pen :=
  k (splitTextToSize (ops p) s w) p.

(** From the banner to the summary box. *)
Definition header (name : jsstring) (a : AnalysisResult) : Pen :=
  let p := {| ops := [setFillColor 16 42 67; rect 0 0 pageWidth 25 (lit "F");
                      setTextColor 255 255 255; setFontSize 18;
                      docText (TStr (lit "LegalLens India Analysis")) margin 16 None];
              y := 35%Q |} in
  let p := draw (fun y =>
             [setTextColor 0 0 0; setFontSize 12; setFont helvetica (lit "bold");
              docText (TStr (lit "Document: " ++ name)) margin y None]) p in
  let p := down 7 p in
  let p := draw (fun y =>
             [setFont helvetica (lit "normal");
              docText (TStr (lit "Domain: " ++ Domain_value (domain a)
                               ++ lit "   |   Risk Score: "
                               ++ numberToString (overallRiskScore a) ++ lit "/100"))
                margin y None]) p in
  let p := down 12 p in
  let p := draw (fun y =>
             [setFillColor 240 244 248; setDrawColor 200 200 200;
              roundedRect margin y maxTextWidth 30 2 2 (lit "FD");
              setFontSize 10; setTextColor 50 50 50]) p in
  let p := withLines (summary a) (maxTextWidth - 10)%Q (fun summaryLines =>
             draw (fun y => [docText (TLines summaryLines) (margin + 5)%Q (y + 10)%Q None])) p in
  down (30 + 10) p.

(** The body of [analysis.nextSteps.forEach]. *)
Definition nextStepItem (p : Pen) (step : jsstring) : Pen :=
  withLines (bullet ++ lit " " ++ step) maxTextWidth (fun stepLines p =>
    let p := breakWhen (fun y => gtb (y + height stepLines 5) 280) p in
    let p := draw (fun y => [docText (TLines stepLines) margin y None]) p in
    down (height stepLines 5 + 2) p) p.

(** [if (analysis.nextSteps && analysis.nextSteps.length > 0) { ... }];
    an array is truthy, so the guard is the length test. *)
Definition nextStepsSection (a : AnalysisResult) (p : Pen) : Pen :=
  if (0 <? List.length (nextSteps a))%nat then
    let p := draw (fun y =>
               [setFillColor 239 246 255; setDrawColor 191 219 254;
                setFontSize 12; setFont helvetica (lit "bold");
                setTextColor 30 58 138;
                docText (TStr nextStepsHeading) margin y None]) p in
    let p := down 6 p in
    let p := emit [setFontSize 10; setFont helvetica (lit "normal"); setTextColor 0 0 0] p in
    let p := fold_left nextStepItem (nextSteps a) p in
    down 5 p
  else p.

(** The body of [analysis.redFlags.forEach]. *)
Definition redFlagItem (p : Pen) (flag : jsstring) : Pen :=
  withLines (bullet ++ lit " " ++ flag) maxTextWidth (fun flagLines p =>
    let p := draw (fun y => [docText (TLines flagLines) margin y None]) p in
    down (height flagLines 5 + 2) p) p.

(** [if (analysis.redFlags.length > 0) { ... }] *)
Definition redFlagsSection (a : AnalysisResult) (p : Pen) : Pen :=
  if (0 <? List.length (redFlags a))%nat then
    let p := breakWhen (fun y => gtb y 250) p in
    let p := draw (fun y =>
               [setTextColor 200 0 0; setFontSize 12; setFont helvetica (lit "bold");
                docText (TStr redFlagsHeading) margin y None]) p in
    let p := down 6 p in
    let p := emit [setTextColor 50 0 0; setFontSize 10; setFont helvetica (lit "normal")] p in
    let p := fold_left redFlagItem (redFlags a) p in
    down 5 p
  else p.

(** The optional last part of a clause block: [if (rewrites[clause.id]) { ... }]. *)
Definition rewriteBlock (rw : gmap Z jsstring) (clause : Clause) (p : Pen) : Pen :=
  match rw !! id clause with
  | Some (c :: r) =>
      let p := draw (fun y =>
                 [setTextColor 16 185 129; setFont helvetica (lit "bold");
                  docText (TStr (lit "Safe Rewrite Suggested:")) margin y None]) p in
      let p := down 5 p in
      let p := emit [setFont helvetica (lit "italic"); setTextColor 6 95 70] p in
      withLines (dquote ++ (c :: r) ++ dquote) maxTextWidth (fun rewriteLines p =>
        let p := draw (fun y => [docText (TLines rewriteLines) margin y None]) p in
        down (height rewriteLines 4 + 4) p) p
  | _ => p
  end.

(** The body of [analysis.clauses.forEach]. *)
Definition clauseBlock (rw : gmap Z jsstring) (p : Pen) (clause : Clause) : Pen :=
  let p := breakWhen (fun y => gtb y 220) p in
  let p := draw (fun y =>
             [setFontSize 11; setFont helvetica (lit "bold"); setTextColor 0 0 0;
              docText (TStr (lit "Clause: " ++ title clause ++ lit " ["
                               ++ RiskLevel_value (riskLevel clause) ++ lit "]"))
                margin y None]) p in
  let p := down 5 p in
  let p := emit [setFontSize 9; setFont helvetica (lit "italic"); setTextColor 80 80 80] p in
  let p := withLines (dquote ++ text clause ++ dquote) maxTextWidth (fun textLines p =>
             let p := draw (fun y => [docText (TLines textLines) margin y None]) p in
             down (height textLines 4 + 3) p) p in
  let p := emit [setFont helvetica (lit "normal"); setTextColor 0 0 0] p in
  let p := withLines (lit "Analysis: " ++ explanation clause) maxTextWidth
             (fun explanationLines p =>
                let p := draw (fun y => [docText (TLines explanationLines) margin y None]) p in
                down (height explanationLines 4 + 2) p) p in
  let p := emit [setTextColor 180 83 9] p in
  let p := withLines (lit "Indian Law: " ++ indianLawReference clause) maxTextWidth
             (fun lawLines p =>
                let p := draw (fun y => [docText (TLines lawLines) margin y None]) p in
                down (height lawLines 4 + 4) p) p in
  let p := rewriteBlock rw clause p in
  down 4 p.

Definition clausesSection (rw : gmap Z jsstring) (a : AnalysisResult) (p : Pen) : Pen :=
  let p := draw (fun y =>
             [setTextColor 16 42 67; setFontSize 14; setFont helvetica (lit "bold");
              docText (TStr (lit "Detailed Clause Analysis")) margin y None]) p in
  let p := down 10 p in
  fold_left (clauseBlock rw) (clauses a) p.

(** [doc.internal.pages.length - 1]: the first page and one per [addPage]. *)
Definition pageCount (os : list PdfOp) : nat :=
  S (List.length (List.filter (fun o => match o with addPage => true | _ => false end) os)).

(** The body of the footer loop, for page [i] of [n]. *)
Definition footer (n i : nat) : list PdfOp :=
  [setPage i; setFontSize 8; setTextColor 150 150 150;
   docText (TStr (lit "Generated by LegalLens India - Page " ++ numToString (N.of_nat i)
                    ++ lit " of " ++ numToString (N.of_nat n)))
     (pageWidth / 2)%Q 290 (Some (lit "center"))].

(** The calls of the whole report, from the banner to [doc.save]. *)
Definition report (name : jsstring) (rw : gmap Z jsstring) (a : AnalysisResult)
  : list PdfOp :=
  let p := header name a in
  let p := nextStepsSection a p in
  let p := redFlagsSection a p in
  let p := clausesSection rw a p in
  let n := pageCount (ops p) in
  ops p ++ flat_map (footer n) (seq 1 n) ++ [save (lit "LegalLens_Report.pdf")].

(** [handleExportPDF]: nothing when there is no analysis. *)
Definition handleExportPDF (st : State) : list PdfOp :=
  match analysis st with
  | None => []
  | Some a => report (docName st) (rewrites st) a
  end.

End Report.

(** The headings of the two optional sections. *)
Definition sectionHeading (h : jsstring) : Prop :=
  h = nextStepsHeading \/ h = redFlagsHeading.

(** A call [doc.text(h, ...)] with the single string [h]. *)
Definition drawsString (h : jsstring) (o : PdfOp) : bool :=
  match o with
  | docText (TStr s) _ _ _ => JS.eqb s h
  | _ => false
  end.

(** Whether a drawing contains the heading [h]. *)
Definition rendersHeading (h : jsstring) (os : list PdfOp) : bool :=
  existsb (drawsString h) os.

(** The [ClausePanel] element is given [onRewriteUpdate={handleRewriteUpdate}]:
    the effects of [handleRewrite] on the application state. *)
Fixpoint onRewriteEffects (effs : list ClausePanel.Effect) (st : State) : State :=
  match effs with
  | [] => st
  | ClausePanel.OnRewriteUpdate i t :: rest => onRewriteEffects rest (handleRewriteUpdate i t st)
  | ClausePanel.Alert _ :: rest => onRewriteEffects rest st
  end.

(** [!documentText || isLoading]: the upload view is shown in place of
    the document view. *)
Definition showsUpload (st : State) : bool :=
  negb (truthy (documentText st)) || isLoading st.

(** [analysis && ...]: the export and reset buttons of the header, and
    the clause panel inside the document view. *)
Definition hasAnalysis (st : State) : bool :=
  match analysis st with Some _ => true | None => false end.

(** The calls that leave a mark a reader of the file can name: a single
    string, the selection of a page, the saving of the file. *)
Definition isMark (o : PdfOp) : bool :=
  match o with
  | docText (TStr _) _ _ _ => true
  | setPage _ => true
  | save _ => true
  | _ => false
  end.

(** What an observation of single calls sees of the string [s]. *)
Definition mark {B : Type} (see : PdfOp -> list B) (s : jsstring) : list B :=
  see (docText (TStr s) 0 0 None).

(** The report before its footers: the pen after the clauses. *)
Definition reportBody (pageWidth : Q)
    (splitTextToSize : list PdfOp -> jsstring -> Q -> list jsstring)
    (numberToString : Z -> jsstring)
    (name : jsstring) (rw : gmap Z jsstring) (a : AnalysisResult) : Pen :=
  clausesSection pageWidth splitTextToSize rw a
    (redFlagsSection pageWidth splitTextToSize a
       (nextStepsSection pageWidth splitTextToSize a
          (header pageWidth splitTextToSize numberToString name a))).

(** The line of the first column of a clause block. *)
Definition clauseHeading (c : Clause) : jsstring :=
  lit "Clause: " ++ title c ++ lit " [" ++ RiskLevel_value (riskLevel c) ++ lit "]".

(** What an observation sees of a clause block: its heading, and the
    rewrite heading when a non-empty rewrite is stored under the id of the
    clause. *)
Definition clauseMarks {B : Type} (see : PdfOp -> list B) (rw : gmap Z jsstring)
    (c : Clause) : list B :=
  mark see (clauseHeading c)
  ++ match rw !! id c with
     | Some (_ :: _) => mark see (lit "Safe Rewrite Suggested:")
     | _ => []
     end.

(** The text of the footer of page [i] of [n]. *)
Definition footerText (n i : nat) : jsstring :=
  lit "Generated by LegalLens India - Page " ++ numToString (N.of_nat i)
    ++ lit " of " ++ numToString (N.of_nat n).

(** The single strings a drawing writes, in order. *)
Definition stringOf (o : PdfOp) : list jsstring :=
  match o with
  | docText (TStr s) _ _ _ => [s]
  | _ => []
  end.

(** The pages a drawing selects with [setPage], in order. *)
Definition setPageOf (o : PdfOp) : list nat :=
  match o with
  | setPage i => [i]
  | _ => []
  end.

(** One entry per [addPage]. *)
Definition addPageOf (o : PdfOp) : list unit :=
  match o with
  | addPage => [tt]
  | _ => []
  end.

(** One entry per [save], with the file name. *)
Definition saveOf (o : PdfOp) : list jsstring :=
  match o with
  | save n => [n]
  | _ => []
  end.

(** *** What a reader finds in the file, call by call *)

(** A text that the report is expected to draw: a single string, or the
    lines into which jsPDF breaks a text for a width. *)
Inductive Expected :=
| ExpStr (s : jsstring)
| ExpLines (txt : jsstring) (w : Q).

Definition isDocText (o : PdfOp) : bool :=
  match o with
  | docText _ _ _ _ => true
  | _ => false
  end.

(** The calls of [doc.text] in a drawing, in order. *)
Definition textCalls (os : list PdfOp) : list PdfOp := List.filter isDocText os.

(** The call [o] draws the expected text: the string itself, or the lines
    that [splitTextToSize] made of the text for the width, in the state the
    document then had. *)
Definition drawn (splitTextToSize : list PdfOp -> jsstring -> Q -> list jsstring)
    (e : Expected) (o : PdfOp) : Prop :=
  match e with
  | ExpStr s => exists x y al, o = docText (TStr s) x y al
  | ExpLines txt w =>
      exists st x y al, o = docText (TLines (splitTextToSize st txt w)) x y al
  end.

(** An item of one of the two lists: [`• ${item}`]. *)
Definition itemText (item : jsstring) : jsstring := bullet ++ lit " " ++ item.

(** A section of items: nothing for an empty list, and otherwise the
    heading followed by one bullet item per element. *)
Definition sectionLayout (pageWidth : Q) (heading : jsstring) (items : list jsstring)
  : list Expected :=
  match items with
  | [] => []
  | _ :: _ =>
      ExpStr heading
      :: List.map (fun item => ExpLines (itemText item) (maxTextWidth pageWidth)) items
  end.

(** The block of a clause: heading, quoted text, analysis, law, and the
    quoted rewrite under its heading when a non-empty one is stored. *)
Definition clauseLayout (pageWidth : Q) (rw : gmap Z jsstring) (c : Clause)
  : list Expected :=
  [ExpStr (clauseHeading c);
   ExpLines (dquote ++ text c ++ dquote) (maxTextWidth pageWidth);
   ExpLines (lit "Analysis: " ++ explanation c) (maxTextWidth pageWidth);
   ExpLines (lit "Indian Law: " ++ indianLawReference c) (maxTextWidth pageWidth)]
  ++ match rw !! id c with
     | Some (x :: r) =>
         [ExpStr (lit "Safe Rewrite Suggested:");
          ExpLines (dquote ++ (x :: r) ++ dquote) (maxTextWidth pageWidth)]
     | _ => []
     end.

(** The texts of a report of [n] pages, in order. *)
Definition reportLayout (pageWidth : Q) (numberToString : Z -> jsstring)
    (name : jsstring) (rw : gmap Z jsstring) (a : AnalysisResult) (n : nat)
  : list Expected :=
  [ExpStr (lit "LegalLens India Analysis");
   ExpStr (lit "Document: " ++ name);
   ExpStr (lit "Domain: " ++ Domain_value (domain a) ++ lit "   |   Risk Score: "
             ++ numberToString (overallRiskScore a) ++ lit "/100");
   ExpLines (summary a) (maxTextWidth pageWidth - 10)%Q]
  ++ sectionLayout pageWidth nextStepsHeading (nextSteps a)
  ++ sectionLayout pageWidth redFlagsHeading (redFlags a)
  ++ [ExpStr (lit "Detailed Clause Analysis")]
  ++ flat_map (clauseLayout pageWidth rw) (clauses a)
  ++ List.map (fun i => ExpStr (footerText n i)) (seq 1 n).

(** From pen [p] to pen [q] the calls of [doc.text] that were added draw
    the expected texts [es], one call each and in order. *)
Definition laysOut (splitTextToSize : list PdfOp -> jsstring -> Q -> list jsstring)
    (p q : Pen) (es : list Expected) : Prop :=
  exists added,
    textCalls (ops q) = textCalls (ops p) ++ added
    /\ Forall2 (drawn splitTextToSize) es added.

End App.

(** ** Concrete inputs used below *)

Module Samples.
Import FileProcessor GeminiService.

(** A deployment without [API_KEY]: the model is never reached. *)
Definition noKeyEnv : Env :=
  {| World := unit;
     apiKey := None;
     generateContent := fun w _ => (w, Throw (mkError (lit "unreachable")));
     chatSendMessage := fun w _ _ => (w, Throw (mkError (lit "unreachable")));
     JSON_parse := fun _ => Throw (mkError (lit "SyntaxError")) |}.

Definition sampleResult : AnalysisResult :=
  {| summary := lit "A short lease.";
     domain := DomProperty;
     clauses := [ {| id := 7; title := lit "Deposit"; text := lit "The deposit is forfeited.";
                     riskLevel := HIGH; explanation := lit "One-sided.";
                     indianLawReference := lit "Section 74, Indian Contract Act";
                     suggestion := None |} ];
     overallRiskScore := 80;
     redFlags := [];
     nextSteps := [lit "Register the lease."] |}.

(** A deployment with a key, whose model answers every request and whose
    answer parses to [sampleResult]. *)
Definition keyedEnv : Env :=
  {| World := unit;
     apiKey := Some (lit "k");
     generateContent := fun w _ => (w, Return (Some (lit "{}")));
     chatSendMessage := fun w _ _ => (w, Return (Some (lit "Yes.")));
     JSON_parse := fun _ => Return sampleResult |}.

(** The same, with a chat endpoint that rejects every message. *)
Definition brokenChatEnv : Env :=
  {| World := unit;
     apiKey := Some (lit "k");
     generateContent := fun w _ => (w, Return (Some (lit "{}")));
     chatSendMessage := fun w _ _ => (w, Throw (mkError (lit "503")));
     JSON_parse := fun _ => Return sampleResult |}.

(** A deployment whose model answers every request with a revised clause. *)
Definition rewritingEnv : Env :=
  {| World := unit;
     apiKey := Some (lit "k");
     generateContent := fun w _ => (w, Return (Some (lit "Revised clause.")));
     chatSendMessage := fun w _ _ => (w, Return None);
     JSON_parse := fun _ => Throw (mkError (lit "SyntaxError")) |}.

Definition depositClause : Clause :=
  {| id := 7; title := lit "Deposit"; text := lit "The deposit is forfeited.";
     riskLevel := HIGH; explanation := lit "One-sided.";
     indianLawReference := lit "Section 74, Indian Contract Act";
     suggestion := None |}.

(** Forty characters typed into the paste box. *)
Definition shortPaste : FileUpload.State :=
  {| FileUpload.dragActive := false;
     FileUpload.manualText := lit "This agreement is made on 1 January 2024";
     FileUpload.mode := FileUpload.paste;
     FileUpload.isProcessing := false |}.

(** A deployment whose model answers without any text. *)
Definition silentEnv : Env :=
  {| World := unit;
     apiKey := Some (lit "k");
     generateContent := fun w _ => (w, Return None);
     chatSendMessage := fun w _ _ => (w, Return None);
     JSON_parse := fun _ => Throw (mkError (lit "SyntaxError")) |}.

Definition someChat : Chat :=
  {| chat_model := CHAT_MODEL; chat_systemInstruction := chatInstruction (lit "doc") |}.

Definition scanFile : File :=
  {| name := lit "scan.pdf"; type := lit "application/pdf"; bytes := [] |}.

Definition notesFile : File :=
  {| name := lit "notes.txt"; type := lit "text/plain"; bytes := [] |}.

Definition wordFile : File :=
  {| name := lit "contract.docx";
     type := lit "application/vnd.openxmlformats-officedocument.wordprocessingml.document";
     bytes := [] |}.

(** pdf.js on a one-page scan: the page has no text item. *)
Definition onePageScan (_ : File) : completion PdfDocument := Return [Return []].

(** The pages of a scan of five pages: no page has a text item. *)
Definition blankPages : list (list jsstring) := [[]; []; []; []; []].

(** pdf.js on a five-page scan. *)
Definition fivePageScan (_ : File) : completion PdfDocument :=
  Return [Return []; Return []; Return []; Return []; Return []].

Definition noReader (_ : File) : option jsstring := None.

(** pdf.js on a document whose second page cannot be read. *)
Definition brokenPage (_ : File) : completion PdfDocument :=
  Return [Return [lit "This Agreement is made between the Lessor and the Lessee of the premises."];
          Throw (mkError (lit "Invalid page request"))].

(** pdf.js on a two-page lease. *)
Definition leasePages : list (list jsstring) :=
  [[lit "LEASE"; lit "DEED"]; [lit "The Lessee shall pay rent in advance every month."]].

Definition leasePdf (_ : File) : completion PdfDocument :=
  Return (List.map Return leasePages).

Definition photoFile : File :=
  {| name := lit "photo.png"; type := lit "image/png"; bytes := [] |}.

(** A text file that quotes an error message. *)
Definition notesReader (_ : File) : option jsstring :=
  Some (lit "Clause 4: Unable to extract funds before maturity.").

Definition sampleClock : ChatWindow.Clock :=
  {| ChatWindow.sentNow := 1700000000000; ChatWindow.sentDate := 1700000000000;
     ChatWindow.settledNow := 1700000000900; ChatWindow.settledDate := 1700000000900 |}.

(** The application just after the analysis of the lease. *)
Definition freshApp : App.State :=
  {| App.documentText := Some (lit "The deposit is forfeited.");
     App.docName := lit "lease.txt";
     App.analysis := Some sampleResult;
     App.isLoading := false;
     App.activeTab := App.chat;
     App.rewrites := ∅ |}.

Definition loadedApp : App.State :=
  {| App.documentText := Some (lit "The deposit is forfeited.");
     App.docName := lit "lease.txt";
     App.analysis := Some sampleResult;
     App.isLoading := false;
     App.activeTab := App.analysis_tab;
     App.rewrites := {[ 7%Z := lit "Revised clause." ]} |}.

(** A loaded lease whose analysis lists a red flag and a next step. *)
Definition flaggedResult : AnalysisResult :=
  {| summary := lit "A short lease.";
     domain := DomProperty;
     clauses := clauses sampleResult;
     overallRiskScore := 80;
     redFlags := [lit "The deposit can be forfeited."];
     nextSteps := [lit "Register the lease."] |}.

Definition flaggedApp : App.State :=
  {| App.documentText := Some (lit "The deposit is forfeited.");
     App.docName := lit "lease.txt";
     App.analysis := Some flaggedResult;
     App.isLoading := false;
     App.activeTab := App.analysis_tab;
     App.rewrites := ∅ |}.

(** The conversion of an integer to its decimal digits, which is what a
    template literal does with an integer of magnitude below 1e21. *)
Definition decimal (z : Z) : jsstring :=
  if (z <? 0)%Z then lit "-" ++ numToString (Z.to_N (- z)) else numToString (Z.to_N z).

(** jsPDF's line breaking, taken as one line per text. *)
Definition oneLine (_ : list App.PdfOp) (t : jsstring) (_ : Q) : list jsstring := [t].

End Samples.

(** * Properties *)

(** ** Strings *)

Section StringFacts.
Import JS.

Lemma eqb_refl (s : jsstring) : JS.eqb s s = true.
Proof.
  induction s as [|c s IH]; simpl; [reflexivity|].
  rewrite N.eqb_refl. exact IH.
Qed.

Lemma eqb_eq (s t : jsstring) : JS.eqb s t = true <-> s = t.
Proof.
  split; [|intros ->; apply eqb_refl].
  revert t. induction s as [|c s IH]; intros [|d t]; simpl; try discriminate; auto.
  intros H. apply andb_prop in H as [Hc Hs].
  apply N.eqb_eq in Hc. f_equal; auto.
Qed.

(** [substring(0, n)] keeps the first [n] code units, or all of them. *)
Lemma substring_0 (s : jsstring) (n : nat) : substring s 0 n = take n s.
Proof.
  unfold substring. rewrite Nat.min_0_l, Nat.max_0_l, Nat.min_0_l, Nat.sub_0_r.
  rewrite drop_0.
  destruct (Nat.min_spec n (List.length s)) as [[Hlt ->]|[Hle ->]]; [reflexivity|].
  rewrite firstn_all. symmetry. apply take_ge. exact Hle.
Qed.

Lemma truthy_false_cases (o : option jsstring) :
  truthy o = false -> o = None \/ o = Some [].
Proof. destruct o as [[|c r]|]; simpl; intros H; auto; discriminate. Qed.

End StringFacts.

(** ** Extraction *)

Section ExtractionFacts.
Import FileProcessor.

Variable readAsText : File -> option jsstring.
Variable getDocument : File -> completion PdfDocument.
Variable recognize : File -> option jsstring.

(** A file reaches the PDF branch when its type is the PDF type and its
    name has neither text suffix. *)
Lemma pdf_branch (file : File) :
  type file = lit "application/pdf" ->
  endsWith (name file) (lit ".md") = false ->
  endsWith (name file) (lit ".txt") = false ->
  extractTextFromFile readAsText getDocument recognize file =
    match extractPdfText getDocument file with
    | Return fullText => Return fullText
    | Throw _ => Throw couldNotExtract
    end.
Proof.
  intros Ht Hmd Htxt. unfold extractTextFromFile.
  rewrite Hmd, Htxt, Ht. reflexivity.
Qed.

(** Every failure of the PDF branch is reported with the one message. *)
Lemma pdf_branch_error (file : File) (e : Error) :
  type file = lit "application/pdf" ->
  endsWith (name file) (lit ".md") = false ->
  endsWith (name file) (lit ".txt") = false ->
  extractTextFromFile readAsText getDocument recognize file = Throw e ->
  e = couldNotExtract.
Proof.
  intros Ht Hmd Htxt. rewrite (pdf_branch file Ht Hmd Htxt).
  destruct (extractPdfText getDocument file); congruence.
Qed.

(** What the length check does reject: a PDF for which the text built by
    the loop, page markers included, has fewer than 50 code units once all
    whitespace is removed. It is rejected with "Could not extract text
    from PDF. It might be a scanned image or password protected." and is
    never resolved. *)
Theorem short_pdf_is_rejected (file : File) (pdf : PdfDocument) (fullText : jsstring) :
  type file = lit "application/pdf" ->
  endsWith (name file) (lit ".md") = false ->
  endsWith (name file) (lit ".txt") = false ->
  getDocument file = Return pdf ->
  pdfFullText pdf = Return fullText ->
  (List.length (removeWhitespace fullText) < 50)%nat ->
  extractTextFromFile readAsText getDocument recognize file = Throw couldNotExtract
  /\ forall t, extractTextFromFile readAsText getDocument recognize file <> Return t.
Proof.
  intros Ht Hmd Htxt Hdoc Hfull Hshort.
  assert (Hrej : extractTextFromFile readAsText getDocument recognize file
                 = Throw couldNotExtract).
  { rewrite (pdf_branch file Ht Hmd Htxt). unfold extractPdfText.
    rewrite Hdoc, Hfull.
    apply Nat.ltb_lt in Hshort. rewrite Hshort. reflexivity. }
  split; [exact Hrej|]. intros t Hres. rewrite Hrej in Hres. discriminate.
Qed.

End ExtractionFacts.

(** C2. A scan that the length check does not detect. A PDF of five
    pages without a text item has no extracted text at all, so after removing whitespace its extracted text
    has 0 code units, fewer than 50; yet the extraction resolves, with the
    five page markers as the text. The check measures the text with the
    markers that the loop itself adds, eleven code units per page that are
    not whitespace, and five pages already reach 55. *)
Theorem five_page_scan_is_not_detected
    (readAsText recognize : FileProcessor.File -> option jsstring) :
  Samples.fivePageScan Samples.scanFile = Return (List.map Return Samples.blankPages)
  /\ List.length (removeWhitespace (FileProcessor.extractedText Samples.blankPages)) = 0%nat
  /\ FileProcessor.extractTextFromFile readAsText Samples.fivePageScan recognize
       Samples.scanFile
     = Return (FileProcessor.pageBlock 1 [] ++ FileProcessor.pageBlock 2 []
               ++ FileProcessor.pageBlock 3 [] ++ FileProcessor.pageBlock 4 []
               ++ FileProcessor.pageBlock 5 [])
  /\ List.length
       (removeWhitespace
          (FileProcessor.pageBlock 1 [] ++ FileProcessor.pageBlock 2 []
           ++ FileProcessor.pageBlock 3 [] ++ FileProcessor.pageBlock 4 []
           ++ FileProcessor.pageBlock 5 [])) = 55%nat.
Proof.
  split; [reflexivity|]. split; [reflexivity|]. split; vm_compute; reflexivity.
Qed.

Lemma short_pdf_is_rejected_witness :
  FileProcessor.extractTextFromFile Samples.noReader Samples.onePageScan Samples.noReader
    Samples.scanFile = Throw FileProcessor.couldNotExtract.
Proof.
  apply (short_pdf_is_rejected Samples.noReader Samples.onePageScan Samples.noReader
           Samples.scanFile [Return []]
           (lit "--- Page 1 ---" ++ nl ++ nl ++ nl)).
  - reflexivity.
  - reflexivity.
  - reflexivity.
  - reflexivity.
  - reflexivity.
  - vm_compute. lia.
Defined.

(** ** The upload handler *)

Section UploadFacts.
Import FileProcessor FileUpload.

Variable readAsText : File -> option jsstring.
Variable getDocument : File -> completion PdfDocument.
Variable recognize : File -> option jsstring.

(** The handler calls [onDataLoaded] at most once, and only with the
    text that was extracted and the name of the file. *)
Lemma processFile_delivers (file : File) (st : State) (t n : jsstring) :
  In (OnDataLoaded t n) (snd (processFile readAsText getDocument recognize file st)) ->
  extractTextFromFile readAsText getDocument recognize file = Return t
  /\ n = name file
  /\ includes t (lit "Unable to extract") = false.
Proof.
  unfold processFile.
  destruct (extractTextFromFile readAsText getDocument recognize file) as [t'|e].
  - destruct (includes t' (lit "Unable to extract")) eqn:Hinc; simpl.
    + intros [].
    + intros [H|[]]. injection H as -> ->. auto.
  - simpl. intros [H|[]]. discriminate.
Qed.

(** A failed extraction ends in one alert and no delivery. *)
Lemma processFile_failure (file : File) (st : State) (e : Error) :
  extractTextFromFile readAsText getDocument recognize file = Throw e ->
  processFile readAsText getDocument recognize file st =
    ({| dragActive := dragActive st; manualText := manualText st;
        mode := mode st; isProcessing := false |},
     [Alert (orElse (Some (message e)) (lit "Error reading file"))]).
Proof. intros H. unfold processFile. rewrite H. reflexivity. Qed.

(** C9. When extraction succeeds with a text that contains "Unable to
    extract", the handler does not call [onDataLoaded]: it has no effect
    outside the component, switches to paste mode and puts the placeholder
    in the text area. *)
Theorem unable_to_extract_is_dropped (file : File) (st : State) (t : jsstring) :
  extractTextFromFile readAsText getDocument recognize file = Return t ->
  includes t (lit "Unable to extract") = true ->
  processFile readAsText getDocument recognize file st =
    ({| dragActive := dragActive st; manualText := pasteInstead;
        mode := paste; isProcessing := false |}, [])
  /\ forall t' n,
       ~ In (OnDataLoaded t' n) (snd (processFile readAsText getDocument recognize file st)).
Proof.
  intros Hex Hinc.
  assert (Hrun : processFile readAsText getDocument recognize file st =
    ({| dragActive := dragActive st; manualText := pasteInstead;
        mode := paste; isProcessing := false |}, [])).
  { unfold processFile. rewrite Hex, Hinc. reflexivity. }
  split; [exact Hrun|]. intros t' n. rewrite Hrun. simpl. tauto.
Qed.

End UploadFacts.

Lemma unable_to_extract_is_dropped_witness :
  FileUpload.processFile Samples.notesReader Samples.onePageScan Samples.noReader
    Samples.notesFile FileUpload.initial =
    ({| FileUpload.dragActive := false; FileUpload.manualText := FileUpload.pasteInstead;
        FileUpload.mode := FileUpload.paste; FileUpload.isProcessing := false |}, []).
Proof.
  apply (unable_to_extract_is_dropped Samples.notesReader Samples.onePageScan
           Samples.noReader Samples.notesFile FileUpload.initial
           (lit "Clause 4: Unable to extract funds before maturity.")).
  - reflexivity.
  - reflexivity.
Defined.

(** ** The model client *)

Section ServiceFacts.
Import GeminiService.

Variable E : Env.

Lemma analyzeDocument_no_key (text : jsstring) (w : World E) (session : option Chat) :
  truthy (apiKey E) = false ->
  analyzeDocument E text w session = mkOutcome [] w session (Throw apiKeyMissing).
Proof. intros H. unfold analyzeDocument. rewrite H. reflexivity. Qed.

Lemma rewriteClause_no_key (clauseText context : jsstring) (w : World E)
    (session : option Chat) :
  truthy (apiKey E) = false ->
  rewriteClause E clauseText context w session = mkOutcome [] w session (Throw apiKeyMissing).
Proof. intros H. unfold rewriteClause. rewrite H. reflexivity. Qed.

Lemma initChat_no_key (docContext : jsstring) (w : World E) (session : option Chat) :
  truthy (apiKey E) = false ->
  initChat E docContext w session = mkOutcome [] w session (Return tt).
Proof. intros H. unfold initChat. rewrite H. reflexivity. Qed.

Lemma sendMessageToChat_no_session (msg : jsstring) (w : World E) :
  sendMessageToChat E msg w None = mkOutcome [] w None (Throw notInitialized).
Proof. reflexivity. Qed.

(** Without a key no call changes the module or reaches the model. *)
Lemma perform_no_key (c : Call) (w : World E) :
  truthy (apiKey E) = false ->
  exists failed, perform E c w None = (failed, [], w, None).
Proof.
  intros H. destruct c; simpl.
  - rewrite analyzeDocument_no_key by exact H. eauto.
  - rewrite rewriteClause_no_key by exact H. eauto.
  - rewrite initChat_no_key by exact H. eauto.
  - eauto.
Qed.

Lemma performAll_no_key (cs : list Call) (w : World E) :
  truthy (apiKey E) = false ->
  performAll E cs w None = (w, None).
Proof.
  intros H. induction cs as [|c cs IH]; simpl; [reflexivity|].
  destruct (perform_no_key c w H) as [failed ->]. exact IH.
Qed.

(** C1, as the code has it. When the key is absent (undefined or empty)
    then, after any history of calls since the module was loaded,
    [analyzeDocument] and [rewriteClause] fail with "API Key is missing.",
    [initChat] returns without an error and leaves no session, and
    [sendMessageToChat] fails with "Chat session not initialized"; none of
    the four sends a request. *)
Theorem no_key_operations (history : list Call) (w0 : World E)
    (t c d m x : jsstring) :
  truthy (apiKey E) = false ->
  let w := fst (performAll E history w0 None) in
  let session := snd (performAll E history w0 None) in
  session = None
  /\ analyzeDocument E t w session = mkOutcome [] w None (Throw apiKeyMissing)
  /\ rewriteClause E c d w session = mkOutcome [] w None (Throw apiKeyMissing)
  /\ initChat E x w session = mkOutcome [] w None (Return tt)
  /\ sendMessageToChat E m w session = mkOutcome [] w None (Throw notInitialized).
Proof.
  intros H. rewrite (performAll_no_key history w0 H). simpl.
  rewrite analyzeDocument_no_key, rewriteClause_no_key, initChat_no_key by exact H.
  repeat split; reflexivity.
Qed.

(** C8. The one request [analyzeDocument] sends (it sends none without a
    key) has as contents the fixed prompt around the first 30000 code
    units of the text: never more than 30000, and the whole text when the
    text is no longer than that. *)
Theorem analyze_submits_first_30000 (text : jsstring) (w : World E)
    (session : option Chat) :
  calls (analyzeDocument E text w session) =
    (if truthy (apiKey E) then [GenerateContent (analysisRequest text)] else [])
  /\ contents (analysisRequest text) =
       analysisPromptHead ++ take 30000 text ++ analysisPromptTail
  /\ (List.length (take 30000 text) <= 30000)%nat
  /\ ((List.length text <= 30000)%nat -> take 30000 text = text).
Proof.
  split; [|split; [|split]].
  - unfold analyzeDocument. destruct (truthy (apiKey E)); simpl; [|reflexivity].
    destruct (generateContent E w (analysisRequest text)). reflexivity.
  - simpl. unfold analysisPrompt. rewrite substring_0. reflexivity.
  - rewrite length_take. apply Nat.le_min_l.
  - intros Hle. apply take_ge. exact Hle.
Qed.

End ServiceFacts.

(** The claim C1 as it is written fails at [initChat]: without a key it
    returns normally. *)
Lemma initChat_without_key_does_not_fail :
  ~ (forall (E : GeminiService.Env) (c : GeminiService.Call)
            (w : GeminiService.World E) (session : option GeminiService.Chat),
        truthy (GeminiService.apiKey E) = false ->
        fst (fst (fst (GeminiService.perform E c w session))) = true).
Proof.
  intros H.
  specialize (H Samples.noKeyEnv (GeminiService.InitChat (lit "doc")) tt None eq_refl).
  vm_compute in H. discriminate.
Qed.

Lemma no_key_operations_witness :
  GeminiService.analyzeDocument Samples.noKeyEnv (lit "text") tt None
    = @GeminiService.mkOutcome Samples.noKeyEnv _ [] tt None (Throw GeminiService.apiKeyMissing)
  /\ GeminiService.initChat Samples.noKeyEnv (lit "doc") tt None
    = @GeminiService.mkOutcome Samples.noKeyEnv _ [] tt None (Return tt).
Proof.
  destruct (no_key_operations Samples.noKeyEnv
              [GeminiService.InitChat (lit "doc"); GeminiService.SendMessageToChat (lit "hi")]
              tt (lit "text") (lit "clause") (lit "Property") (lit "hi") (lit "doc")
              eq_refl) as (_ & Ha & _ & Hi & _).
  split; [exact Ha | exact Hi].
Defined.

(** ** The application state *)

Section AppFacts.
Import GeminiService App.

Variable E : Env.

(** What a failed analysis leaves of the state. *)
Lemma handleDocumentLoaded_failure (text fileName : jsstring) (w : World E)
    (session : option Chat) (st : State) :
  isThrow (result (analyzeDocument E text w session)) = true ->
  handleDocumentLoaded E text fileName w session st =
    {| app := {| documentText := None; docName := fileName;
                 analysis := analysis st; isLoading := false;
                 activeTab := activeTab st; rewrites := ∅ |};
       service := mkOutcome (calls (analyzeDocument E text w session))
                    (world (analyzeDocument E text w session))
                    (chatSession (analyzeDocument E text w session)) (Return tt);
       alerts := [analysisFailed] |}.
Proof.
  intros H. unfold handleDocumentLoaded.
  destruct (result (analyzeDocument E text w session)); [discriminate|reflexivity].
Qed.

(** What a successful analysis leaves of the state. *)
Lemma handleDocumentLoaded_success (text fileName : jsstring) (w : World E)
    (session : option Chat) (st : State) (r : AnalysisResult) :
  result (analyzeDocument E text w session) = Return r ->
  app (handleDocumentLoaded E text fileName w session st) =
    {| documentText := Some text; docName := fileName;
       analysis := Some r; isLoading := false;
       activeTab := activeTab st; rewrites := ∅ |}.
Proof. intros H. unfold handleDocumentLoaded. rewrite H. reflexivity. Qed.

Section Upload.

Variable readAsText : FileProcessor.File -> option jsstring.
Variable getDocument : FileProcessor.File -> completion FileProcessor.PdfDocument.
Variable recognize : FileProcessor.File -> option jsstring.

(** C3, as the code has it. A failed extraction leaves the application
    state as it was. A failed analysis leaves the document text unset,
    the loading flag cleared and the rewrites empty, keeps the analysis
    result and the tab it found, and keeps the name of the file whose
    analysis failed. *)
Theorem failed_upload_state (file : FileProcessor.File) (fu : FileUpload.State)
    (text fileName : jsstring) (w : World E) (session : option Chat) (st : State) :
  (isThrow (FileProcessor.extractTextFromFile readAsText getDocument recognize file) = true ->
   app (snd (uploadFile E readAsText getDocument recognize file fu w session st)) = st)
  /\ (isThrow (result (analyzeDocument E text w session)) = true ->
      app (handleDocumentLoaded E text fileName w session st) =
        {| documentText := None; docName := fileName;
           analysis := analysis st; isLoading := false;
           activeTab := activeTab st; rewrites := ∅ |}).
Proof.
  split.
  - intros H. unfold uploadFile.
    destruct (FileProcessor.extractTextFromFile readAsText getDocument recognize file)
      as [t|e] eqn:Hex; [discriminate|].
    rewrite (processFile_failure readAsText getDocument recognize file fu e Hex).
    reflexivity.
  - intros H. rewrite handleDocumentLoaded_failure by exact H. reflexivity.
Qed.

End Upload.

(** C4. Reset clears the document text, the analysis result and every
    rewrite, and selects the chat tab, whatever the state was. *)
Theorem reset_clears_document (st : State) :
  documentText (handleReset st) = None
  /\ analysis (handleReset st) = None
  /\ rewrites (handleReset st) = ∅
  /\ (forall k : Z, rewrites (handleReset st) !! k = None)
  /\ activeTab (handleReset st) = chat.
Proof.
  split; [reflexivity|]. split; [reflexivity|]. split; [reflexivity|].
  split; [|reflexivity]. intros k. simpl. apply lookup_empty.
Qed.

(** C5. Recording the rewrite [(k, t)] makes [t] the entry at [k] and
    leaves the entry at every other id as it was. *)
Theorem rewrite_update_frame (st : State) (k : Z) (t : jsstring) :
  rewrites (handleRewriteUpdate k t st) !! k = Some t
  /\ forall k' : Z, k' <> k ->
       rewrites (handleRewriteUpdate k t st) !! k' = rewrites st !! k'.
Proof.
  split.
  - simpl. apply lookup_insert_eq.
  - intros k' Hne. simpl. apply lookup_insert_ne. congruence.
Qed.

(** The update touches no other field of the state. *)
Lemma rewrite_update_fields (st : State) (k : Z) (t : jsstring) :
  documentText (handleRewriteUpdate k t st) = documentText st
  /\ docName (handleRewriteUpdate k t st) = docName st
  /\ analysis (handleRewriteUpdate k t st) = analysis st
  /\ isLoading (handleRewriteUpdate k t st) = isLoading st
  /\ activeTab (handleRewriteUpdate k t st) = activeTab st.
Proof. repeat split. Qed.

End AppFacts.

(** The claim C3 as it is written fails on the document name: after a
    failed analysis the state is not the state before the upload. *)
Lemma failed_analysis_keeps_name :
  isThrow (GeminiService.result
             (GeminiService.analyzeDocument Samples.noKeyEnv (lit "Lease deed") tt None)) = true
  /\ App.app (App.handleDocumentLoaded Samples.noKeyEnv (lit "Lease deed") (lit "lease.txt")
                tt None App.initial) <> App.initial
  /\ App.docName (App.app (App.handleDocumentLoaded Samples.noKeyEnv (lit "Lease deed")
                             (lit "lease.txt") tt None App.initial)) = lit "lease.txt".
Proof.
  split; [reflexivity|]. split; [|reflexivity].
  intros H. apply (f_equal App.docName) in H. vm_compute in H. discriminate.
Qed.

Lemma failed_upload_state_witness :
  App.app (snd (App.uploadFile Samples.noKeyEnv Samples.noReader Samples.onePageScan
                  Samples.noReader Samples.scanFile FileUpload.initial tt None
                  Samples.loadedApp)) = Samples.loadedApp
  /\ App.app (App.handleDocumentLoaded Samples.noKeyEnv (lit "Lease deed") (lit "lease.txt")
                tt None App.initial) =
       {| App.documentText := None; App.docName := lit "lease.txt";
          App.analysis := None; App.isLoading := false;
          App.activeTab := App.chat; App.rewrites := ∅ |}.
Proof.
  destruct (failed_upload_state Samples.noKeyEnv Samples.noReader Samples.onePageScan
              Samples.noReader Samples.scanFile FileUpload.initial
              (lit "Lease deed") (lit "lease.txt") tt None Samples.loadedApp) as [Hx _].
  destruct (failed_upload_state Samples.noKeyEnv Samples.noReader Samples.onePageScan
              Samples.noReader Samples.scanFile FileUpload.initial
              (lit "Lease deed") (lit "lease.txt") tt None App.initial) as [_ Ha].
  split; [apply Hx; reflexivity | apply Ha; reflexivity].
Defined.

(** ** The clause panel *)

Section ClauseFacts.
Import ClausePanel.

Lemma sameId_true (o : option Z) (i : Z) : sameId o i = true <-> o = Some i.
Proof.
  destruct o as [j|]; simpl.
  - rewrite Z.eqb_eq. split; congruence.
  - split; discriminate.
Qed.

(** The state names at most one id. *)
Lemma expanded_unique (st : State) (i j : Z) :
  sameId (expandedClauseId st) i = true ->
  sameId (expandedClauseId st) j = true -> i = j.
Proof. rewrite !sameId_true. congruence. Qed.

(** Among clauses with distinct ids at most one passes a test that
    fixes the id. *)
Lemma filter_same_id (o : option Z) (cs : list Clause) :
  NoDup (List.map id cs) ->
  (List.length (List.filter (fun c => sameId o (id c)) cs) <= 1)%nat.
Proof.
  induction cs as [|c cs IH]; simpl; intros Hnd; [lia|].
  apply NoDup_cons in Hnd as [Hnotin Hnd'].
  destruct (sameId o (id c)) eqn:Hc; [|auto].
  simpl. apply sameId_true in Hc.
  assert (Hnone : List.filter (fun c0 => sameId o (id c0)) cs = []).
  { clear IH Hnd'. induction cs as [|d cs IH]; simpl; [reflexivity|].
    destruct (sameId o (id d)) eqn:Hd.
    - exfalso. apply Hnotin. apply sameId_true in Hd. simpl.
      apply elem_of_cons. left. congruence.
    - apply IH. intros Hin. apply Hnotin. simpl.
      apply elem_of_cons. right. exact Hin. }
  rewrite Hnone. simpl. lia.
Qed.

(** C7. With clause [A] expanded and [B] another id, selecting [B]
    leaves exactly [B] expanded and selecting [A] leaves none expanded;
    after any sequence of selections the state names at most one id, and
    of clauses with distinct ids at most one is drawn expanded. *)
Theorem toggle_is_exclusive (st : State) (A B : Z) :
  A <> B ->
  expandedClauseId st = Some A ->
  (forall i, sameId (expandedClauseId (toggleClause B st)) i = true <-> i = B)
  /\ (forall i, sameId (expandedClauseId (toggleClause A st)) i = false)
  /\ (forall (sel : list Z) (i j : Z),
        let st' := fold_left (fun s k => toggleClause k s) sel st in
        sameId (expandedClauseId st') i = true ->
        sameId (expandedClauseId st') j = true -> i = j)
  /\ (forall (sel : list Z) (a : AnalysisResult),
        NoDup (List.map id (clauses a)) ->
        (List.length (expandedClauses (fold_left (fun s k => toggleClause k s) sel st) a)
           <= 1)%nat).
Proof.
  intros Hne HA. repeat split.
  - unfold toggleClause. simpl. rewrite HA. simpl.
    destruct (A =? B)%Z eqn:HAB; [apply Z.eqb_eq in HAB; contradiction|].
    simpl. rewrite Z.eqb_eq. congruence.
  - intros ->. unfold toggleClause. simpl. rewrite HA. simpl.
    destruct (A =? B)%Z eqn:HAB; [apply Z.eqb_eq in HAB; contradiction|].
    simpl. apply Z.eqb_refl.
  - intros i. unfold toggleClause. simpl. rewrite HA. simpl.
    rewrite Z.eqb_refl. reflexivity.
  - intros sel i j st'. apply expanded_unique.
  - intros sel a Hnd. unfold expandedClauses, isExpanded.
    apply filter_same_id. exact Hnd.
Qed.

End ClauseFacts.

Lemma toggle_is_exclusive_witness :
  ClausePanel.sameId
    (ClausePanel.expandedClauseId
       (ClausePanel.toggleClause 2
          {| ClausePanel.expandedClauseId := Some 1%Z; ClausePanel.rewritingId := None |})) 2
    = true
  /\ ClausePanel.sameId
       (ClausePanel.expandedClauseId
          (ClausePanel.toggleClause 1
             {| ClausePanel.expandedClauseId := Some 1%Z; ClausePanel.rewritingId := None |})) 1
     = false.
Proof.
  destruct (toggle_is_exclusive
              {| ClausePanel.expandedClauseId := Some 1%Z; ClausePanel.rewritingId := None |}
              1%Z 2%Z) as (HB & HA & _).
  - lia.
  - reflexivity.
  - split; [apply HB; reflexivity | apply HA].
Defined.

(** ** The chat transcript *)

Section ChatFacts.
Import GeminiService ChatWindow.

Variable E : Env.

(** The ids a turn appends. *)
Lemma turn_ids (v : jsstring) (clock : Clock) (w : World E) (session : option Chat)
    (st : State) :
  trim v <> [] ->
  ids (fst (fst (turn E v clock w session st))) =
    ids st ++ [numToString (sentNow clock);
               if turnFails E v w session then lit "err"
               else numToString (settledNow clock + 1)].
Proof.
  intros Hv. unfold turn, handleSend, turnFails, ids. simpl.
  destruct (trim v) as [|c r]; [congruence|].
  destruct (result (sendMessageToChat E v w session)); simpl;
    rewrite !List.map_app, <- app_assoc; reflexivity.
Qed.

(** The model's state after a turn is the state after its one call. *)
Lemma turn_world (v : jsstring) (clock : Clock) (w : World E) (session : option Chat)
    (st : State) :
  trim v <> [] ->
  snd (fst (turn E v clock w session st)) = world (sendMessageToChat E v w session).
Proof.
  intros Hv. unfold turn, handleSend. simpl.
  destruct (trim v) as [|c r]; [congruence|].
  destruct (result (sendMessageToChat E v w session)); reflexivity.
Qed.

(** A list in which one element stands at two places has a duplicate. *)
Lemma twice_not_NoDup {A} (l : list A) (a b e : A) :
  ~ NoDup (l ++ [a; e] ++ [b; e]).
Proof.
  intros H. apply NoDup_app in H as (_ & _ & H).
  apply NoDup_cons in H as [_ H]. apply NoDup_cons in H as [Hnotin _].
  apply Hnotin. apply elem_of_cons. right. apply elem_of_cons. left. reflexivity.
Qed.

(** C10. A turn that fails appends, after the user's message, a message
    with the id "err"; a turn that succeeds appends one whose id is the
    decimal form of the time of arrival plus one; the user's message has
    the decimal form of the time of sending. After two failed turns the
    ids of the transcript are not pairwise distinct. *)
Theorem failed_turns_share_id (v1 v2 : jsstring) (c1 c2 : Clock) (w : World E)
    (session : option Chat) (st : State) :
  trim v1 <> [] ->
  trim v2 <> [] ->
  let r1 := turn E v1 c1 w session st in
  let r2 := turn E v2 c2 (snd (fst r1)) session (fst (fst r1)) in
  (turnFails E v1 w session = true ->
   ids (fst (fst r1)) = ids st ++ [numToString (sentNow c1); lit "err"])
  /\ (turnFails E v1 w session = false ->
      ids (fst (fst r1)) =
        ids st ++ [numToString (sentNow c1); numToString (settledNow c1 + 1)])
  /\ (turnFails E v1 w session = true ->
      turnFails E v2 (snd (fst r1)) session = true ->
      ~ NoDup (ids (fst (fst r2)))).
Proof.
  intros H1 H2 r1 r2. subst r1 r2. split; [|split].
  - intros Hf. rewrite turn_ids by exact H1. rewrite Hf. reflexivity.
  - intros Hf. rewrite turn_ids by exact H1. rewrite Hf. reflexivity.
  - intros Hf1 Hf2. rewrite turn_ids by exact H2. rewrite Hf2.
    rewrite turn_ids by exact H1. rewrite Hf1.
    rewrite <- app_assoc. apply twice_not_NoDup.
Qed.

End ChatFacts.

Lemma failed_turns_share_id_witness :
  ~ NoDup (ChatWindow.ids
             (fst (fst (ChatWindow.turn Samples.brokenChatEnv (lit "And clause 5?")
                          Samples.sampleClock tt (Some Samples.someChat)
                          (fst (fst (ChatWindow.turn Samples.brokenChatEnv
                                       (lit "Is clause 4 fair?") Samples.sampleClock tt
                                       (Some Samples.someChat)
                                       (ChatWindow.initial 1699999999000)))))))).
Proof.
  destruct (failed_turns_share_id Samples.brokenChatEnv
              (lit "Is clause 4 fair?") (lit "And clause 5?")
              Samples.sampleClock Samples.sampleClock tt (Some Samples.someChat)
              (ChatWindow.initial 1699999999000)) as (_ & _ & H).
  - vm_compute. discriminate.
  - vm_compute. discriminate.
  - apply H; reflexivity.
Defined.

(** ** The report *)

Section ReportFacts.
Import GeminiService App.

Variable pageWidth : Q.
Variable splitTextToSize : list PdfOp -> jsstring -> Q -> list jsstring.
Variable numberToString : Z -> jsstring.

Lemma rendersHeading_app (h : jsstring) (a b : list PdfOp) :
  rendersHeading h (a ++ b) = rendersHeading h a || rendersHeading h b.
Proof. apply existsb_app. Qed.

Lemma ops_down (d : Q) (p : Pen) : ops (down d p) = ops p.
Proof. reflexivity. Qed.

Lemma quiet_emit (h : jsstring) (o : list PdfOp) (p : Pen) :
  rendersHeading h o = false ->
  rendersHeading h (ops (emit o p)) = rendersHeading h (ops p).
Proof.
  intros Ho. unfold emit. cbn [ops]. rewrite rendersHeading_app, Ho. apply orb_false_r.
Qed.

Lemma quiet_draw (h : jsstring) (f : Q -> list PdfOp) (p : Pen) :
  (forall y, rendersHeading h (f y) = false) ->
  rendersHeading h (ops (draw f p)) = rendersHeading h (ops p).
Proof.
  intros Hf. unfold draw. cbn [ops]. rewrite rendersHeading_app, Hf. apply orb_false_r.
Qed.

Lemma loud_draw (h : jsstring) (f : Q -> list PdfOp) (p : Pen) :
  (forall y, rendersHeading h (f y) = true) ->
  rendersHeading h (ops (draw f p)) = true.
Proof.
  intros Hf. unfold draw. cbn [ops]. rewrite rendersHeading_app, Hf. apply orb_true_r.
Qed.

Lemma quiet_breakWhen (h : jsstring) (c : Q -> bool) (p : Pen) :
  rendersHeading h (ops (breakWhen c p)) = rendersHeading h (ops p).
Proof.
  unfold breakWhen. destruct (c (y p)); [|reflexivity].
  cbn [ops]. rewrite rendersHeading_app. apply orb_false_r.
Qed.

Lemma quiet_withLines (h s : jsstring) (w : Q) (k : list jsstring -> Pen -> Pen)
    (p : Pen) :
  (forall ls q, rendersHeading h (ops (k ls q)) = rendersHeading h (ops q)) ->
  rendersHeading h (ops (withLines splitTextToSize s w k p)) = rendersHeading h (ops p).
Proof. intros Hk. unfold withLines. apply Hk. Qed.

(** Drawing wrapped lines and moving down adds no heading. *)
Lemma quiet_lines (h : jsstring) (d : Q) (ls : list jsstring) (q : Pen) :
  rendersHeading h
    (ops (down d (draw (fun y => [docText (TLines ls) margin y None]) q))) =
  rendersHeading h (ops q).
Proof. rewrite ops_down. apply quiet_draw. reflexivity. Qed.

Lemma quiet_nextStepItem (h : jsstring) (p : Pen) (step : jsstring) :
  rendersHeading h (ops (nextStepItem pageWidth splitTextToSize p step)) =
  rendersHeading h (ops p).
Proof.
  unfold nextStepItem. apply quiet_withLines. intros ls q. cbv zeta.
  rewrite quiet_lines. apply quiet_breakWhen.
Qed.

Lemma quiet_redFlagItem (h : jsstring) (p : Pen) (flag : jsstring) :
  rendersHeading h (ops (redFlagItem pageWidth splitTextToSize p flag)) =
  rendersHeading h (ops p).
Proof.
  unfold redFlagItem. apply quiet_withLines. intros ls q. cbv zeta. apply quiet_lines.
Qed.

(** A loop whose body adds no heading adds none. *)
Lemma quiet_forEach {A} (h : jsstring) (body : Pen -> A -> Pen) (l : list A) (p : Pen) :
  (forall q x, rendersHeading h (ops (body q x)) = rendersHeading h (ops q)) ->
  rendersHeading h (ops (fold_left body l p)) = rendersHeading h (ops p).
Proof.
  intros Hb. revert p. induction l as [|x l IH]; intros p; simpl; [reflexivity|].
  rewrite IH. apply Hb.
Qed.

(** The only single strings of the rewrite block and of the clause block
    are "Safe Rewrite Suggested:" and one that starts with "Clause: ". *)
Lemma quiet_rewriteBlock (h : jsstring) (rw : gmap Z jsstring) (c : Clause) (p : Pen) :
  sectionHeading h ->
  rendersHeading h (ops (rewriteBlock pageWidth splitTextToSize rw c p)) =
  rendersHeading h (ops p).
Proof.
  intros Hh. unfold rewriteBlock.
  destruct (rw !! id c) as [[|x r]|]; try reflexivity. cbv zeta.
  rewrite quiet_withLines by (intros ls q; apply quiet_lines).
  rewrite quiet_emit by reflexivity. rewrite ops_down.
  apply quiet_draw. intros y0. destruct Hh as [-> | ->]; reflexivity.
Qed.

Lemma quiet_clauseBlock (h : jsstring) (rw : gmap Z jsstring) (p : Pen) (c : Clause) :
  sectionHeading h ->
  rendersHeading h (ops (clauseBlock pageWidth splitTextToSize rw p c)) =
  rendersHeading h (ops p).
Proof.
  intros Hh. unfold clauseBlock. cbv zeta.
  rewrite ops_down, quiet_rewriteBlock by exact Hh.
  rewrite quiet_withLines by (intros ls q; apply quiet_lines).
  rewrite quiet_emit by reflexivity.
  rewrite quiet_withLines by (intros ls q; apply quiet_lines).
  rewrite quiet_emit by reflexivity.
  rewrite quiet_withLines by (intros ls q; apply quiet_lines).
  rewrite quiet_emit by reflexivity. rewrite ops_down.
  rewrite quiet_draw by (intros y0; destruct Hh as [-> | ->]; reflexivity).
  apply quiet_breakWhen.
Qed.

Lemma quiet_clausesSection (h : jsstring) (rw : gmap Z jsstring)
    (a : AnalysisResult) (p : Pen) :
  sectionHeading h ->
  rendersHeading h (ops (clausesSection pageWidth splitTextToSize rw a p)) =
  rendersHeading h (ops p).
Proof.
  intros Hh. unfold clausesSection. cbv zeta.
  rewrite quiet_forEach by (intros q x; apply quiet_clauseBlock; exact Hh).
  rewrite ops_down. apply quiet_draw.
  intros y0. destruct Hh as [-> | ->]; reflexivity.
Qed.

Lemma quiet_header (h : jsstring) (name : jsstring) (a : AnalysisResult) :
  sectionHeading h ->
  rendersHeading h (ops (header pageWidth splitTextToSize numberToString name a)) = false.
Proof.
  intros Hh. unfold header. cbv zeta. rewrite ops_down.
  rewrite quiet_withLines by (intros ls q; apply quiet_draw; reflexivity).
  rewrite quiet_draw by reflexivity. rewrite ops_down.
  rewrite quiet_draw by (intros y0; destruct Hh as [-> | ->]; reflexivity).
  rewrite ops_down.
  rewrite quiet_draw by (intros y0; destruct Hh as [-> | ->]; reflexivity).
  destruct Hh as [-> | ->]; reflexivity.
Qed.

Lemma quiet_footers (h : jsstring) (n : nat) (l : list nat) :
  sectionHeading h ->
  rendersHeading h (flat_map (footer pageWidth n) l) = false.
Proof.
  intros Hh. induction l as [|i l IH]; [reflexivity|].
  change (flat_map (footer pageWidth n) (i :: l))
    with (footer pageWidth n i ++ flat_map (footer pageWidth n) l).
  rewrite rendersHeading_app, IH.
  destruct Hh as [-> | ->]; reflexivity.
Qed.

(** An empty list leaves no trace of its section: no call, no space. *)
Lemma nextStepsSection_empty (a : AnalysisResult) (p : Pen) :
  nextSteps a = [] -> nextStepsSection pageWidth splitTextToSize a p = p.
Proof. intros H. unfold nextStepsSection. rewrite H. reflexivity. Qed.

Lemma redFlagsSection_empty (a : AnalysisResult) (p : Pen) :
  redFlags a = [] -> redFlagsSection pageWidth splitTextToSize a p = p.
Proof. intros H. unfold redFlagsSection. rewrite H. reflexivity. Qed.

Lemma nextStepsSection_heading (a : AnalysisResult) (p : Pen) :
  rendersHeading nextStepsHeading (ops (nextStepsSection pageWidth splitTextToSize a p)) =
    rendersHeading nextStepsHeading (ops p) || (0 <? List.length (nextSteps a))%nat.
Proof.
  unfold nextStepsSection.
  destruct (0 <? List.length (nextSteps a))%nat; [|symmetry; apply orb_false_r].
  cbv zeta. rewrite ops_down.
  rewrite quiet_forEach by (intros q x; apply quiet_nextStepItem).
  rewrite quiet_emit by reflexivity. rewrite ops_down.
  rewrite loud_draw by reflexivity. symmetry. apply orb_true_r.
Qed.

Lemma nextStepsSection_other (a : AnalysisResult) (p : Pen) :
  rendersHeading redFlagsHeading (ops (nextStepsSection pageWidth splitTextToSize a p)) =
    rendersHeading redFlagsHeading (ops p).
Proof.
  unfold nextStepsSection.
  destruct (0 <? List.length (nextSteps a))%nat; [|reflexivity].
  cbv zeta. rewrite ops_down.
  rewrite quiet_forEach by (intros q x; apply quiet_nextStepItem).
  rewrite quiet_emit by reflexivity. rewrite ops_down.
  apply quiet_draw. reflexivity.
Qed.

Lemma redFlagsSection_heading (a : AnalysisResult) (p : Pen) :
  rendersHeading redFlagsHeading (ops (redFlagsSection pageWidth splitTextToSize a p)) =
    rendersHeading redFlagsHeading (ops p) || (0 <? List.length (redFlags a))%nat.
Proof.
  unfold redFlagsSection.
  destruct (0 <? List.length (redFlags a))%nat; [|symmetry; apply orb_false_r].
  cbv zeta. rewrite ops_down.
  rewrite quiet_forEach by (intros q x; apply quiet_redFlagItem).
  rewrite quiet_emit by reflexivity. rewrite ops_down.
  rewrite loud_draw by reflexivity. symmetry. apply orb_true_r.
Qed.

Lemma redFlagsSection_other (a : AnalysisResult) (p : Pen) :
  rendersHeading nextStepsHeading (ops (redFlagsSection pageWidth splitTextToSize a p)) =
    rendersHeading nextStepsHeading (ops p).
Proof.
  unfold redFlagsSection.
  destruct (0 <? List.length (redFlags a))%nat; [|reflexivity].
  cbv zeta. rewrite ops_down.
  rewrite quiet_forEach by (intros q x; apply quiet_redFlagItem).
  rewrite quiet_emit by reflexivity. rewrite ops_down.
  rewrite quiet_draw by reflexivity. apply quiet_breakWhen.
Qed.

Lemma nonempty_length {A} (l : list A) : (0 <? List.length l)%nat = true <-> l <> [].
Proof.
  destruct l as [|x l]; simpl; split; intros H; try reflexivity; try discriminate.
  contradiction.
Qed.

(** Which of the two headings a report draws. *)
Lemma report_headings (name : jsstring) (rw : gmap Z jsstring) (a : AnalysisResult) :
  rendersHeading nextStepsHeading (report pageWidth splitTextToSize numberToString name rw a)
    = (0 <? List.length (nextSteps a))%nat
  /\ rendersHeading redFlagsHeading (report pageWidth splitTextToSize numberToString name rw a)
    = (0 <? List.length (redFlags a))%nat.
Proof.
  unfold report. cbv zeta. rewrite !rendersHeading_app.
  rewrite !quiet_footers by (unfold sectionHeading; auto).
  rewrite !quiet_clausesSection by (unfold sectionHeading; auto).
  rewrite redFlagsSection_other, redFlagsSection_heading.
  rewrite nextStepsSection_other, nextStepsSection_heading.
  rewrite !quiet_header by (unfold sectionHeading; auto).
  split; simpl; rewrite !orb_false_r; reflexivity.
Qed.

End ReportFacts.

(** The sample report draws the first heading and not the second. *)
Example sample_report_headings :
  App.rendersHeading App.nextStepsHeading
    (App.handleExportPDF 210 Samples.oneLine Samples.decimal Samples.loadedApp) = true
  /\ App.rendersHeading App.redFlagsHeading
       (App.handleExportPDF 210 Samples.oneLine Samples.decimal Samples.loadedApp) = false.
Proof. split; vm_compute; reflexivity. Qed.

(** ** Scenarios *)

(** A rewrite asked for clause 7 and answered with "Revised clause." is
    handed to the application under the id 7, and is then the entry at 7. *)
Example rewrite_of_clause_7 :
  snd (ClausePanel.handleRewrite Samples.rewritingEnv Samples.sampleResult
         Samples.depositClause tt None ClausePanel.initial)
    = [ClausePanel.OnRewriteUpdate 7 (lit "Revised clause.")]
  /\ App.rewrites (App.handleRewriteUpdate 7 (lit "Revised clause.") App.initial) !! 7%Z
    = Some (lit "Revised clause.").
Proof. split; [reflexivity | apply lookup_insert_eq]. Qed.

(** A failed rewrite stores nothing: it ends in one alert. *)
Example rewrite_without_key :
  snd (ClausePanel.handleRewrite Samples.noKeyEnv Samples.sampleResult
         Samples.depositClause tt None ClausePanel.initial)
    = [ClausePanel.Alert (lit "Failed to rewrite clause")].
Proof. reflexivity. Qed.

(** Forty pasted characters are refused with a warning and never reach
    the application. *)
Example paste_of_40_characters :
  List.length (FileUpload.manualText Samples.shortPaste) = 40%nat
  /\ FileUpload.handleManualSubmit Samples.shortPaste
    = (Samples.shortPaste, [FileUpload.Alert (lit "Please enter more text for a valid analysis.")]).
Proof. split; reflexivity. Qed.

(** A Word document is refused before any capability is asked. *)
Example docx_is_unsupported
    (readAsText : FileProcessor.File -> option jsstring)
    (getDocument : FileProcessor.File -> completion FileProcessor.PdfDocument)
    (recognize : FileProcessor.File -> option jsstring) :
  FileProcessor.extractTextFromFile readAsText getDocument recognize Samples.wordFile
    = Throw FileProcessor.unsupportedType.
Proof. reflexivity. Qed.

(** With a key and an answering model an upload ends with the document,
    its analysis and a chat session in place. *)
Example successful_load :
  let l := App.handleDocumentLoaded Samples.keyedEnv (lit "Lease deed") (lit "lease.txt")
             tt None App.initial in
  App.documentText (App.app l) = Some (lit "Lease deed")
  /\ App.analysis (App.app l) = Some Samples.sampleResult
  /\ App.isLoading (App.app l) = false
  /\ GeminiService.chatSession (App.service l)
      = Some {| GeminiService.chat_model := GeminiService.CHAT_MODEL;
                GeminiService.chat_systemInstruction :=
                  GeminiService.chatInstruction (lit "Lease deed") |}
  /\ App.alerts l = [].
Proof. repeat split. Qed.

(** * Further properties *)

(** ** The extractor *)

Section ExtractorFacts.
Import FileProcessor.

Variable readAsText : File -> option jsstring.
Variable getDocument : File -> completion PdfDocument.
Variable recognize : File -> option jsstring.

(** The extractor as a case analysis on the three tests. *)
Lemma extract_by_kind (file : File) :
  extractTextFromFile readAsText getDocument recognize file =
    if isText file then
      match readAsText file with Some t => Return t | None => Throw failedToRead end
    else if isPdf file then
      match extractPdfText getDocument file with
      | Return t => Return t
      | Throw _ => Throw couldNotExtract
      end
    else if isImage file then
      match recognize file with Some t => Return t | None => Throw ocrFailed end
    else Throw unsupportedType.
Proof. reflexivity. Qed.

(** The errors the extractor can end with. *)
Lemma extract_error_known (file : File) (e : Error) :
  extractTextFromFile readAsText getDocument recognize file = Throw e ->
  e = failedToRead \/ e = couldNotExtract \/ e = ocrFailed \/ e = unsupportedType.
Proof.
  rewrite extract_by_kind.
  destruct (isText file); [destruct (readAsText file)|];
    [discriminate | intros H; injection H as <-; auto |].
  destruct (isPdf file); [destruct (extractPdfText getDocument file)|];
    [discriminate | intros H; injection H as <-; auto |].
  destruct (isImage file); [destruct (recognize file)|];
    [discriminate | intros H; injection H as <-; auto |].
  intros H. injection H as <-. auto.
Qed.

(** X1. Whatever goes wrong, in the libraries or in the length check, the
    caller sees one of four fixed errors, the one of the branch taken. *)
Theorem extraction_errors_are_fixed (file : File) (e : Error) :
  extractTextFromFile readAsText getDocument recognize file = Throw e ->
  (isText file = true /\ e = failedToRead)
  \/ (isText file = false /\ isPdf file = true /\ e = couldNotExtract)
  \/ (isText file = false /\ isPdf file = false /\ isImage file = true /\ e = ocrFailed)
  \/ (isText file = false /\ isPdf file = false /\ isImage file = false
      /\ e = unsupportedType).
Proof.
  rewrite extract_by_kind.
  destruct (isText file).
  { destruct (readAsText file); intros H; [discriminate|]. injection H as <-.
    left. split; reflexivity. }
  destruct (isPdf file).
  { destruct (extractPdfText getDocument file); intros H; [discriminate|].
    injection H as <-. right. left. repeat split; reflexivity. }
  destruct (isImage file).
  { destruct (recognize file); intros H; [discriminate|]. injection H as <-.
    right. right. left. repeat split; reflexivity. }
  intros H. injection H as <-. right. right. right. repeat split; reflexivity.
Qed.

(** X2. When extraction succeeds: a text file yields what the reader read,
    unchanged; a PDF yields the text of all its pages, which then has at
    least 50 code units that are not whitespace; an image yields what the
    recognizer read. A text suffix or type wins over the PDF type, and
    the PDF type over an image type. *)
Theorem extraction_success_cases (file : File) (t : jsstring) :
  extractTextFromFile readAsText getDocument recognize file = Return t <->
  (isText file = true /\ readAsText file = Some t)
  \/ (isText file = false /\ isPdf file = true
      /\ exists pdf, getDocument file = Return pdf /\ pdfFullText pdf = Return t
                     /\ (50 <= List.length (removeWhitespace t))%nat)
  \/ (isText file = false /\ isPdf file = false /\ isImage file = true
      /\ recognize file = Some t).
Proof.
  rewrite extract_by_kind. unfold extractPdfText.
  destruct (isText file).
  { destruct (readAsText file) as [r|]; split.
    - intros H. injection H as ->. left. split; reflexivity.
    - intros [[_ H]|[(H & _)|(H & _)]]; try discriminate. injection H as ->. reflexivity.
    - discriminate.
    - intros [[_ H]|[(H & _)|(H & _)]]; discriminate. }
  destruct (isPdf file).
  { destruct (getDocument file) as [pdf|e].
    - destruct (pdfFullText pdf) as [full|e] eqn:Hfull.
      + destruct (List.length (removeWhitespace full) <? 50)%nat eqn:Hlen; split.
        * discriminate.
        * intros [[H _]|[(_ & _ & pdf' & Hd & Hf & Hlen')|(_ & H & _)]]; try discriminate.
          injection Hd as <-. rewrite Hfull in Hf. injection Hf as ->.
          apply Nat.ltb_lt in Hlen. lia.
        * intros H. injection H as ->. right. left. repeat split.
          exists pdf. repeat split; [exact Hfull|]. apply Nat.ltb_ge in Hlen. exact Hlen.
        * intros [[H _]|[(_ & _ & pdf' & Hd & Hf & _)|(_ & H & _)]]; try discriminate.
          injection Hd as <-. rewrite Hfull in Hf. injection Hf as ->. reflexivity.
      + split; [discriminate|].
        intros [[H _]|[(_ & _ & pdf' & Hd & Hf & _)|(_ & H & _)]]; try discriminate.
        injection Hd as <-. rewrite Hfull in Hf. discriminate.
    - split; [discriminate|].
      intros [[H _]|[(_ & _ & pdf' & Hd & _)|(_ & H & _)]]; discriminate. }
  destruct (isImage file).
  { destruct (recognize file) as [r|]; split.
    - intros H. injection H as ->. right. right. repeat split; reflexivity.
    - intros [[H _]|[(_ & H & _)|(_ & _ & _ & H)]]; try discriminate.
      injection H as ->. reflexivity.
    - discriminate.
    - intros [[H _]|[(_ & H & _)|(_ & _ & _ & H)]]; discriminate. }
  split; [discriminate|].
  intros [[H _]|[(_ & H & _)|(_ & _ & H & _)]]; discriminate.
Qed.

(** The page loop, started at page [i] with [acc], on pages that can all
    be read. *)
Lemma pageLoop_blocks (pages : list (list jsstring)) (i : N) (acc : jsstring) :
  pageLoop i (List.map Return pages) acc =
    Return (acc ++ List.concat (imap (fun k items => pageBlock (i + N.of_nat k) items) pages)).
Proof.
  revert i acc. induction pages as [|items pages IH]; intros i acc.
  - simpl. rewrite app_nil_r. reflexivity.
  - change (pageLoop i (List.map Return (items :: pages)) acc)
      with (pageLoop (i + 1) (List.map Return pages) (acc ++ pageBlock i items)).
    rewrite IH, imap_cons. cbn [List.concat].
    change (N.of_nat 0) with 0. rewrite N.add_0_r, <- app_assoc.
    do 4 f_equal. apply imap_ext. intros k x _. unfold compose. f_equal. lia.
Qed.

(** X3. The text of a PDF is one block per page, in page order, numbered
    from 1: the marker line, the items of the page joined by single
    spaces, and an empty line. *)
Theorem pdf_text_is_numbered_blocks (pages : list (list jsstring)) :
  pdfFullText (List.map Return pages) =
    Return (List.concat (imap (fun k items => pageBlock (N.of_nat (S k)) items) pages)).
Proof.
  unfold pdfFullText. rewrite pageLoop_blocks. rewrite app_nil_l.
  do 2 f_equal. apply imap_ext. intros k x _. f_equal. lia.
Qed.

Lemma pageLoop_stops (good : list (list jsstring)) (e : Error) (rest : PdfDocument)
    (i : N) (acc : jsstring) :
  pageLoop i (List.map Return good ++ Throw e :: rest) acc = Throw e.
Proof.
  revert i acc. induction good as [|items good IH]; intros i acc; simpl; [reflexivity|].
  apply IH.
Qed.

(** X4. One page that cannot be read fails the whole document: no text of
    the pages before it is returned, however long it is. *)
Theorem unreadable_page_fails_document (file : File) (good : list (list jsstring))
    (e : Error) (rest : PdfDocument) :
  isText file = false ->
  isPdf file = true ->
  getDocument file = Return (List.map Return good ++ Throw e :: rest) ->
  extractTextFromFile readAsText getDocument recognize file = Throw couldNotExtract.
Proof.
  intros Ht Hp Hd. rewrite extract_by_kind, Ht, Hp. unfold extractPdfText.
  rewrite Hd. unfold pdfFullText. rewrite pageLoop_stops. reflexivity.
Qed.

Lemma removeWhitespace_app (a b : jsstring) :
  removeWhitespace (a ++ b) = removeWhitespace a ++ removeWhitespace b.
Proof.
  induction a as [|c a IH]; simpl; [reflexivity|].
  destruct (isWhiteSpace c); simpl; rewrite IH; reflexivity.
Qed.

(** The marker of a page has at least ten code units that are not
    whitespace, whatever the page holds. *)
Lemma pageBlock_weight (i : N) (items : list jsstring) :
  (10 <= List.length (removeWhitespace (pageBlock i items)))%nat.
Proof.
  unfold pageBlock. rewrite !removeWhitespace_app, !length_app.
  change (List.length (removeWhitespace (lit "--- Page "))) with 7%nat.
  change (List.length (removeWhitespace (lit " ---"))) with 3%nat.
  lia.
Qed.

Lemma blocks_weight (pages : list (list jsstring)) (f : nat -> N) :
  (10 * List.length pages <=
   List.length (removeWhitespace (List.concat (imap (fun k items => pageBlock (f k) items) pages))))%nat.
Proof.
  revert f. induction pages as [|items pages IH]; intros f; [simpl; lia|].
  rewrite imap_cons. cbn [List.concat List.length].
  rewrite removeWhitespace_app, length_app.
  pose proof (pageBlock_weight (f 0%nat) items) as H0.
  specialize (IH (fun k => f (S k))).
  unfold compose. lia.
Qed.

(** X5. The page markers count in the length check: a PDF of five or more
    readable pages is never taken for a scan, even when no page has any
    text. *)
Theorem five_pages_always_resolve (file : File) (pages : list (list jsstring)) :
  isText file = false ->
  isPdf file = true ->
  getDocument file = Return (List.map Return pages) ->
  (5 <= List.length pages)%nat ->
  extractTextFromFile readAsText getDocument recognize file =
    Return (List.concat (imap (fun k items => pageBlock (N.of_nat (S k)) items) pages)).
Proof.
  intros Ht Hp Hd Hn. rewrite extract_by_kind, Ht, Hp. unfold extractPdfText.
  rewrite Hd. unfold pdfFullText. rewrite pageLoop_blocks, app_nil_l.
  rewrite (imap_ext _ (fun k items => pageBlock (N.of_nat (S k)) items))
    by (intros k x _; f_equal; lia).
  pose proof (blocks_weight pages (fun k => N.of_nat (S k))) as Hw.
  destruct (Nat.ltb_spec
              (List.length (removeWhitespace
                 (List.concat (imap (fun k items => pageBlock (N.of_nat (S k)) items) pages)))) 50).
  - lia.
  - reflexivity.
Qed.

End ExtractorFacts.

Lemma extraction_errors_are_fixed_witness :
  FileProcessor.isText Samples.photoFile = false
  /\ FileProcessor.isPdf Samples.photoFile = false
  /\ FileProcessor.isImage Samples.photoFile = true
  /\ FileProcessor.ocrFailed = FileProcessor.ocrFailed.
Proof.
  destruct (extraction_errors_are_fixed Samples.noReader Samples.onePageScan Samples.noReader
              Samples.photoFile FileProcessor.ocrFailed eq_refl)
    as [[H _]|[(_ & H & _)|[H|(_ & _ & H & _)]]]; [discriminate | discriminate | exact H | discriminate].
Defined.

Lemma unreadable_page_fails_document_witness :
  FileProcessor.extractTextFromFile Samples.noReader Samples.brokenPage Samples.noReader
    Samples.scanFile = Throw FileProcessor.couldNotExtract.
Proof.
  apply (unreadable_page_fails_document Samples.noReader Samples.brokenPage Samples.noReader
           Samples.scanFile
           [[lit "This Agreement is made between the Lessor and the Lessee of the premises."]]
           (mkError (lit "Invalid page request")) []); reflexivity.
Defined.

Lemma five_pages_always_resolve_witness :
  FileProcessor.extractTextFromFile Samples.noReader Samples.fivePageScan Samples.noReader
    Samples.scanFile =
  Return (List.concat (imap (fun k items => FileProcessor.pageBlock (N.of_nat (S k)) items)
                    [[]; []; []; []; []])).
Proof.
  apply (five_pages_always_resolve Samples.noReader Samples.fivePageScan Samples.noReader
           Samples.scanFile [[]; []; []; []; []]).
  - reflexivity.
  - reflexivity.
  - reflexivity.
  - simpl. lia.
Defined.

(** ** The upload component *)

Section UploadComponentFacts.
Import FileProcessor FileUpload.

Variable readAsText : File -> option jsstring.
Variable getDocument : File -> completion PdfDocument.
Variable recognize : File -> option jsstring.

(** The four fixed errors have a message, so the alert shows it. *)
Lemma fixed_error_message (file : File) (e : Error) :
  extractTextFromFile readAsText getDocument recognize file = Throw e ->
  orElse (Some (message e)) (lit "Error reading file") = message e.
Proof.
  intros H.
  destruct (extract_error_known readAsText getDocument recognize file e H)
    as [->|[->|[->| ->]]]; reflexivity.
Qed.

(** X6. The text is handed to the application exactly when extraction
    succeeds with a text that does not contain "Unable to extract"; it is
    handed over unchanged, whatever its length, under the file's name. *)
Theorem processFile_delivery_iff (file : File) (st : State) (t n : jsstring) :
  In (OnDataLoaded t n) (snd (processFile readAsText getDocument recognize file st))
  <-> extractTextFromFile readAsText getDocument recognize file = Return t
      /\ n = name file
      /\ includes t (lit "Unable to extract") = false.
Proof.
  split; [apply processFile_delivers|].
  intros (Hex & -> & Hinc). unfold processFile. rewrite Hex, Hinc. simpl. auto.
Qed.

(** X7. A failed extraction shows the extractor's own message; the fallback
    "Error reading file" is never shown. *)
Theorem failed_extraction_alerts_reason (file : File) (st : State) (e : Error) :
  extractTextFromFile readAsText getDocument recognize file = Throw e ->
  snd (processFile readAsText getDocument recognize file st) = [Alert (message e)]
  /\ message e <> lit "Error reading file".
Proof.
  intros H. rewrite (processFile_failure readAsText getDocument recognize file st e H).
  cbn [snd]. rewrite (fixed_error_message file e H). split; [reflexivity|].
  destruct (extract_error_known readAsText getDocument recognize file e H)
    as [->|[->|[->| ->]]]; discriminate.
Qed.

(** X8. However the extraction ends, the handler clears its progress flag,
    leaves the drag highlight alone and has at most one effect; the mode
    and the text area change only in the paste fallback, which has no
    effect outside the component. *)
Theorem processFile_frame (file : File) (st : State) :
  let r := processFile readAsText getDocument recognize file st in
  isProcessing (fst r) = false
  /\ dragActive (fst r) = dragActive st
  /\ (List.length (snd r) <= 1)%nat
  /\ ((mode (fst r) = mode st /\ manualText (fst r) = manualText st)
      \/ (mode (fst r) = paste /\ manualText (fst r) = pasteInstead /\ snd r = [])).
Proof.
  unfold processFile.
  destruct (extractTextFromFile readAsText getDocument recognize file) as [t|e].
  - destruct (includes t (lit "Unable to extract")); simpl.
    + split; [reflexivity|]. split; [reflexivity|]. split; [lia|].
      right. repeat split; reflexivity.
    + split; [reflexivity|]. split; [reflexivity|]. split; [lia|].
      left. split; reflexivity.
  - simpl. split; [reflexivity|]. split; [reflexivity|]. split; [lia|].
    left. split; reflexivity.
Qed.

(** Of the files of a drop only the first is processed, and the drag
    highlight is cleared. *)
Theorem drop_takes_first_file (file : File) (others : list File) (st : State) :
  handleDrop readAsText getDocument recognize (file :: others) st
    = handleDrop readAsText getDocument recognize [file] st
  /\ dragActive (fst (handleDrop readAsText getDocument recognize (file :: others) st)) = false
  /\ snd (handleDrop readAsText getDocument recognize (file :: others) st)
     = snd (processFile readAsText getDocument recognize file st).
Proof.
  split; [reflexivity|]. unfold handleDrop. split.
  - unfold processFile.
    destruct (extractTextFromFile readAsText getDocument recognize file) as [t|e];
      [destruct (includes t (lit "Unable to extract"))|]; reflexivity.
  - unfold processFile.
    destruct (extractTextFromFile readAsText getDocument recognize file) as [t|e];
      [destruct (includes t (lit "Unable to extract"))|]; reflexivity.
Qed.

End UploadComponentFacts.

Section PasteFacts.
Import FileUpload.

Lemma length_trimStart (s : jsstring) : (List.length (trimStart s) <= List.length s)%nat.
Proof.
  induction s as [|c s IH]; simpl; [lia|].
  destruct (isWhiteSpace c); simpl; lia.
Qed.

Lemma length_trim (s : jsstring) : (List.length (trim s) <= List.length s)%nat.
Proof.
  unfold trim, trimEnd. rewrite length_rev.
  pose proof (length_trimStart (rev (trimStart s))) as H1.
  rewrite length_rev in H1. pose proof (length_trimStart s). lia.
Qed.

(** X9. Pasted text reaches the application exactly when it has at least 50
    code units after trimming. It is then handed over untrimmed, under
    the name "Manual Paste.txt", and so has at least 50 code units. *)
Theorem paste_delivery_iff (st : State) (t n : jsstring) :
  In (OnDataLoaded t n) (snd (handleManualSubmit st))
  <-> t = manualText st /\ n = lit "Manual Paste.txt"
      /\ (50 <= List.length (trim t))%nat /\ (50 <= List.length t)%nat.
Proof.
  unfold handleManualSubmit.
  destruct (Nat.ltb_spec (List.length (trim (manualText st))) 50) as [Hlt|Hge]; simpl.
  - split.
    + intros [H|[]]. discriminate.
    + intros (-> & _ & H & _). lia.
  - split.
    + intros [H|[]]. injection H as <- <-.
      pose proof (length_trim (manualText st)). repeat split; lia.
    + intros (-> & -> & _). auto.
Qed.

End PasteFacts.

Lemma failed_extraction_alerts_reason_witness :
  snd (FileUpload.processFile Samples.noReader Samples.onePageScan Samples.noReader
         Samples.photoFile FileUpload.initial)
    = [FileUpload.Alert (lit "OCR processing failed.")].
Proof.
  apply (failed_extraction_alerts_reason Samples.noReader Samples.onePageScan Samples.noReader
           Samples.photoFile FileUpload.initial FileProcessor.ocrFailed).
  reflexivity.
Defined.

(** ** The model client, continued *)

Section ClientFacts.
Import GeminiService.

Variable E : Env.

Lemma analyze_calls (text : jsstring) (w : World E) (session : option Chat) :
  calls (analyzeDocument E text w session) =
    (if truthy (apiKey E) then [GenerateContent (analysisRequest text)] else []).
Proof.
  unfold analyzeDocument. destruct (truthy (apiKey E)); simpl; [|reflexivity].
  destruct (generateContent E w (analysisRequest text)). reflexivity.
Qed.

Lemma analyze_success_key (text : jsstring) (w : World E) (session : option Chat)
    (r : AnalysisResult) :
  result (analyzeDocument E text w session) = Return r -> truthy (apiKey E) = true.
Proof.
  unfold analyzeDocument. destruct (truthy (apiKey E)); [reflexivity|discriminate].
Qed.

Lemma rewrite_answer_nonempty (clauseText context : jsstring) (w : World E)
    (session : option Chat) (t : jsstring) :
  result (rewriteClause E clauseText context w session) = Return t -> t <> [].
Proof.
  unfold rewriteClause. destruct (truthy (apiKey E)); simpl; [|discriminate].
  destruct (generateContent E w (rewriteRequest clauseText context))
    as [w' [[[|c r]|]|e]]; simpl; intros H; try discriminate;
    injection H as <-; discriminate.
Qed.

Lemma initChat_calls (docContext : jsstring) (w : World E) (session : option Chat) :
  calls (initChat E docContext w session) = [].
Proof. unfold initChat. destruct (truthy (apiKey E)); reflexivity. Qed.

Lemma initChat_session (docContext : jsstring) (w : World E) (session : option Chat) :
  truthy (apiKey E) = true ->
  chatSession (initChat E docContext w session) = Some (sessionFor docContext).
Proof. intros Hk. unfold initChat. rewrite Hk. reflexivity. Qed.

(** X10. [analyzeDocument] returns a result only as the parse of a non-empty
    answer of the model, and only with a key; in every other case
    (no key, a rejected request, an empty or missing answer, an answer that
    does not parse) it fails. *)
Theorem analyze_success_iff (text : jsstring) (w : World E) (session : option Chat)
    (r : AnalysisResult) :
  result (analyzeDocument E text w session) = Return r <->
  truthy (apiKey E) = true
  /\ exists c rest,
       snd (generateContent E w (analysisRequest text)) = Return (Some (c :: rest))
       /\ JSON_parse E (c :: rest) = Return r.
Proof.
  unfold analyzeDocument. destruct (truthy (apiKey E)); simpl.
  - destruct (generateContent E w (analysisRequest text)) as [w' [[[|c rest]|]|e]]; simpl.
    + split; [discriminate|]. intros (_ & c & rest & H & _). discriminate.
    + split.
      * intros H. split; [reflexivity|]. exists c, rest. auto.
      * intros (_ & c' & rest' & H & Hp). injection H as <- <-. exact Hp.
    + split; [discriminate|]. intros (_ & c & rest & H & _). discriminate.
    + split; [discriminate|]. intros (_ & c & rest & H & _). discriminate.
  - split; [discriminate|]. intros [H _]. discriminate.
Qed.

(** X11. When the model gives no usable answer the error is the fixed "No
    response from AI"; an error of the request itself is passed on as
    it is. *)
Theorem analyze_failure_reasons (text : jsstring) (w : World E) (session : option Chat)
    (e : Error) :
  truthy (apiKey E) = true ->
  (snd (generateContent E w (analysisRequest text)) = Throw e ->
   result (analyzeDocument E text w session) = Throw e)
  /\ (snd (generateContent E w (analysisRequest text)) = Return None ->
      result (analyzeDocument E text w session) = Throw noResponse)
  /\ (snd (generateContent E w (analysisRequest text)) = Return (Some []) ->
      result (analyzeDocument E text w session) = Throw noResponse).
Proof.
  intros Hk. unfold analyzeDocument. rewrite Hk. simpl.
  destruct (generateContent E w (analysisRequest text)) as [w' resp]; simpl.
  repeat split; intros ->; reflexivity.
Qed.

(** X12. Text beyond the first 30000 code units has no influence on the
    analysis: two texts that agree up to there are analysed alike. *)
Theorem analyze_ignores_tail (t1 t2 : jsstring) (w : World E) (session : option Chat) :
  take 30000 t1 = take 30000 t2 ->
  analyzeDocument E t1 w session = analyzeDocument E t2 w session.
Proof.
  intros H.
  assert (Hreq : analysisRequest t1 = analysisRequest t2).
  { unfold analysisRequest, analysisPrompt. rewrite !substring_0, H. reflexivity. }
  unfold analyzeDocument. rewrite Hreq. reflexivity.
Qed.


(** No operation retries or sends more than one request: a rewrite sends
    one request with a key and none without, [initChat] sends none, and a
    chat message sends one when there is a session and none otherwise. *)
Theorem one_request_per_call (clauseText context docContext msg : jsstring)
    (w : World E) (session : option Chat) :
  calls (rewriteClause E clauseText context w session)
    = (if truthy (apiKey E) then [GenerateContent (rewriteRequest clauseText context)] else [])
  /\ calls (initChat E docContext w session) = []
  /\ world (initChat E docContext w session) = w
  /\ calls (sendMessageToChat E msg w session)
     = match session with Some chat => [ChatSendMessage chat msg] | None => [] end.
Proof.
  split; [|split; [|split]].
  - unfold rewriteClause. destruct (truthy (apiKey E)); simpl; [|reflexivity].
    destruct (generateContent E w (rewriteRequest clauseText context)). reflexivity.
  - unfold initChat. destruct (truthy (apiKey E)); reflexivity.
  - unfold initChat. destruct (truthy (apiKey E)); reflexivity.
  - unfold sendMessageToChat. destruct session as [chat|]; [|reflexivity].
    destruct (chatSendMessage E w chat msg). reflexivity.
Qed.

Lemma lastInit_found (cs : list Call) (d : jsstring) :
  lastInit cs (Some d) =
    match lastInit cs None with Some d' => Some d' | None => Some d end.
Proof.
  revert d. induction cs as [|c cs IH]; intros d; simpl; [reflexivity|].
  destruct c as [t|ct cx|d'|m]; try apply IH.
  rewrite (IH d'). destruct (lastInit cs None); reflexivity.
Qed.

(** Analysis, rewrite and chat messages never touch the session. *)
Lemma perform_session (c : Call) (w : World E) (session : option Chat) :
  snd (perform E c w session) =
    match c with
    | InitChat d => if truthy (apiKey E) then Some (sessionFor d) else session
    | _ => session
    end.
Proof.
  destruct c as [t|ct cx|d|m]; simpl.
  - unfold analyzeDocument. destruct (truthy (apiKey E)); simpl; [|reflexivity].
    destruct (generateContent E w (analysisRequest t)). reflexivity.
  - unfold rewriteClause. destruct (truthy (apiKey E)); simpl; [|reflexivity].
    destruct (generateContent E w (rewriteRequest ct cx)). reflexivity.
  - unfold initChat. destruct (truthy (apiKey E)); reflexivity.
  - unfold sendMessageToChat. destruct session as [chat|]; [|reflexivity].
    destruct (chatSendMessage E w chat m). reflexivity.
Qed.

(** X14. After any sequence of calls the one session is that of the document
    of the last [initChat]: a new session replaces the one before, and
    nothing else creates, changes or drops a session. Without a key the
    session stays what it was. *)
Theorem session_is_last_initialised (cs : list Call) (w : World E)
    (session : option Chat) :
  snd (performAll E cs w session) =
    if truthy (apiKey E) then
      match lastInit cs None with
      | Some d => Some (sessionFor d)
      | None => session
      end
    else session.
Proof.
  revert w session. induction cs as [|c cs IH]; intros w session.
  - simpl. destruct (truthy (apiKey E)); reflexivity.
  - cbn [performAll].
    pose proof (perform_session c w session) as Hs.
    destruct (perform E c w session) as [[[failed sent] w'] session'].
    cbn [snd] in Hs. rewrite IH. subst session'.
    destruct (truthy (apiKey E)) eqn:Hk; [|destruct c; reflexivity].
    destruct c; try reflexivity.
    cbn [lastInit]. rewrite lastInit_found.
    destruct (lastInit cs None); reflexivity.
Qed.

(** X15. The chat is given the first 20000 code units of the document, between
    two fixed parts, and every message after [initChat] is sent with that
    context. *)
Theorem chat_context_is_first_20000 (docContext msg : jsstring) (w w' : World E)
    (session : option Chat) :
  truthy (apiKey E) = true ->
  chatSession (initChat E docContext w session) = Some (sessionFor docContext)
  /\ chat_systemInstruction (sessionFor docContext)
     = chatInstructionHead ++ take 20000 docContext ++ chatInstructionTail
  /\ calls (sendMessageToChat E msg w' (chatSession (initChat E docContext w session)))
     = [ChatSendMessage (sessionFor docContext) msg].
Proof.
  intros Hk. unfold initChat. rewrite Hk. cbn [negb chatSession].
  split; [reflexivity|]. split.
  - simpl. unfold chatInstruction. rewrite substring_0. reflexivity.
  - unfold sendMessageToChat.
    destruct (chatSendMessage E w'
                {| chat_model := CHAT_MODEL;
                   chat_systemInstruction := chatInstruction docContext |} msg).
    reflexivity.
Qed.

End ClientFacts.

Lemma analyze_failure_reasons_witness :
  GeminiService.result
    (GeminiService.analyzeDocument Samples.silentEnv (lit "Lease deed") tt None)
  = Throw GeminiService.noResponse.
Proof.
  destruct (analyze_failure_reasons Samples.silentEnv (lit "Lease deed") tt None
              (mkError (lit "none")) eq_refl) as (_ & H & _).
  apply H. reflexivity.
Defined.

Lemma analyze_ignores_tail_witness :
  GeminiService.analyzeDocument Samples.keyedEnv
    (repeat 120%N 30000 ++ lit "first ending") tt None
  = GeminiService.analyzeDocument Samples.keyedEnv
      (repeat 120%N 30000 ++ lit "another ending") tt None.
Proof.
  apply (analyze_ignores_tail Samples.keyedEnv).
  rewrite !take_app_le by (rewrite repeat_length; lia). reflexivity.
Defined.

Lemma chat_context_is_first_20000_witness :
  GeminiService.chatSession
    (GeminiService.initChat Samples.keyedEnv (lit "Lease deed") tt None)
  = Some (GeminiService.sessionFor (lit "Lease deed")).
Proof.
  apply (chat_context_is_first_20000 Samples.keyedEnv (lit "Lease deed") (lit "hi") tt tt None).
  reflexivity.
Defined.

(** ** Rewrites, from the panel to the application *)

Section RewriteFacts.
Import GeminiService ClausePanel App.

Variable E : Env.

(** Selecting the same clause twice in a row restores its expansion when
    it was expanded, and otherwise leaves no clause expanded: a clause that
    was expanded before is not brought back. The rewrite in progress is not
    affected. *)
Theorem toggle_twice (i : Z) (st : ClausePanel.State) :
  expandedClauseId (toggleClause i (toggleClause i st))
    = (if sameId (expandedClauseId st) i then Some i else None)
  /\ rewritingId (toggleClause i (toggleClause i st)) = rewritingId st.
Proof.
  split; [|reflexivity]. unfold toggleClause. cbn [expandedClauseId].
  destruct (sameId (expandedClauseId st) i) eqn:Hs; simpl.
  - reflexivity.
  - rewrite Z.eqb_refl. reflexivity.
Qed.

(** What [handleRewrite] leaves of the panel: no rewrite in progress,
    the expansion as it was, and exactly one effect. *)
Lemma handleRewrite_panel (a : AnalysisResult) (clause : Clause) (w : World E)
    (session : option Chat) (st : ClausePanel.State) :
  fst (fst (handleRewrite E a clause w session st))
    = {| expandedClauseId := expandedClauseId st; rewritingId := None |}
  /\ snd (handleRewrite E a clause w session st)
     = match result (rewriteClause E (text clause) (Domain_value (domain a)) w session) with
       | Return t => [OnRewriteUpdate (id clause) t]
       | Throw _ => [ClausePanel.Alert (lit "Failed to rewrite clause")]
       end.
Proof.
  unfold handleRewrite.
  destruct (result (rewriteClause E (text clause) (Domain_value (domain a)) w session));
    split; reflexivity.
Qed.

(** X16. A rewrite that fails stores nothing: the application state is what
    it was, one alert is raised, and the button of the clause is enabled
    and offered as before. *)
Theorem failed_rewrite_stores_nothing (a : AnalysisResult) (clause : Clause)
    (w : World E) (session : option Chat) (st : ClausePanel.State) (app0 : App.State) :
  isThrow (result (rewriteClause E (text clause) (Domain_value (domain a)) w session))
    = true ->
  let r := handleRewrite E a clause w session st in
  onRewriteEffects (snd r) app0 = app0
  /\ snd r = [ClausePanel.Alert (lit "Failed to rewrite clause")]
  /\ rewriteDisabled (fst (fst r)) clause = false
  /\ offersRewrite (rewrites (onRewriteEffects (snd r) app0)) (fst (fst r)) clause
     = offersRewrite (rewrites app0) st clause.
Proof.
  intros Hf r. subst r.
  destruct (handleRewrite_panel a clause w session st) as [Hp He].
  rewrite Hp, He.
  destruct (result (rewriteClause E (text clause) (Domain_value (domain a)) w session));
    [discriminate|].
  repeat split.
Qed.

(** X17. A rewrite that succeeds is stored under the id of its clause and
    nowhere else; the stored text is not empty, so from then on the
    clause shows the rewrite when it is expanded and no longer offers the
    button. *)
Theorem successful_rewrite_is_shown (a : AnalysisResult) (clause : Clause)
    (w : World E) (session : option Chat) (st : ClausePanel.State) (app0 : App.State)
    (t : jsstring) :
  result (rewriteClause E (text clause) (Domain_value (domain a)) w session) = Return t ->
  let r := handleRewrite E a clause w session st in
  let app1 := onRewriteEffects (snd r) app0 in
  rewrites app1 = <[ id clause := t ]> (rewrites app0)
  /\ (forall k : Z, k <> id clause -> rewrites app1 !! k = rewrites app0 !! k)
  /\ offersRewrite (rewrites app1) (fst (fst r)) clause = false
  /\ showsRewrite (rewrites app1) (fst (fst r)) clause = isExpanded st clause.
Proof.
  intros Hr r app1. subst app1 r.
  destruct (handleRewrite_panel a clause w session st) as [Hp He].
  rewrite Hp, He, Hr. cbn [onRewriteEffects].
  assert (Ht : t <> []).
  { apply (rewrite_answer_nonempty E (text clause) (Domain_value (domain a)) w session t Hr). }
  assert (Hlook : truthy (rewrites (handleRewriteUpdate (id clause) t app0) !! id clause)
                  = true).
  { simpl. rewrite lookup_insert_eq. destruct t; [congruence|reflexivity]. }
  split; [reflexivity|]. split.
  - intros k Hk. simpl. apply lookup_insert_ne. congruence.
  - unfold offersRewrite, showsRewrite, isExpanded. rewrite Hlook. cbn [expandedClauseId].
    split; [apply andb_false_r | apply andb_true_r].
Qed.

End RewriteFacts.

Lemma failed_rewrite_stores_nothing_witness :
  App.onRewriteEffects
    (snd (ClausePanel.handleRewrite Samples.noKeyEnv Samples.sampleResult
            Samples.depositClause tt None ClausePanel.initial)) Samples.loadedApp
  = Samples.loadedApp.
Proof.
  apply (failed_rewrite_stores_nothing Samples.noKeyEnv Samples.sampleResult
           Samples.depositClause tt None ClausePanel.initial Samples.loadedApp).
  reflexivity.
Defined.

Lemma successful_rewrite_is_shown_witness :
  App.rewrites
    (App.onRewriteEffects
       (snd (ClausePanel.handleRewrite Samples.rewritingEnv Samples.sampleResult
               Samples.depositClause tt None ClausePanel.initial)) App.initial)
  = <[ 7%Z := lit "Revised clause." ]> (App.rewrites App.initial).
Proof.
  apply (successful_rewrite_is_shown Samples.rewritingEnv Samples.sampleResult
           Samples.depositClause tt None ClausePanel.initial App.initial
           (lit "Revised clause.")).
  reflexivity.
Defined.

(** ** Loading a document *)

Section LoadFacts.
Import GeminiService App.

Variable E : Env.

(** Every load, whether its analysis succeeds or fails, ends with the
    loading flag cleared, no rewrites, the name of the new file and the
    tab that was active; it raises one alert when it fails and none when
    it succeeds. *)
Theorem load_frame (text fileName : jsstring) (w : World E) (session : option Chat)
    (st : State) :
  let l := handleDocumentLoaded E text fileName w session st in
  isLoading (app l) = false
  /\ rewrites (app l) = ∅
  /\ docName (app l) = fileName
  /\ activeTab (app l) = activeTab st
  /\ alerts l = (if isThrow (result (analyzeDocument E text w session))
                 then [analysisFailed] else []).
Proof.
  unfold handleDocumentLoaded.
  destruct (result (analyzeDocument E text w session)); repeat split.
Qed.

(** X18. A load whose analysis succeeds sent exactly the one analysis request
    and replaces the chat session by one for the loaded text, whatever
    session there was; a load whose analysis fails leaves the session it
    found. *)
Theorem load_session (text fileName : jsstring) (w : World E) (session : option Chat)
    (st : State) :
  let l := handleDocumentLoaded E text fileName w session st in
  (forall r, result (analyzeDocument E text w session) = Return r ->
     chatSession (service l) = Some (sessionFor text)
     /\ calls (service l) = [GenerateContent (analysisRequest text)]
     /\ analysis (app l) = Some r)
  /\ (isThrow (result (analyzeDocument E text w session)) = true ->
      chatSession (service l) = session /\ analysis (app l) = analysis st).
Proof.
  split.
  - intros r Hr.
    pose proof (analyze_success_key E text w session r Hr) as Hk.
    unfold handleDocumentLoaded. rewrite Hr. cbn [service app chatSession calls analysis].
    rewrite analyze_calls, Hk, initChat_calls, (initChat_session E text _ _ Hk).
    repeat split.
  - intros Hf. unfold handleDocumentLoaded.
    destruct (result (analyzeDocument E text w session)) eqn:Hr; [discriminate|].
    cbn [service app chatSession analysis]. split; [|reflexivity].
    unfold analyzeDocument. destruct (truthy (apiKey E)); [|reflexivity].
    cbn [negb]. destruct (generateContent E w (analysisRequest text)). reflexivity.
Qed.

(** X19. Which view follows a load: the upload view stays when the analysis
    failed or when the loaded text is empty (an empty text is falsy), and
    gives way to the document view otherwise; the analysis, with the
    export and reset buttons, is present when this analysis succeeded or
    an earlier one was still held. *)
Theorem view_after_load (text fileName : jsstring) (w : World E)
    (session : option Chat) (st : State) :
  let l := handleDocumentLoaded E text fileName w session st in
  showsUpload (app l)
    = (isThrow (result (analyzeDocument E text w session))
       || match text with [] => true | _ :: _ => false end)
  /\ hasAnalysis (app l)
     = (negb (isThrow (result (analyzeDocument E text w session))) || hasAnalysis st).
Proof.
  unfold handleDocumentLoaded, showsUpload, hasAnalysis.
  destruct (result (analyzeDocument E text w session)); cbn [app documentText isLoading
    analysis isThrow negb orb truthy].
  - destruct text; split; reflexivity.
  - split; reflexivity.
Qed.

(** X20. After a reset the upload view is shown, the header has no export or
    reset button, and the export does nothing; the export does nothing
    exactly when there is no analysis. *)
Theorem reset_view_and_export (pageWidth : Q)
    (splitTextToSize : list PdfOp -> jsstring -> Q -> list jsstring)
    (numberToString : Z -> jsstring) (st : State) :
  showsUpload (handleReset st) = true
  /\ hasAnalysis (handleReset st) = false
  /\ handleExportPDF pageWidth splitTextToSize numberToString (handleReset st) = []
  /\ (handleExportPDF pageWidth splitTextToSize numberToString st = [] <-> analysis st = None).
Proof.
  split; [reflexivity|]. split; [reflexivity|]. split; [reflexivity|].
  unfold handleExportPDF. destruct (analysis st) as [a|]; [|tauto].
  split; [|discriminate]. unfold report. cbv zeta. intros H.
  apply app_eq_nil in H as [_ H]. apply app_eq_nil in H as [_ H]. discriminate.
Qed.

Section WholeUpload.

Variable readAsText : FileProcessor.File -> option jsstring.
Variable getDocument : FileProcessor.File -> completion FileProcessor.PdfDocument.
Variable recognize : FileProcessor.File -> option jsstring.

(** X21. From the chosen file to the model: a request is sent only when the
    extraction succeeded, the text does not contain "Unable to extract"
    and a key is present, and it is then the one analysis request for the
    extracted text. *)
Theorem upload_requests (file : FileProcessor.File) (fu : FileUpload.State)
    (w : World E) (session : option Chat) (st : State) :
  calls (service (snd (uploadFile E readAsText getDocument recognize file fu w session st)))
  = match FileProcessor.extractTextFromFile readAsText getDocument recognize file with
    | Return t =>
        if includes t (lit "Unable to extract") then []
        else if truthy (apiKey E) then [GenerateContent (analysisRequest t)] else []
    | Throw _ => []
    end.
Proof.
  unfold uploadFile, FileUpload.processFile.
  destruct (FileProcessor.extractTextFromFile readAsText getDocument recognize file)
    as [t|e]; [|reflexivity].
  destruct (includes t (lit "Unable to extract")); [reflexivity|].
  cbn [snd onUploadEffects service calls]. rewrite app_nil_r.
  unfold handleDocumentLoaded.
  destruct (result (analyzeDocument E t w session)) eqn:Hr; cbn [service calls].
  - rewrite analyze_calls, (analyze_success_key E t w session a Hr), initChat_calls.
    reflexivity.
  - apply analyze_calls.
Qed.

End WholeUpload.

End LoadFacts.

(** ** The chat transcript, continued *)

Section TranscriptFacts.
Import GeminiService ChatWindow.

Variable E : Env.

(** X22. A turn with a blank input does nothing: no message is added, no
    request is sent, and the blanks stay in the field. *)
Theorem blank_turn_is_ignored (v : jsstring) (clock : Clock) (w : World E)
    (session : option Chat) (st : State) :
  trim v = [] ->
  turn E v clock w session st = (setInput v st, w, []).
Proof.
  intros Hv. unfold turn, handleSend. cbn [input setInput]. rewrite Hv. reflexivity.
Qed.

(** X23. A turn with some input adds exactly two messages: the input as the
    user typed it (untrimmed), which is also what is sent to the model,
    and then either the model's answer or, when the call fails, the fixed
    apology. The user's message is kept in both cases; the field is
    emptied and the typing indicator is off. *)
Theorem turn_appends_exchange (v : jsstring) (clock : Clock) (w : World E)
    (session : option Chat) (st : State) :
  trim v <> [] ->
  turn E v clock w session st =
    ({| messages :=
          messages st ++
          [ {| msg_id := numToString (sentNow clock); role := user; msg_text := v;
               timestamp := sentDate clock |};
            match result (sendMessageToChat E v w session) with
            | Return t =>
                {| msg_id := numToString (settledNow clock + 1); role := model;
                   msg_text := t; timestamp := settledDate clock |}
            | Throw _ =>
                {| msg_id := lit "err"; role := model; msg_text := apology;
                   timestamp := settledDate clock |}
            end ];
        input := [];
        isTyping := false |},
     world (sendMessageToChat E v w session),
     calls (sendMessageToChat E v w session)).
Proof.
  intros Hv. unfold turn, handleSend. cbn [input setInput messages msg_text].
  destruct (trim v) as [|c r]; [congruence|].
  destruct (result (sendMessageToChat E v w session));
    rewrite <- app_assoc; reflexivity.
Qed.

(** Before a session exists every turn with some input is answered by
    the apology, and nothing is sent. *)
Theorem chat_without_session_apologises (v : jsstring) (clock : Clock) (w : World E)
    (st : State) :
  trim v <> [] ->
  turn E v clock w None st =
    ({| messages :=
          messages st ++
          [ {| msg_id := numToString (sentNow clock); role := user; msg_text := v;
               timestamp := sentDate clock |};
            {| msg_id := lit "err"; role := model; msg_text := apology;
               timestamp := settledDate clock |} ];
        input := [];
        isTyping := false |}, w, []).
Proof.
  intros Hv. unfold turn, handleSend. cbn [input setInput messages msg_text].
  destruct (trim v) as [|c r]; [congruence|].
  cbn. rewrite <- app_assoc. reflexivity.
Qed.

(** What one turn adds to the transcript. *)
Lemma turn_adds (v : jsstring) (clock : Clock) (w : World E) (session : option Chat)
    (st : State) :
  exists added,
    messages (fst (fst (turn E v clock w session st))) = messages st ++ added
    /\ List.length added =
         match trim v with [] => 0%nat | _ :: _ => 2%nat end.
Proof.
  unfold turn, handleSend. cbn [input setInput messages msg_text].
  destruct (trim v) as [|c r].
  - exists []. rewrite app_nil_r. split; reflexivity.
  - destruct (result (sendMessageToChat E v w session)); cbn [fst messages];
      rewrite <- app_assoc; eexists; split; reflexivity.
Qed.

(** X24. The transcript only grows at its end: after any number of turns the
    messages that were there are still there, first and in order, and two
    messages were added for every turn whose input was not blank. *)
Theorem transcript_is_append_only (ts : list (jsstring * Clock)) (w : World E)
    (session : option Chat) (st : State) :
  messages st `prefix_of` messages (fst (fst (turns E ts w session st)))
  /\ List.length (messages (fst (fst (turns E ts w session st))))
     = (List.length (messages st) + 2 * List.length (spoken ts))%nat.
Proof.
  revert w st. induction ts as [|[v clock] ts IH]; intros w st.
  - simpl. split; [reflexivity|lia].
  - cbn [turns].
    destruct (turn_adds v clock w session st) as (added & Hadd & Hlen).
    destruct (turn E v clock w session st) as [[st1 w1] calls1].
    cbn [fst] in Hadd.
    specialize (IH w1 st1).
    destruct (turns E ts w1 session st1) as [[st2 w2] calls2].
    cbn [fst] in *. destruct IH as [Hpre Hcount]. split.
    + transitivity (messages st1); [|exact Hpre]. rewrite Hadd. apply prefix_app_r.
      reflexivity.
    + rewrite Hcount, Hadd, length_app, Hlen. unfold spoken. cbn [List.filter fst].
      destruct (trim v); simpl; lia.
Qed.

End TranscriptFacts.

Lemma blank_turn_is_ignored_witness :
  ChatWindow.turn Samples.keyedEnv (lit "   ") Samples.sampleClock tt
    (Some Samples.someChat) (ChatWindow.initial 1699999999000)
  = (ChatWindow.setInput (lit "   ") (ChatWindow.initial 1699999999000), tt, []).
Proof.
  apply (blank_turn_is_ignored Samples.keyedEnv). reflexivity.
Defined.

Lemma turn_appends_exchange_witness :
  ChatWindow.ids
    (fst (fst (ChatWindow.turn Samples.keyedEnv (lit " Is clause 4 fair? ")
                 Samples.sampleClock tt (Some Samples.someChat)
                 (ChatWindow.initial 1699999999000))))
  = [lit "1"; lit "1700000000000"; lit "1700000000901"].
Proof.
  rewrite (turn_appends_exchange Samples.keyedEnv (lit " Is clause 4 fair? ")
             Samples.sampleClock tt (Some Samples.someChat)
             (ChatWindow.initial 1699999999000)).
  - reflexivity.
  - vm_compute. discriminate.
Defined.

Lemma chat_without_session_apologises_witness :
  List.map msg_text
    (ChatWindow.messages
       (fst (fst (ChatWindow.turn Samples.noKeyEnv (lit "Is clause 4 fair?")
                    Samples.sampleClock tt None (ChatWindow.initial 1699999999000)))))
  = [ChatWindow.greeting; lit "Is clause 4 fair?"; ChatWindow.apology].
Proof.
  rewrite (chat_without_session_apologises Samples.noKeyEnv (lit "Is clause 4 fair?")
             Samples.sampleClock tt (ChatWindow.initial 1699999999000)).
  - reflexivity.
  - vm_compute. discriminate.
Defined.

(** ** The report, continued *)

Section PenFacts.
Import App.

Context {B : Type}.
Variable see : PdfOp -> list B.
Variable splitTextToSize : list PdfOp -> jsstring -> Q -> list jsstring.

Lemma seen_emit (o : list PdfOp) (p : Pen) :
  flat_map see (ops (emit o p)) = flat_map see (ops p) ++ flat_map see o.
Proof. unfold emit. cbn [ops]. apply List.flat_map_app. Qed.

Lemma seen_draw (f : Q -> list PdfOp) (l : list B) (p : Pen) :
  (forall y, flat_map see (f y) = l) ->
  flat_map see (ops (draw f p)) = flat_map see (ops p) ++ l.
Proof. intros Hf. unfold draw. cbn [ops]. rewrite List.flat_map_app, Hf. reflexivity. Qed.

Lemma seen_withLines (s : jsstring) (w : Q) (k : list jsstring -> Pen -> Pen)
    (l : list B) (p : Pen) :
  (forall ls q, flat_map see (ops (k ls q)) = flat_map see (ops q) ++ l) ->
  flat_map see (ops (withLines splitTextToSize s w k p)) = flat_map see (ops p) ++ l.
Proof. intros Hk. unfold withLines. apply Hk. Qed.

Lemma seen_forEach {A} (body : Pen -> A -> Pen) (g : A -> list B) (l : list A) (p : Pen) :
  (forall q x, flat_map see (ops (body q x)) = flat_map see (ops q) ++ g x) ->
  flat_map see (ops (fold_left body l p)) = flat_map see (ops p) ++ flat_map g l.
Proof.
  intros Hb. revert p. induction l as [|x l IH]; intros p; simpl.
  - rewrite app_nil_r. reflexivity.
  - rewrite IH, Hb, <- app_assoc. reflexivity.
Qed.

End PenFacts.

Section MarkFacts.
Import App.

Context {B : Type}.
Variable see : PdfOp -> list B.
Hypothesis see_marks_only : forall o, isMark o = false -> see o = [].
Hypothesis see_no_position :
  forall s x y a x' y' a', see (docText (TStr s) x y a) = see (docText (TStr s) x' y' a').

Variable pageWidth : Q.
Variable splitTextToSize : list PdfOp -> jsstring -> Q -> list jsstring.
Variable numberToString : Z -> jsstring.

Lemma seen_marks (os : list PdfOp) :
  flat_map see os = flat_map see (List.filter isMark os).
Proof.
  induction os as [|o os IH]; [reflexivity|]. cbn [flat_map List.filter].
  destruct (isMark o) eqn:Ho.
  - cbn [flat_map]. rewrite IH. reflexivity.
  - rewrite (see_marks_only o Ho), IH. reflexivity.
Qed.

Lemma seen_string (s : jsstring) (x y : Q) (a : option jsstring) :
  flat_map see [docText (TStr s) x y a] = mark see s.
Proof. cbn [flat_map]. rewrite app_nil_r. apply see_no_position. Qed.

Ltac seen_calls :=
  intros; rewrite seen_marks; cbn [List.filter isMark];
  first [reflexivity | apply seen_string].

Lemma seen_breakWhen (c : Q -> bool) (p : Pen) :
  flat_map see (ops (breakWhen c p)) = flat_map see (ops p).
Proof.
  unfold breakWhen. destruct (c (y p)); [|reflexivity].
  cbn [ops]. rewrite List.flat_map_app.
  rewrite (seen_marks [addPage]). cbn [List.filter isMark flat_map]. apply app_nil_r.
Qed.

Lemma seen_quiet_draw (f : Q -> list PdfOp) (p : Pen) :
  (forall y, flat_map see (f y) = []) ->
  flat_map see (ops (draw f p)) = flat_map see (ops p).
Proof. intros Hf. rewrite (seen_draw see f [] p Hf). apply app_nil_r. Qed.

Lemma seen_quiet_emit (o : list PdfOp) (p : Pen) :
  flat_map see o = [] ->
  flat_map see (ops (emit o p)) = flat_map see (ops p).
Proof. intros Ho. rewrite seen_emit, Ho. apply app_nil_r. Qed.

Lemma seen_quiet_withLines (s : jsstring) (w : Q) (k : list jsstring -> Pen -> Pen)
    (p : Pen) :
  (forall ls q, flat_map see (ops (k ls q)) = flat_map see (ops q)) ->
  flat_map see (ops (withLines splitTextToSize s w k p)) = flat_map see (ops p).
Proof. intros Hk. unfold withLines. apply Hk. Qed.

Lemma seen_lines (d : Q) (ls : list jsstring) (q : Pen) :
  flat_map see (ops (down d (draw (fun y => [docText (TLines ls) margin y None]) q)))
  = flat_map see (ops q).
Proof. rewrite ops_down. apply seen_quiet_draw. seen_calls. Qed.

Lemma seen_nextStepItem (p : Pen) (step : jsstring) :
  flat_map see (ops (nextStepItem pageWidth splitTextToSize p step))
  = flat_map see (ops p) ++ [].
Proof.
  rewrite app_nil_r. unfold nextStepItem. apply seen_quiet_withLines.
  intros ls q. cbv zeta. rewrite seen_lines. apply seen_breakWhen.
Qed.

Lemma seen_redFlagItem (p : Pen) (flag : jsstring) :
  flat_map see (ops (redFlagItem pageWidth splitTextToSize p flag))
  = flat_map see (ops p) ++ [].
Proof.
  rewrite app_nil_r. unfold redFlagItem. apply seen_quiet_withLines.
  intros ls q. cbv zeta. apply seen_lines.
Qed.

Lemma flat_map_nothing {A} (l : list A) : flat_map (fun _ : A => @nil B) l = [].
Proof. induction l; simpl; auto. Qed.

Lemma seen_nextStepsSection (a : AnalysisResult) (p : Pen) :
  flat_map see (ops (nextStepsSection pageWidth splitTextToSize a p))
  = flat_map see (ops p)
    ++ (if (0 <? List.length (nextSteps a))%nat then mark see nextStepsHeading else []).
Proof.
  unfold nextStepsSection.
  destruct (0 <? List.length (nextSteps a))%nat; [|symmetry; apply app_nil_r].
  cbv zeta. rewrite ops_down.
  rewrite (seen_forEach see _ (fun _ => []) _ _ seen_nextStepItem), flat_map_nothing, app_nil_r.
  rewrite seen_quiet_emit by seen_calls. rewrite ops_down.
  apply seen_draw. seen_calls.
Qed.

Lemma seen_redFlagsSection (a : AnalysisResult) (p : Pen) :
  flat_map see (ops (redFlagsSection pageWidth splitTextToSize a p))
  = flat_map see (ops p)
    ++ (if (0 <? List.length (redFlags a))%nat then mark see redFlagsHeading else []).
Proof.
  unfold redFlagsSection.
  destruct (0 <? List.length (redFlags a))%nat; [|symmetry; apply app_nil_r].
  cbv zeta. rewrite ops_down.
  rewrite (seen_forEach see _ (fun _ => []) _ _ seen_redFlagItem), flat_map_nothing, app_nil_r.
  rewrite seen_quiet_emit by seen_calls. rewrite ops_down.
  rewrite (seen_draw see _ (mark see redFlagsHeading)) by seen_calls.
  rewrite seen_breakWhen. reflexivity.
Qed.

Lemma seen_rewriteBlock (rw : gmap Z jsstring) (c : Clause) (p : Pen) :
  flat_map see (ops (rewriteBlock pageWidth splitTextToSize rw c p))
  = flat_map see (ops p)
    ++ match rw !! id c with
       | Some (_ :: _) => mark see (lit "Safe Rewrite Suggested:")
       | _ => []
       end.
Proof.
  unfold rewriteBlock.
  destruct (rw !! id c) as [[|x r]|]; try (symmetry; apply app_nil_r). cbv zeta.
  rewrite seen_quiet_withLines by (intros ls q; apply seen_lines).
  rewrite seen_quiet_emit by seen_calls. rewrite ops_down.
  apply seen_draw. seen_calls.
Qed.

Lemma seen_clauseBlock (rw : gmap Z jsstring) (p : Pen) (c : Clause) :
  flat_map see (ops (clauseBlock pageWidth splitTextToSize rw p c))
  = flat_map see (ops p) ++ clauseMarks see rw c.
Proof.
  unfold clauseBlock, clauseMarks. cbv zeta.
  rewrite ops_down, seen_rewriteBlock.
  rewrite seen_quiet_withLines by (intros ls q; apply seen_lines).
  rewrite seen_quiet_emit by seen_calls.
  rewrite seen_quiet_withLines by (intros ls q; apply seen_lines).
  rewrite seen_quiet_emit by seen_calls.
  rewrite seen_quiet_withLines by (intros ls q; apply seen_lines).
  rewrite seen_quiet_emit by seen_calls. rewrite ops_down.
  rewrite (seen_draw see _ (mark see (clauseHeading c))) by seen_calls.
  rewrite seen_breakWhen, <- app_assoc. reflexivity.
Qed.

Lemma seen_clausesSection (rw : gmap Z jsstring) (a : AnalysisResult) (p : Pen) :
  flat_map see (ops (clausesSection pageWidth splitTextToSize rw a p))
  = flat_map see (ops p) ++ mark see (lit "Detailed Clause Analysis")
    ++ flat_map (clauseMarks see rw) (clauses a).
Proof.
  unfold clausesSection. cbv zeta.
  rewrite (seen_forEach see _ (clauseMarks see rw) _ _ (seen_clauseBlock rw)).
  rewrite ops_down.
  rewrite (seen_draw see _ (mark see (lit "Detailed Clause Analysis"))) by seen_calls.
  rewrite <- app_assoc. reflexivity.
Qed.

Lemma seen_header (name : jsstring) (a : AnalysisResult) :
  flat_map see (ops (header pageWidth splitTextToSize numberToString name a))
  = mark see (lit "LegalLens India Analysis")
    ++ mark see (lit "Document: " ++ name)
    ++ mark see (lit "Domain: " ++ Domain_value (domain a) ++ lit "   |   Risk Score: "
                   ++ numberToString (overallRiskScore a) ++ lit "/100").
Proof.
  unfold header. cbv zeta. rewrite ops_down.
  rewrite seen_quiet_withLines
    by (intros ls q; apply seen_quiet_draw; seen_calls).
  rewrite seen_quiet_draw by seen_calls. rewrite ops_down.
  rewrite (seen_draw see _ (mark see (lit "Domain: " ++ Domain_value (domain a)
             ++ lit "   |   Risk Score: " ++ numberToString (overallRiskScore a) ++ lit "/100")))
    by seen_calls.
  rewrite ops_down.
  rewrite (seen_draw see _ (mark see (lit "Document: " ++ name))) by seen_calls.
  cbn [ops]. rewrite <- app_assoc. f_equal. seen_calls.
Qed.

Lemma seen_footers (n : nat) (l : list nat) :
  flat_map see (flat_map (footer pageWidth n) l)
  = flat_map (fun i => see (setPage i) ++ mark see (footerText n i)) l.
Proof.
  induction l as [|i l IH]; [reflexivity|].
  cbn [flat_map]. rewrite List.flat_map_app, IH. f_equal.
  unfold footer. cbn [flat_map].
  rewrite (see_marks_only (setFontSize 8) eq_refl).
  rewrite (see_marks_only (setTextColor 150 150 150) eq_refl).
  rewrite app_nil_r. cbn [app]. f_equal. apply see_no_position.
Qed.

(** Everything an observation of marks sees of a report. *)
Lemma seen_report (name : jsstring) (rw : gmap Z jsstring) (a : AnalysisResult) :
  flat_map see (report pageWidth splitTextToSize numberToString name rw a)
  = mark see (lit "LegalLens India Analysis")
    ++ mark see (lit "Document: " ++ name)
    ++ mark see (lit "Domain: " ++ Domain_value (domain a) ++ lit "   |   Risk Score: "
                   ++ numberToString (overallRiskScore a) ++ lit "/100")
    ++ (if (0 <? List.length (nextSteps a))%nat then mark see nextStepsHeading else [])
    ++ (if (0 <? List.length (redFlags a))%nat then mark see redFlagsHeading else [])
    ++ mark see (lit "Detailed Clause Analysis")
    ++ flat_map (clauseMarks see rw) (clauses a)
    ++ flat_map (fun i =>
                   see (setPage i)
                   ++ mark see (footerText
                                  (pageCount (ops (reportBody pageWidth splitTextToSize numberToString
                                                     name rw a))) i))
         (seq 1 (pageCount (ops (reportBody pageWidth splitTextToSize numberToString name rw a))))
    ++ see (save (lit "LegalLens_Report.pdf")).
Proof.
  change (report pageWidth splitTextToSize numberToString name rw a)
    with (ops (reportBody pageWidth splitTextToSize numberToString name rw a)
          ++ flat_map (footer pageWidth
                         (pageCount (ops (reportBody pageWidth splitTextToSize numberToString name rw a))))
               (seq 1 (pageCount (ops (reportBody pageWidth splitTextToSize numberToString name rw a))))
          ++ [save (lit "LegalLens_Report.pdf")]).
  rewrite !List.flat_map_app, seen_footers.
  unfold reportBody at 1.
  rewrite seen_clausesSection, seen_redFlagsSection, seen_nextStepsSection, seen_header.
  cbn [flat_map]. rewrite app_nil_r, <- !app_assoc. reflexivity.
Qed.

End MarkFacts.

Section LayoutFacts.
Import App.

Variable pageWidth : Q.
Variable splitTextToSize : list PdfOp -> jsstring -> Q -> list jsstring.
Variable numberToString : Z -> jsstring.

Lemma stringOf_marks_only (o : PdfOp) : isMark o = false -> stringOf o = [].
Proof.
  destruct o as [r g b|r g b|r g b|x y w h st|x y w h rx ry st|n|f st|t x y al| |i|n];
    try reflexivity; try discriminate.
  destruct t; [discriminate|reflexivity].
Qed.

Lemma setPageOf_marks_only (o : PdfOp) : isMark o = false -> setPageOf o = [].
Proof.
  destruct o as [r g b|r g b|r g b|x y w h st|x y w h rx ry st|n|f st|t x y al| |i|n];
    try reflexivity; discriminate.
Qed.

Lemma saveOf_marks_only (o : PdfOp) : isMark o = false -> saveOf o = [].
Proof.
  destruct o as [r g b|r g b|r g b|x y w h st|x y w h rx ry st|n|f st|t x y al| |i|n];
    try reflexivity; discriminate.
Qed.

Lemma flat_map_all_nil {A C} (f : A -> list C) (l : list A) :
  (forall x, f x = []) -> flat_map f l = [].
Proof. intros Hf. induction l as [|x l IH]; simpl; [reflexivity|]. rewrite Hf, IH. reflexivity. Qed.

(** The footers and the saving add no page. *)
Lemma pageCount_report (name : jsstring) (rw : gmap Z jsstring) (a : AnalysisResult) :
  pageCount (report pageWidth splitTextToSize numberToString name rw a)
  = pageCount (ops (reportBody pageWidth splitTextToSize numberToString name rw a)).
Proof.
  change (report pageWidth splitTextToSize numberToString name rw a)
    with (ops (reportBody pageWidth splitTextToSize numberToString name rw a)
          ++ flat_map (footer pageWidth
                         (pageCount (ops (reportBody pageWidth splitTextToSize numberToString name rw a))))
               (seq 1 (pageCount (ops (reportBody pageWidth splitTextToSize numberToString name rw a))))
          ++ [save (lit "LegalLens_Report.pdf")]).
  unfold pageCount at 1 4. rewrite !List.filter_app, !length_app.
  generalize (pageCount (ops (reportBody pageWidth splitTextToSize numberToString name rw a))) at 1.
  generalize (seq 1 (pageCount (ops (reportBody pageWidth splitTextToSize numberToString name rw a)))).
  intros l n.
  assert (Hf : List.filter (fun o => match o with addPage => true | _ => false end)
                 (flat_map (footer pageWidth n) l) = []).
  { induction l as [|i l IH]; [reflexivity|]. cbn [flat_map].
    rewrite List.filter_app, IH. reflexivity. }
  rewrite Hf. simpl. lia.
Qed.

Lemma strings_of_report_body (name : jsstring) (rw : gmap Z jsstring)
    (a : AnalysisResult) :
  let n := pageCount (ops (reportBody pageWidth splitTextToSize numberToString name rw a)) in
  flat_map stringOf (report pageWidth splitTextToSize numberToString name rw a)
  = [lit "LegalLens India Analysis";
     lit "Document: " ++ name;
     lit "Domain: " ++ Domain_value (domain a) ++ lit "   |   Risk Score: "
       ++ numberToString (overallRiskScore a) ++ lit "/100"]
    ++ (if (0 <? List.length (nextSteps a))%nat then [nextStepsHeading] else [])
    ++ (if (0 <? List.length (redFlags a))%nat then [redFlagsHeading] else [])
    ++ [lit "Detailed Clause Analysis"]
    ++ flat_map (fun c =>
                   clauseHeading c
                   :: match rw !! id c with
                      | Some (_ :: _) => [lit "Safe Rewrite Suggested:"]
                      | _ => []
                      end) (clauses a)
    ++ List.map (footerText n) (seq 1 n).
Proof.
  intros n. subst n.
  rewrite (seen_report stringOf stringOf_marks_only (fun _ _ _ _ _ _ _ => eq_refl)).
  cbn [mark stringOf app]. rewrite app_nil_r. do 3 f_equal.
Qed.

(** X25. The single strings of a report, in the order in which they are
    written: the banner, the document line, the domain and score line, the
    heading of the next steps and that of the red flags when their list is
    not empty, the heading of the clauses, for each clause in order its
    heading followed by the rewrite heading when a non-empty rewrite is
    stored under its id, and one footer per page, numbered from 1 to the
    number of pages. *)
Theorem report_strings_in_order (name : jsstring) (rw : gmap Z jsstring)
    (a : AnalysisResult) :
  let n := pageCount (report pageWidth splitTextToSize numberToString name rw a) in
  flat_map stringOf (report pageWidth splitTextToSize numberToString name rw a)
  = [lit "LegalLens India Analysis";
     lit "Document: " ++ name;
     lit "Domain: " ++ Domain_value (domain a) ++ lit "   |   Risk Score: "
       ++ numberToString (overallRiskScore a) ++ lit "/100"]
    ++ (if (0 <? List.length (nextSteps a))%nat then [nextStepsHeading] else [])
    ++ (if (0 <? List.length (redFlags a))%nat then [redFlagsHeading] else [])
    ++ [lit "Detailed Clause Analysis"]
    ++ flat_map (fun c =>
                   clauseHeading c
                   :: match rw !! id c with
                      | Some (_ :: _) => [lit "Safe Rewrite Suggested:"]
                      | _ => []
                      end) (clauses a)
    ++ List.map (footerText n) (seq 1 n).
Proof.
  intros n. subst n. rewrite pageCount_report. apply strings_of_report_body.
Qed.

Lemma footer_pages (n : nat) (l : list nat) :
  flat_map (fun i => setPageOf (setPage i) ++ mark setPageOf (footerText n i)) l = l.
Proof. induction l as [|i l IH]; [reflexivity|]. cbn [flat_map]. rewrite IH. reflexivity. Qed.

Lemma clauseMarks_no_page (rw : gmap Z jsstring) (c : Clause) :
  clauseMarks setPageOf rw c = [].
Proof. unfold clauseMarks. destruct (rw !! id c) as [[|x r]|]; reflexivity. Qed.

Lemma clauseMarks_no_save (rw : gmap Z jsstring) (c : Clause) :
  clauseMarks saveOf rw c = [].
Proof. unfold clauseMarks. destruct (rw !! id c) as [[|x r]|]; reflexivity. Qed.

(** X26. Every page of the report gets exactly one footer: the pages selected
    for the footers are 1, 2, ... up to the number of pages, each once and
    in order; the number of pages is one more than the number of page
    breaks; the file is saved once, under the fixed name, as the last call. *)
Theorem every_page_gets_one_footer (name : jsstring) (rw : gmap Z jsstring)
    (a : AnalysisResult) :
  flat_map setPageOf (report pageWidth splitTextToSize numberToString name rw a)
    = seq 1 (pageCount (report pageWidth splitTextToSize numberToString name rw a))
  /\ pageCount (report pageWidth splitTextToSize numberToString name rw a)
     = S (List.length (flat_map addPageOf (report pageWidth splitTextToSize numberToString name rw a)))
  /\ flat_map saveOf (report pageWidth splitTextToSize numberToString name rw a)
     = [lit "LegalLens_Report.pdf"]
  /\ List.last (report pageWidth splitTextToSize numberToString name rw a) addPage
     = save (lit "LegalLens_Report.pdf").
Proof.
  split; [|split; [|split]].
  - rewrite pageCount_report.
    rewrite (seen_report setPageOf setPageOf_marks_only (fun _ _ _ _ _ _ _ => eq_refl)).
    rewrite footer_pages, (flat_map_all_nil (clauseMarks setPageOf rw))
      by apply clauseMarks_no_page.
    destruct (0 <? List.length (nextSteps a))%nat;
      destruct (0 <? List.length (redFlags a))%nat;
      cbn [mark setPageOf app]; apply app_nil_r.
  - unfold pageCount. f_equal.
    induction (report pageWidth splitTextToSize numberToString name rw a) as [|o os IH]; [reflexivity|].
    destruct o; simpl; rewrite ?IH; reflexivity.
  - rewrite (seen_report saveOf saveOf_marks_only (fun _ _ _ _ _ _ _ => eq_refl)).
    rewrite (flat_map_all_nil (clauseMarks saveOf rw)) by apply clauseMarks_no_save.
    rewrite flat_map_all_nil by (intros i; reflexivity).
    destruct (0 <? List.length (nextSteps a))%nat;
      destruct (0 <? List.length (redFlags a))%nat; reflexivity.
  - unfold report. cbv zeta. rewrite app_assoc. apply List.last_last.
Qed.

Lemma first_unit_differs (s t : jsstring) : hd 0 s <> hd 0 t -> s <> t.
Proof. intros H ->. apply H. reflexivity. Qed.

Lemma rewrite_heading_present (name : jsstring) (rw : gmap Z jsstring)
    (a : AnalysisResult) (c : Clause) :
  In c (clauses a) ->
  truthy (rw !! id c) = true ->
  In (lit "Safe Rewrite Suggested:")
     (flat_map stringOf (report pageWidth splitTextToSize numberToString name rw a)).
Proof.
  intros Hc Ht. rewrite strings_of_report_body. cbv zeta.
  rewrite !in_app_iff, in_flat_map. right. right. right. right. left.
  exists c. split; [exact Hc|]. right.
  destruct (rw !! id c) as [[|x r]|]; try discriminate. left. reflexivity.
Qed.

(** X27. The rewrite heading is written exactly when some clause of the
    result has a non-empty rewrite stored under its id: an empty rewrite,
    or one stored under an id that no clause has, is not exported. *)
Theorem rewrites_in_report (name : jsstring) (rw : gmap Z jsstring)
    (a : AnalysisResult) :
  In (lit "Safe Rewrite Suggested:")
     (flat_map stringOf (report pageWidth splitTextToSize numberToString name rw a))
  <-> exists c, In c (clauses a) /\ truthy (rw !! id c) = true.
Proof.
  rewrite strings_of_report_body. cbv zeta.
  rewrite !in_app_iff, in_flat_map, in_map_iff. split.
  - intros [H|[H|[H|[H|[H|H]]]]].
    + destruct H as [H|[H|[H|[]]]]; exfalso; revert H; apply first_unit_differs;
        vm_compute; discriminate.
    + destruct (0 <? List.length (nextSteps a))%nat; [|destruct H].
      destruct H as [H|[]]. exfalso. revert H. apply first_unit_differs.
      vm_compute. discriminate.
    + destruct (0 <? List.length (redFlags a))%nat; [|destruct H].
      destruct H as [H|[]]. exfalso. revert H. apply first_unit_differs.
      vm_compute. discriminate.
    + destruct H as [H|[]]. exfalso. revert H. apply first_unit_differs.
      vm_compute. discriminate.
    + destruct H as (c & Hc & [H|H]).
      * exfalso. revert H. apply first_unit_differs. vm_compute. discriminate.
      * exists c. split; [exact Hc|].
        destruct (rw !! id c) as [[|x r]|]; [destruct H|reflexivity|destruct H].
    + destruct H as (i & H & _). exfalso. revert H. apply first_unit_differs.
      vm_compute. discriminate.
  - intros (c & Hc & Ht). rewrite <- in_map_iff, <- in_flat_map, <- !in_app_iff.
    rewrite <- strings_of_report_body. apply (rewrite_heading_present name rw a c Hc Ht).
Qed.

Lemma pageCount_quiet (os o : list PdfOp) :
  List.filter (fun x => match x with addPage => true | _ => false end) o = [] ->
  pageCount (os ++ o) = pageCount os.
Proof. intros H. unfold pageCount. rewrite List.filter_app, H, app_nil_r. reflexivity. Qed.

Lemma pageCount_redFlagItems (flags : list jsstring) (p : Pen) :
  pageCount (ops (fold_left (redFlagItem pageWidth splitTextToSize) flags p))
  = pageCount (ops p).
Proof.
  revert p. induction flags as [|flag flags IH]; intros p; [reflexivity|].
  cbn [fold_left]. rewrite IH.
  unfold redFlagItem, withLines, down, draw. cbn [ops].
  apply pageCount_quiet. reflexivity.
Qed.

(** X28. The red flags are never paginated: however many there are and
    however long, the loop over them adds no page, and the whole section
    adds at most the one page that may precede its heading. *)
Theorem red_flags_share_a_page (a : AnalysisResult) (p : Pen) :
  pageCount (ops (fold_left (redFlagItem pageWidth splitTextToSize) (redFlags a) p))
    = pageCount (ops p)
  /\ (pageCount (ops (redFlagsSection pageWidth splitTextToSize a p))
      <= S (pageCount (ops p)))%nat.
Proof.
  split; [apply pageCount_redFlagItems|].
  unfold redFlagsSection.
  destruct (0 <? List.length (redFlags a))%nat; [|lia].
  cbv zeta. rewrite ops_down, pageCount_redFlagItems.
  unfold emit, down, draw. cbn [ops].
  rewrite !pageCount_quiet by reflexivity.
  unfold breakWhen. destruct (gtb (y p) 250); [|lia].
  cbn [ops]. unfold pageCount. rewrite List.filter_app, length_app. simpl. lia.
Qed.

End LayoutFacts.

(** ** The report, text by text *)

Section OrderFacts.
Import App.

Variable pageWidth : Q.
Variable splitTextToSize : list PdfOp -> jsstring -> Q -> list jsstring.
Variable numberToString : Z -> jsstring.

Lemma textCalls_app (a b : list PdfOp) :
  textCalls (a ++ b) = textCalls a ++ textCalls b.
Proof. apply List.filter_app. Qed.

Lemma lays_refl (p : Pen) : laysOut splitTextToSize p p [].
Proof. exists []. split; [symmetry; apply app_nil_r | constructor]. Qed.

Lemma lays_trans (p q r : Pen) (e1 e2 : list Expected) :
  laysOut splitTextToSize p q e1 ->
  laysOut splitTextToSize q r e2 ->
  laysOut splitTextToSize p r (e1 ++ e2).
Proof.
  intros (a1 & H1 & F1) (a2 & H2 & F2). exists (a1 ++ a2). split.
  - rewrite H2, H1, app_assoc. reflexivity.
  - apply Forall2_app; assumption.
Qed.

Lemma lays_eq (p q : Pen) (es es' : list Expected) :
  laysOut splitTextToSize p q es -> es = es' -> laysOut splitTextToSize p q es'.
Proof. intros H <-. exact H. Qed.

(** A step that adds no call of [doc.text]. *)
Lemma lays_nothing (q r : Pen) :
  textCalls (ops r) = textCalls (ops q) -> laysOut splitTextToSize q r [].
Proof. intros H. exists []. rewrite H, app_nil_r. split; [reflexivity|constructor]. Qed.

Lemma step_down (d : Q) (q : Pen) : laysOut splitTextToSize q (down d q) [].
Proof. apply lays_nothing. reflexivity. Qed.

Lemma step_emit (o : list PdfOp) (q : Pen) :
  textCalls o = [] -> laysOut splitTextToSize q (emit o q) [].
Proof.
  intros Ho. apply lays_nothing. unfold emit. cbn [ops].
  rewrite textCalls_app, Ho. apply app_nil_r.
Qed.

Lemma step_draw_quiet (f : Q -> list PdfOp) (q : Pen) :
  (forall y, textCalls (f y) = []) -> laysOut splitTextToSize q (draw f q) [].
Proof.
  intros Hf. apply lays_nothing. unfold draw. cbn [ops].
  rewrite textCalls_app, Hf. apply app_nil_r.
Qed.

Lemma step_breakWhen (c : Q -> bool) (q : Pen) :
  laysOut splitTextToSize q (breakWhen c q) [].
Proof.
  apply lays_nothing. unfold breakWhen. destruct (c (y q)); [|reflexivity].
  cbn [ops]. rewrite textCalls_app. apply app_nil_r.
Qed.

(** A step whose one call of [doc.text] writes the string [s]. *)
Lemma step_draw_string (s : jsstring) (f : Q -> list PdfOp) (q : Pen) :
  (forall y, exists x al, textCalls (f y) = [docText (TStr s) x y al]) ->
  laysOut splitTextToSize q (draw f q) [ExpStr s].
Proof.
  intros Hf. destruct (Hf (y q)) as (x & al & Hy).
  exists [docText (TStr s) x (y q) al]. split.
  - unfold draw. cbn [ops]. rewrite textCalls_app, Hy. reflexivity.
  - constructor; [|constructor]. exists x, (y q), al. reflexivity.
Qed.

(** A block that breaks a text into lines and draws them with one call. *)
Lemma step_withLines (txt : jsstring) (w : Q) (k : list jsstring -> Pen -> Pen)
    (q : Pen) :
  (forall ls q', exists x y al,
      textCalls (ops (k ls q')) = textCalls (ops q') ++ [docText (TLines ls) x y al]) ->
  laysOut splitTextToSize q (withLines splitTextToSize txt w k q) [ExpLines txt w].
Proof.
  intros Hk. unfold withLines.
  destruct (Hk (splitTextToSize (ops q) txt w) q) as (x & y0 & al & Hq).
  exists [docText (TLines (splitTextToSize (ops q) txt w)) x y0 al]. split; [exact Hq|].
  constructor; [|constructor]. exists (ops q), x, y0, al. reflexivity.
Qed.

Lemma step_forEach {A} (body : Pen -> A -> Pen) (g : A -> list Expected)
    (l : list A) (q : Pen) :
  (forall q' x, laysOut splitTextToSize q' (body q' x) (g x)) ->
  laysOut splitTextToSize q (fold_left body l q) (flat_map g l).
Proof.
  intros Hb. revert q. induction l as [|x l IH]; intros q; cbn [fold_left flat_map].
  - apply lays_refl.
  - apply (lays_trans q (body q x)); [apply Hb|apply IH].
Qed.

(** The two shapes of block the report gives to [withLines]. *)
Lemma lines_then_down (d x dy : Q) (ls : list jsstring) (q : Pen) :
  exists x' y' al,
    textCalls (ops (down d (draw (fun y => [docText (TLines ls) x (y + dy)%Q None]) q)))
    = textCalls (ops q) ++ [docText (TLines ls) x' y' al].
Proof.
  exists x, (y q + dy)%Q, None. unfold down, draw. cbn [ops].
  rewrite textCalls_app. reflexivity.
Qed.

Lemma lines_at_y_then_down (d : Q) (ls : list jsstring) (q : Pen) :
  exists x' y' al,
    textCalls (ops (down d (draw (fun y => [docText (TLines ls) margin y None]) q)))
    = textCalls (ops q) ++ [docText (TLines ls) x' y' al].
Proof.
  exists margin, (y q), None. unfold down, draw. cbn [ops].
  rewrite textCalls_app. reflexivity.
Qed.

Ltac lay_last lem := eapply lays_trans; [|lem].
Ltac lay_string :=
  apply step_draw_string; intros y0; eexists; eexists; reflexivity.
Ltac lay_lines :=
  apply step_withLines; intros ls q'; apply lines_at_y_then_down.
Ltac lay_done := rewrite ?app_nil_r, <- ?app_assoc; reflexivity.

Lemma flat_map_single {A C} (f : A -> C) (l : list A) :
  flat_map (fun x => [f x]) l = List.map f l.
Proof. induction l as [|x l IH]; simpl; [reflexivity|]. rewrite IH. reflexivity. Qed.

Lemma lays_nextStepItem (q : Pen) (step : jsstring) :
  laysOut splitTextToSize q (nextStepItem pageWidth splitTextToSize q step)
    [ExpLines (itemText step) (maxTextWidth pageWidth)].
Proof.
  unfold nextStepItem. apply step_withLines. intros ls q'. cbv zeta.
  exists margin, (y (breakWhen (fun y => gtb (y + height ls 5) 280) q')), None.
  unfold down, draw. cbn [ops]. rewrite textCalls_app. f_equal.
  unfold breakWhen. destruct (gtb (y q' + height ls 5) 280); [|reflexivity].
  cbn [ops]. rewrite textCalls_app. apply app_nil_r.
Qed.

Lemma lays_redFlagItem (q : Pen) (flag : jsstring) :
  laysOut splitTextToSize q (redFlagItem pageWidth splitTextToSize q flag)
    [ExpLines (itemText flag) (maxTextWidth pageWidth)].
Proof. unfold redFlagItem. lay_lines. Qed.

(** The section of the next steps: nothing for an empty list, and
    otherwise its heading and then one item per step, in order. *)
Lemma lays_nextStepsSection (a : AnalysisResult) (q : Pen) :
  laysOut splitTextToSize q (nextStepsSection pageWidth splitTextToSize a q)
    (sectionLayout pageWidth nextStepsHeading (nextSteps a)).
Proof.
  unfold nextStepsSection, sectionLayout.
  destruct (nextSteps a) as [|s l] eqn:Hl; [apply lays_refl|].
  change (0 <? List.length (s :: l))%nat with true. cbv iota zeta.
  eapply lays_eq.
  - lay_last ltac:(apply step_down).
    lay_last ltac:(apply (step_forEach _
                     (fun step => [ExpLines (itemText step) (maxTextWidth pageWidth)]));
                   apply lays_nextStepItem).
    lay_last ltac:(apply step_emit; reflexivity).
    lay_last ltac:(apply step_down).
    lay_last ltac:(lay_string).
    apply lays_refl.
  - rewrite flat_map_single. lay_done.
Qed.

Lemma lays_redFlagsSection (a : AnalysisResult) (q : Pen) :
  laysOut splitTextToSize q (redFlagsSection pageWidth splitTextToSize a q)
    (sectionLayout pageWidth redFlagsHeading (redFlags a)).
Proof.
  unfold redFlagsSection, sectionLayout.
  destruct (redFlags a) as [|s l] eqn:Hl; [apply lays_refl|].
  change (0 <? List.length (s :: l))%nat with true. cbv iota zeta.
  eapply lays_eq.
  - lay_last ltac:(apply step_down).
    lay_last ltac:(apply (step_forEach _
                     (fun flag => [ExpLines (itemText flag) (maxTextWidth pageWidth)]));
                   apply lays_redFlagItem).
    lay_last ltac:(apply step_emit; reflexivity).
    lay_last ltac:(apply step_down).
    lay_last ltac:(lay_string).
    lay_last ltac:(apply step_breakWhen).
    apply lays_refl.
  - rewrite flat_map_single. lay_done.
Qed.

Lemma lays_rewriteBlock (rw : gmap Z jsstring) (c : Clause) (q : Pen) :
  laysOut splitTextToSize q (rewriteBlock pageWidth splitTextToSize rw c q)
    match rw !! id c with
    | Some (x :: r) =>
        [ExpStr (lit "Safe Rewrite Suggested:");
         ExpLines (dquote ++ (x :: r) ++ dquote) (maxTextWidth pageWidth)]
    | _ => []
    end.
Proof.
  unfold rewriteBlock. destruct (rw !! id c) as [[|x r]|]; try apply lays_refl.
  cbv zeta. eapply lays_eq.
  - lay_last ltac:(lay_lines).
    lay_last ltac:(apply step_emit; reflexivity).
    lay_last ltac:(apply step_down).
    lay_last ltac:(lay_string).
    apply lays_refl.
  - lay_done.
Qed.

Lemma lays_clauseBlock (rw : gmap Z jsstring) (q : Pen) (c : Clause) :
  laysOut splitTextToSize q (clauseBlock pageWidth splitTextToSize rw q c)
    (clauseLayout pageWidth rw c).
Proof.
  unfold clauseBlock, clauseLayout. cbv zeta. eapply lays_eq.
  - lay_last ltac:(apply step_down).
    lay_last ltac:(apply lays_rewriteBlock).
    lay_last ltac:(lay_lines).
    lay_last ltac:(apply step_emit; reflexivity).
    lay_last ltac:(lay_lines).
    lay_last ltac:(apply step_emit; reflexivity).
    lay_last ltac:(lay_lines).
    lay_last ltac:(apply step_emit; reflexivity).
    lay_last ltac:(apply step_down).
    lay_last ltac:(lay_string).
    lay_last ltac:(apply step_breakWhen).
    apply lays_refl.
  - unfold clauseHeading. lay_done.
Qed.

Lemma lays_clausesSection (rw : gmap Z jsstring) (a : AnalysisResult) (q : Pen) :
  laysOut splitTextToSize q (clausesSection pageWidth splitTextToSize rw a q)
    (ExpStr (lit "Detailed Clause Analysis")
     :: flat_map (clauseLayout pageWidth rw) (clauses a)).
Proof.
  unfold clausesSection. cbv zeta. eapply lays_eq.
  - lay_last ltac:(apply (step_forEach _ (clauseLayout pageWidth rw));
                   apply lays_clauseBlock).
    lay_last ltac:(apply step_down).
    lay_last ltac:(lay_string).
    apply lays_refl.
  - lay_done.
Qed.

(** The first pen of the report: the banner is drawn, [y] is 35. *)
Lemma lays_header (name : jsstring) (a : AnalysisResult) :
  exists p0,
    textCalls (ops p0) = [docText (TStr (lit "LegalLens India Analysis")) margin 16 None]
    /\ laysOut splitTextToSize p0
         (header pageWidth splitTextToSize numberToString name a)
         [ExpStr (lit "Document: " ++ name);
          ExpStr (lit "Domain: " ++ Domain_value (domain a) ++ lit "   |   Risk Score: "
                    ++ numberToString (overallRiskScore a) ++ lit "/100");
          ExpLines (summary a) (maxTextWidth pageWidth - 10)%Q].
Proof.
  eexists. split; [|unfold header; cbv zeta; eapply lays_eq].
  2:{ lay_last ltac:(apply step_down).
      lay_last ltac:(apply step_withLines; intros ls q';
                     destruct (lines_then_down 0 (margin + 5)%Q 10 ls q')
                       as (x & y0 & al & H);
                     exists x, y0, al; exact H).
      lay_last ltac:(apply step_draw_quiet; reflexivity).
      lay_last ltac:(apply step_down).
      lay_last ltac:(lay_string).
      lay_last ltac:(apply step_down).
      lay_last ltac:(lay_string).
      apply lays_refl. }
  - reflexivity.
  - lay_done.
Qed.

Lemma footers_drawn (n : nat) (l : list nat) :
  Forall2 (drawn splitTextToSize) (List.map (fun i => ExpStr (footerText n i)) l)
    (textCalls (flat_map (footer pageWidth n) l)).
Proof.
  induction l as [|i l IH]; [constructor|].
  cbn [flat_map List.map]. rewrite textCalls_app.
  change (textCalls (footer pageWidth n i))
    with [docText (TStr (footerText n i)) (pageWidth / 2)%Q 290 (Some (lit "center"))].
  cbn [app]. constructor; [|exact IH].
  eexists; eexists; eexists; reflexivity.
Qed.

(** Every call of [doc.text] in a report draws the text that the layout
    has at its place, and every text of the layout is drawn: the banner,
    the two lines about the document, the summary, each non-empty section
    with its heading and its items, the clauses, and one footer per page. *)
Lemma report_is_laid_out (name : jsstring) (rw : gmap Z jsstring) (a : AnalysisResult) :
  Forall2 (drawn splitTextToSize)
    (reportLayout pageWidth numberToString name rw a
       (pageCount (report pageWidth splitTextToSize numberToString name rw a)))
    (textCalls (report pageWidth splitTextToSize numberToString name rw a)).
Proof.
  rewrite pageCount_report.
  change (report pageWidth splitTextToSize numberToString name rw a)
    with (ops (reportBody pageWidth splitTextToSize numberToString name rw a)
          ++ flat_map (footer pageWidth
                         (pageCount (ops (reportBody pageWidth splitTextToSize
                                            numberToString name rw a))))
               (seq 1 (pageCount (ops (reportBody pageWidth splitTextToSize
                                         numberToString name rw a))))
          ++ [save (lit "LegalLens_Report.pdf")]).
  set (n := pageCount (ops (reportBody pageWidth splitTextToSize numberToString name rw a))).
  rewrite !textCalls_app.
  change (textCalls [save (lit "LegalLens_Report.pdf")]) with (@nil PdfOp).
  rewrite app_nil_r.
  destruct (lays_header name a) as (p0 & Hp0 & Hhead).
  pose proof (lays_trans _ _ _ _ _ Hhead
                (lays_trans _ _ _ _ _
                   (lays_nextStepsSection a
                      (header pageWidth splitTextToSize numberToString name a))
                   (lays_trans _ _ _ _ _
                      (lays_redFlagsSection a
                         (nextStepsSection pageWidth splitTextToSize a
                            (header pageWidth splitTextToSize numberToString name a)))
                      (lays_clausesSection rw a
                         (redFlagsSection pageWidth splitTextToSize a
                            (nextStepsSection pageWidth splitTextToSize a
                               (header pageWidth splitTextToSize numberToString
                                  name a)))))))
    as Hbody.
  fold (reportBody pageWidth splitTextToSize numberToString name rw a) in Hbody.
  destruct Hbody as (added & Hadded & Hdrawn).
  rewrite Hadded, Hp0. cbn [app].
  replace (reportLayout pageWidth numberToString name rw a n)
    with (ExpStr (lit "LegalLens India Analysis")
          :: (([ExpStr (lit "Document: " ++ name);
                ExpStr (lit "Domain: " ++ Domain_value (domain a)
                          ++ lit "   |   Risk Score: "
                          ++ numberToString (overallRiskScore a) ++ lit "/100");
                ExpLines (summary a) (maxTextWidth pageWidth - 10)%Q]
               ++ sectionLayout pageWidth nextStepsHeading (nextSteps a)
               ++ sectionLayout pageWidth redFlagsHeading (redFlags a)
               ++ ExpStr (lit "Detailed Clause Analysis")
                  :: flat_map (clauseLayout pageWidth rw) (clauses a))
              ++ List.map (fun i => ExpStr (footerText n i)) (seq 1 n)))
    by (unfold reportLayout; rewrite <- !app_assoc; reflexivity).
  constructor.
  - exists margin, 16%Q, None. reflexivity.
  - apply Forall2_app; [exact Hdrawn | apply footers_drawn].
Qed.

Lemma Forall2_middle {A B} (R : A -> B -> Prop) (pre blk post : list A) (l : list B) :
  Forall2 R (pre ++ blk ++ post) l ->
  exists before block after, l = before ++ block ++ after /\ Forall2 R blk block.
Proof.
  intros H.
  apply Forall2_app_inv_l in H as (before & rest & _ & H & ->).
  apply Forall2_app_inv_l in H as (block & after & H & _ & ->).
  exists before, block, after. split; [reflexivity|exact H].
Qed.

(** C6. The export renders the section of the next steps, heading and
    items, exactly when the list of next steps is not empty, and the
    section of the red flags likewise. The heading "Recommended Next
    Steps" (or "Critical Red Flags") is drawn exactly when its list is not
    empty; an empty list adds no call at all and leaves [y] where it was;
    and the calls of [doc.text] of the whole export are, one for one and in
    order, the texts of the layout, in which a non-empty list stands as its
    heading followed by one bullet item per element and an empty list as
    nothing. *)
Theorem export_sections_iff_nonempty (st : State) (a : AnalysisResult) :
  analysis st = Some a ->
  (rendersHeading nextStepsHeading
     (handleExportPDF pageWidth splitTextToSize numberToString st) = true
   <-> nextSteps a <> [])
  /\ (rendersHeading redFlagsHeading
        (handleExportPDF pageWidth splitTextToSize numberToString st) = true
      <-> redFlags a <> [])
  /\ (nextSteps a = [] ->
      forall p, nextStepsSection pageWidth splitTextToSize a p = p)
  /\ (redFlags a = [] ->
      forall p, redFlagsSection pageWidth splitTextToSize a p = p)
  /\ Forall2 (drawn splitTextToSize)
       (reportLayout pageWidth numberToString (docName st) (rewrites st) a
          (pageCount (handleExportPDF pageWidth splitTextToSize numberToString st)))
       (textCalls (handleExportPDF pageWidth splitTextToSize numberToString st)).
Proof.
  intros Ha. unfold handleExportPDF. rewrite Ha.
  destruct (report_headings pageWidth splitTextToSize numberToString
              (docName st) (rewrites st) a) as [-> ->].
  split; [apply nonempty_length|]. split; [apply nonempty_length|].
  split; [intros H p; apply nextStepsSection_empty; exact H|].
  split; [intros H p; apply redFlagsSection_empty; exact H|].
  apply report_is_laid_out.
Qed.

(** X29. From the button to the file: after a rewrite that the model
    returned for a clause of the loaded result, the next export draws, as
    consecutive calls of [doc.text], the block of that clause ending in the
    heading "Safe Rewrite Suggested:" and the lines of the returned text
    in quotes. *)
Theorem rewrite_reaches_export (E : GeminiService.Env) (a : AnalysisResult)
    (clause : Clause) (w : GeminiService.World E) (session : option GeminiService.Chat)
    (st : ClausePanel.State) (app0 : App.State) (t : jsstring) :
  analysis app0 = Some a ->
  In clause (clauses a) ->
  GeminiService.result
    (GeminiService.rewriteClause E (text clause) (Domain_value (domain a)) w session)
    = Return t ->
  exists before block after,
    textCalls (handleExportPDF pageWidth splitTextToSize numberToString
                 (onRewriteEffects (snd (ClausePanel.handleRewrite E a clause w session st))
                    app0))
    = before ++ block ++ after
    /\ Forall2 (drawn splitTextToSize)
         [ExpStr (clauseHeading clause);
          ExpLines (dquote ++ text clause ++ dquote) (maxTextWidth pageWidth);
          ExpLines (lit "Analysis: " ++ explanation clause) (maxTextWidth pageWidth);
          ExpLines (lit "Indian Law: " ++ indianLawReference clause)
            (maxTextWidth pageWidth);
          ExpStr (lit "Safe Rewrite Suggested:");
          ExpLines (dquote ++ t ++ dquote) (maxTextWidth pageWidth)]
         block.
Proof.
  intros Ha Hin Hr.
  destruct (handleRewrite_panel E a clause w session st) as [_ He].
  rewrite He, Hr. cbn [onRewriteEffects]. unfold handleExportPDF.
  cbn [analysis handleRewriteUpdate docName rewrites]. rewrite Ha.
  pose proof (report_is_laid_out (docName app0)
                (<[ id clause := t ]> (rewrites app0)) a) as Hlay.
  pose proof (rewrite_answer_nonempty E _ _ _ _ _ Hr) as Hne.
  assert (Hblock : clauseLayout pageWidth (<[ id clause := t ]> (rewrites app0)) clause
                   = [ExpStr (clauseHeading clause);
                      ExpLines (dquote ++ text clause ++ dquote) (maxTextWidth pageWidth);
                      ExpLines (lit "Analysis: " ++ explanation clause)
                        (maxTextWidth pageWidth);
                      ExpLines (lit "Indian Law: " ++ indianLawReference clause)
                        (maxTextWidth pageWidth);
                      ExpStr (lit "Safe Rewrite Suggested:");
                      ExpLines (dquote ++ t ++ dquote) (maxTextWidth pageWidth)]).
  { unfold clauseLayout. rewrite lookup_insert_eq.
    destruct t as [|x r]; [congruence|reflexivity]. }
  apply in_split in Hin as (c1 & c2 & Hcl).
  apply (Forall2_middle _
           ([ExpStr (lit "LegalLens India Analysis");
             ExpStr (lit "Document: " ++ docName app0);
             ExpStr (lit "Domain: " ++ Domain_value (domain a)
                       ++ lit "   |   Risk Score: "
                       ++ numberToString (overallRiskScore a) ++ lit "/100");
             ExpLines (summary a) (maxTextWidth pageWidth - 10)%Q]
            ++ sectionLayout pageWidth nextStepsHeading (nextSteps a)
            ++ sectionLayout pageWidth redFlagsHeading (redFlags a)
            ++ [ExpStr (lit "Detailed Clause Analysis")]
            ++ flat_map (clauseLayout pageWidth (<[ id clause := t ]> (rewrites app0))) c1)
           _
           (flat_map (clauseLayout pageWidth (<[ id clause := t ]> (rewrites app0))) c2
            ++ List.map
                 (fun i =>
                    ExpStr (footerText
                              (pageCount (report pageWidth splitTextToSize numberToString
                                            (docName app0)
                                            (<[ id clause := t ]> (rewrites app0)) a))
                              i))
                 (seq 1 (pageCount (report pageWidth splitTextToSize numberToString
                                      (docName app0)
                                      (<[ id clause := t ]> (rewrites app0)) a))))).
  rewrite <- Hblock.
  unfold reportLayout in Hlay. rewrite Hcl, List.flat_map_app in Hlay.
  cbn [flat_map] in Hlay. rewrite <- !app_assoc in Hlay.
  repeat rewrite <- app_assoc. exact Hlay.
Qed.

End OrderFacts.

Lemma export_sections_iff_nonempty_witness :
  App.rendersHeading App.nextStepsHeading
    (App.handleExportPDF 210 Samples.oneLine Samples.decimal Samples.flaggedApp) = true
  /\ App.rendersHeading App.redFlagsHeading
       (App.handleExportPDF 210 Samples.oneLine Samples.decimal Samples.flaggedApp) = true
  /\ Forall2 (App.drawn Samples.oneLine)
       [App.ExpStr (lit "LegalLens India Analysis");
        App.ExpStr (lit "Document: lease.txt");
        App.ExpStr (lit "Domain: Property   |   Risk Score: 80/100");
        App.ExpLines (lit "A short lease.") 170;
        App.ExpStr (lit "Recommended Next Steps");
        App.ExpLines (bullet ++ lit " Register the lease.") 180;
        App.ExpStr (lit "Critical Red Flags");
        App.ExpLines (bullet ++ lit " The deposit can be forfeited.") 180;
        App.ExpStr (lit "Detailed Clause Analysis");
        App.ExpStr (lit "Clause: Deposit [High]");
        App.ExpLines (dquote ++ lit "The deposit is forfeited." ++ dquote) 180;
        App.ExpLines (lit "Analysis: One-sided.") 180;
        App.ExpLines (lit "Indian Law: Section 74, Indian Contract Act") 180;
        App.ExpStr (lit "Generated by LegalLens India - Page 1 of 1")]
       (App.textCalls
          (App.handleExportPDF 210 Samples.oneLine Samples.decimal Samples.flaggedApp)).
Proof.
  destruct (export_sections_iff_nonempty 210 Samples.oneLine Samples.decimal
              Samples.flaggedApp Samples.flaggedResult eq_refl) as (Hn & Hr & _ & _ & Hl).
  split; [apply Hn; discriminate|].
  split; [apply Hr; discriminate|].
  exact Hl.
Defined.

Lemma rewrite_reaches_export_witness :
  exists before block after,
    App.textCalls
      (App.handleExportPDF 210 Samples.oneLine Samples.decimal
         (App.onRewriteEffects
            (snd (ClausePanel.handleRewrite Samples.rewritingEnv Samples.sampleResult
                    Samples.depositClause tt None ClausePanel.initial))
            Samples.freshApp))
    = before ++ block ++ after
    /\ Forall2 (App.drawn Samples.oneLine)
         [App.ExpStr (App.clauseHeading Samples.depositClause);
          App.ExpLines (dquote ++ text Samples.depositClause ++ dquote)
            (App.maxTextWidth 210);
          App.ExpLines (lit "Analysis: " ++ explanation Samples.depositClause)
            (App.maxTextWidth 210);
          App.ExpLines (lit "Indian Law: " ++ indianLawReference Samples.depositClause)
            (App.maxTextWidth 210);
          App.ExpStr (lit "Safe Rewrite Suggested:");
          App.ExpLines (dquote ++ lit "Revised clause." ++ dquote) (App.maxTextWidth 210)]
         block.
Proof.
  apply (rewrite_reaches_export 210 Samples.oneLine Samples.decimal Samples.rewritingEnv
           Samples.sampleResult Samples.depositClause tt None ClausePanel.initial
           Samples.freshApp (lit "Revised clause.")).
  - reflexivity.
  - left. reflexivity.
  - reflexivity.
Defined.

(** ** Bold markup in the transcript *)

Section MarkupFacts.
Import ChatWindow.

Lemma splitStars_nonempty (s cur : jsstring) : splitStars cur s <> [].
Proof.
  revert cur. induction s as [|c r IH]; intros cur; [discriminate|].
  destruct r as [|d r']; [discriminate|].
  change (splitStars cur (c :: d :: r'))
    with (if (c =? 42) && (d =? 42) then rev cur :: splitStars [] r'
          else splitStars (c :: cur) (d :: r')).
  destruct ((c =? 42) && (d =? 42)); [discriminate|apply IH].
Qed.

Lemma join_cons (sep x : jsstring) (l : list jsstring) :
  l <> [] -> join sep (x :: l) = x ++ sep ++ join sep l.
Proof. destruct l; [congruence|reflexivity]. Qed.

Lemma splitStars_join (n : nat) (s cur : jsstring) :
  (List.length s <= n)%nat ->
  join (lit "**") (splitStars cur s) = rev cur ++ s.
Proof.
  revert s cur. induction n as [|n IH]; intros s cur Hn.
  - destruct s; [|simpl in Hn; lia]. simpl. rewrite app_nil_r. reflexivity.
  - destruct s as [|c [|d r']].
    + simpl. rewrite app_nil_r. reflexivity.
    + simpl. reflexivity.
    + change (splitStars cur (c :: d :: r'))
        with (if (c =? 42) && (d =? 42) then rev cur :: splitStars [] r'
              else splitStars (c :: cur) (d :: r')).
      destruct ((c =? 42) && (d =? 42)) eqn:Hcd.
      * apply andb_prop in Hcd as [Hc Hd].
        apply N.eqb_eq in Hc, Hd. subst c d.
        rewrite join_cons by apply splitStars_nonempty.
        rewrite IH by (simpl in Hn |- *; lia). reflexivity.
      * rewrite IH by (simpl in Hn |- *; lia). simpl. rewrite <- app_assoc. reflexivity.
Qed.

Lemma startsWith_nil (s : jsstring) : startsWith s [] = true.
Proof. destruct s; reflexivity. Qed.

Lemma startsWith_cons (c d : N) (s p : jsstring) :
  startsWith (c :: s) (d :: p) = (c =? d) && startsWith s p.
Proof. reflexivity. Qed.

Lemma splitStars_plain (n : nat) (s cur : jsstring) :
  (List.length s <= n)%nat ->
  includes s (lit "**") = false ->
  splitStars cur s = [rev cur ++ s].
Proof.
  revert s cur. induction n as [|n IH]; intros s cur Hn Hinc.
  - destruct s; [|simpl in Hn; lia]. simpl. rewrite app_nil_r. reflexivity.
  - destruct s as [|c [|d r']].
    + simpl. rewrite app_nil_r. reflexivity.
    + simpl. reflexivity.
    + change (splitStars cur (c :: d :: r'))
        with (if (c =? 42) && (d =? 42) then rev cur :: splitStars [] r'
              else splitStars (c :: cur) (d :: r')).
      cbn [includes] in Hinc.
      apply orb_false_elim in Hinc as [Hhere Hrest].
      change (lit "**") with [42; 42] in Hhere.
      rewrite !startsWith_cons, startsWith_nil, andb_true_r in Hhere. rewrite Hhere.
      rewrite IH; [|simpl in Hn |- *; lia|exact Hrest].
      simpl. rewrite <- app_assoc. reflexivity.
Qed.

(** X30. Drawing a message loses nothing but the markers: the parts, put
    together again with two asterisks between them, are the message; and a
    message without two asterisks in a row is drawn as one plain part. *)
Theorem bold_markup_round_trip (t : jsstring) :
  join (lit "**") (List.map snd (renderText t)) = t
  /\ (includes t (lit "**") = false -> renderText t = [(false, t)]).
Proof.
  unfold renderText. split.
  - assert (Hmap : forall (l : list jsstring) (k : nat),
               List.map snd (imap (fun i part => (Nat.odd (k + i), part)) l) = l).
    { induction l as [|x l IHl]; intros k; [reflexivity|].
      rewrite imap_cons. cbn [List.map snd]. f_equal.
      rewrite <- (IHl (S k)) at 2. f_equal. apply imap_ext. intros i y _.
      unfold compose. f_equal. f_equal. lia. }
    rewrite (Hmap _ 0%nat). apply (splitStars_join (List.length t) t []). lia.
  - intros H. rewrite (splitStars_plain (List.length t) t [] (Nat.le_refl _) H).
    reflexivity.
Qed.

End MarkupFacts.

(** A message with a pair of markers: the part between them is bold. *)
Example bold_part :
  ChatWindow.renderText (lit "Clause 4 is **void** in India.")
  = [(false, lit "Clause 4 is "); (true, lit "void"); (false, lit " in India.")].
Proof. reflexivity. Qed.
